(** * Florida results loaders ([openelex/us/fl/load.py])

    A shallow embedding of the two Florida loaders of openelections-core,
    [FlLoader] (county-summary files) and [PrecinctLoader] (precinct-detail
    files), and of the entry point [LoadResults.run] that chooses between
    them, together with the properties of the loaders that the design
    document states.

    The embedding follows the Python source function by function:
    - a row of the tab-delimited file is the dictionary that
      [unicodecsv.DictReader] yields, a finite map from column names to
      values: the text of a cell, or [None] for a column that a short line
      leaves unfilled. The loaders are Python 2 code: the text of a cell is
      a [unicode] string, [str(...)] of it encodes it as ASCII, and the
      methods of [None] and of the two string types fail or differ as they
      do there;
    - keyword-argument dictionaries and the [RawResult] documents built from
      them are finite maps from attribute names to Python values;
    - exceptions are the left summand of a sum type, and [try]/[except] is
      [catch];
    - the store ([RawResult.objects.insert]) and the logger are an explicit
      world that [load] threads through.

    Code of the repository that is not in [load.py] ([slugify],
    [ocd_type_id], the slug properties of [RawResult], the common election
    attributes of [BaseLoader] and the jurisdiction table of [Datasource]) is
    taken as a parameter of the loaders. *)

From Stdlib Require Import ZArith Lia Ascii String List.
From stdpp Require Import base option list gmap strings.

(** ** Python strings

    Text read with [encoding='latin-1'] has one character per byte, so a
    Python string is a Rocq [string]: both a [unicode] text and the byte
    string that [str] makes of an ASCII one. The two types differ in what
    [strip()] removes. *)
Module PyStr.

Definition code (c : ascii) : N := N_of_ascii c.

(** The characters [unicode.strip()] removes, in the latin-1 range. *)
Definition is_space (c : ascii) : bool :=
  let n := code c in
  ((9 <=? n) && (n <=? 13) || (28 <=? n) && (n <=? 32)
   || (n =? 133) || (n =? 160))%N.

Fixpoint lstrip (s : string) : string :=
  match s with
  | EmptyString => EmptyString
  | String c s' => if is_space c then lstrip s' else s
  end.

Fixpoint rstrip (s : string) : string :=
  match s with
  | EmptyString => EmptyString
  | String c s' =>
      match rstrip s' with
      | EmptyString => if is_space c then EmptyString else String c EmptyString
      | t => String c t
      end
  end.

(** [s.strip()] *)
Definition strip (s : string) : string := rstrip (lstrip s).

(** Case mapping of one character: the ASCII letters, and the latin-1
    letters whose other case is a latin-1 character too. *)
Definition upper_char (c : ascii) : ascii :=
  let n := code c in
  if ((97 <=? n) && (n <=? 122)
      || (224 <=? n) && (n <=? 254) && negb (n =? 247))%N
  then ascii_of_N (n - 32) else c.

Definition lower_char (c : ascii) : ascii :=
  let n := code c in
  if ((65 <=? n) && (n <=? 90)
      || (192 <=? n) && (n <=? 222) && negb (n =? 215))%N
  then ascii_of_N (n + 32) else c.

Fixpoint map_chars (f : ascii -> ascii) (s : string) : string :=
  match s with
  | EmptyString => EmptyString
  | String c s' => String (f c) (map_chars f s')
  end.

(** [s.upper()] and [s.lower()] *)
Definition upper : string -> string := map_chars upper_char.
Definition lower : string -> string := map_chars lower_char.

(** [o in s] for two strings: [o] occurs in [s] as a substring. *)
Fixpoint contains (o s : string) : bool :=
  String.prefix o s
  || match s with
     | EmptyString => false
     | String _ s' => contains o s'
     end.

(** [sep.join(bits)] *)
Fixpoint join (sep : string) (bits : list string) : string :=
  match bits with
  | [] => EmptyString
  | [b] => b
  | b :: bs => b +:+ sep +:+ join sep bs
  end.

(** [len(s)] *)
Definition len (s : string) : nat := String.length s.

(** Every character of [s] is an ASCII character: [s] can be encoded with
    the [ascii] codec, which [str(s)] uses. *)
Fixpoint is_ascii (s : string) : bool :=
  match s with
  | EmptyString => true
  | String c s' => (code c <? 128)%N && is_ascii s'
  end.

(** The characters [strip()] removes from a byte string ([str]): the ASCII
    white space only, unlike [unicode.strip()]. *)
Definition is_space_byte (c : ascii) : bool :=
  let n := code c in
  ((9 <=? n) && (n <=? 13) || (n =? 32))%N.

Fixpoint lstrip_bytes (s : string) : string :=
  match s with
  | EmptyString => EmptyString
  | String c s' => if is_space_byte c then lstrip_bytes s' else s
  end.

Fixpoint rstrip_bytes (s : string) : string :=
  match s with
  | EmptyString => EmptyString
  | String c s' =>
      match rstrip_bytes s' with
      | EmptyString =>
          if is_space_byte c then EmptyString else String c EmptyString
      | t => String c t
      end
  end.

(** [s.strip()] for a byte string [s] *)
Definition strip_bytes (s : string) : string := rstrip_bytes (lstrip_bytes s).

End PyStr.

(** ** Python floats: [float(s)] and [int(x)]

    A float is kept exactly: a finite double is [(-1)^neg * m * 2^e] with
    [m < 2^53]. [float] reads the literal as a fraction and rounds it to the
    nearest double, ties to even; a literal beyond the largest double
    becomes an infinity, as in Python. The literals are those of the
    [float] of Python 2, which the loaders were written for: an optional
    sign, then [inf], [infinity] or [nan] in any case, or decimal digits
    with an optional point and an optional exponent. *)
Module PyFloat.
Local Open Scope Z_scope.

Inductive t : Type :=
| Finite (neg : bool) (m e : Z)
| Inf (neg : bool)
| NaN.

Definition is_digit (c : ascii) : bool :=
  let n := PyStr.code c in ((48 <=? n) && (n <=? 57))%N.

Definition digit_val (c : ascii) : Z := Z.of_N (PyStr.code c - 48).

Fixpoint span_digits (l : list ascii) : list ascii * list ascii :=
  match l with
  | [] => ([], [])
  | c :: l' =>
      if is_digit c
      then let '(ds, r) := span_digits l' in (c :: ds, r)
      else ([], l)
  end.

Definition digits_val (ds : list ascii) : Z :=
  fold_left (fun acc c => 10 * acc + digit_val c) ds 0.

(** [n / d >= 2^k], for [d > 0]. *)
Definition ge_pow2 (n d k : Z) : bool :=
  if 0 <=? k then d * 2 ^ k <=? n else d <=? n * 2 ^ (- k).

(** Round the fraction [n / d] ([n >= 0], [d > 0]) to a double. *)
Definition round_b64 (neg : bool) (n d : Z) : t :=
  if n =? 0 then Finite neg 0 0 else
  let e0 := Z.log2 n - Z.log2 d in
  let e := if ge_pow2 n d e0 then e0 else e0 - 1 in
  let qe := Z.max e (-1022) - 52 in
  let num := if 0 <=? qe then n else n * 2 ^ (- qe) in
  let den := if 0 <=? qe then d * 2 ^ qe else d in
  let q := num / den in
  let r := num mod den in
  let m := if (den <? 2 * r) || ((den =? 2 * r) && Z.odd q) then q + 1 else q in
  if (971 <? qe) || ((qe =? 971) && (2 ^ 53 <=? m))
  then Inf neg else Finite neg m qe.

Definition parse_sign (l : list ascii) : bool * list ascii :=
  match l with
  | "-"%char :: r => (true, r)
  | "+"%char :: r => (false, r)
  | _ => (false, l)
  end.

(** The exponent part of a literal: nothing, or [e], an optional sign and
    at least one digit, up to the end of the literal. *)
Definition parse_exponent (l : list ascii) : option Z :=
  match l with
  | [] => Some 0
  | c :: r =>
      if bool_decide (c = "e"%char \/ c = "E"%char) then
        let '(eneg, r1) := parse_sign r in
        match span_digits r1 with
        | ((_ :: _) as ds, []) =>
            Some (if eneg then - digits_val ds else digits_val ds)
        | _ => None
        end
      else None
  end.

(** A decimal literal: digits with an optional point, at least one digit,
    and an optional exponent. The result is [(M, E)], the literal being
    [M * 10^E]. *)
Definition parse_decimal (l : list ascii) : option (Z * Z) :=
  let '(ip, r1) := span_digits l in
  let '(fp, r2) :=
    match r1 with
    | "."%char :: r => span_digits r
    | _ => ([], r1)
    end in
  match ip ++ fp with
  | [] => None
  | ds =>
      match parse_exponent r2 with
      | Some ex => Some (digits_val ds, ex - Z.of_nat (length fp))
      | None => None
      end
  end.

(** [float(s)]; [None] is Python's [ValueError]. *)
Definition of_string (s : string) : option t :=
  let '(neg, body) := parse_sign (list_ascii_of_string (PyStr.strip s)) in
  let word := PyStr.lower (string_of_list_ascii body) in
  if bool_decide (word = "inf" \/ word = "infinity") then Some (Inf neg)
  else if bool_decide (word = "nan") then Some NaN
  else
    match parse_decimal body with
    | Some (m, ex) =>
        Some (if 0 <=? ex then round_b64 neg (m * 10 ^ ex) 1
              else round_b64 neg m (10 ^ (- ex)))
    | None => None
    end.

(** The integer part of a finite double, towards zero. *)
Definition trunc (neg : bool) (m e : Z) : Z :=
  let a := if 0 <=? e then m * 2 ^ e else m / 2 ^ (- e) in
  if neg then - a else a.

End PyFloat.

(** ** Exceptions and the error monad *)

Inductive exn : Type :=
| KeyError (key : string)
| AttributeError
| TypeError
| IndexError
| ValueError
| UnicodeEncodeError
| OverflowError.

Global Instance exn_eq_dec : EqDecision exn.
Proof. solve_decision. Defined.

(** A computation that returns a value or raises. *)
Definition res (A : Type) : Type := exn + A.

Abbreviation Ok := (@inr exn _).
Abbreviation Raise := (@inl exn _).

Global Instance res_ret : MRet res := fun A x => inr x.
Global Instance res_bind : MBind res := fun A B f m =>
  match m with
  | inl e => inl e
  | inr x => f x
  end.

(** [isinstance(e, cls)] for two of these exceptions: the only proper
    subclass among them is [UnicodeEncodeError], a [ValueError]. *)
Definition is_a (e cls : exn) : bool :=
  bool_decide (e = cls)
  || match e, cls with
     | UnicodeEncodeError, ValueError => true
     | _, _ => false
     end.

(** [try: body except cls: handler] *)
Definition catch {A : Type} (body : res A) (cls : exn) (handler : res A) : res A :=
  match body with
  | inl e => if is_a e cls then handler else inl e
  | inr x => inr x
  end.

(** [int(x)] for a float [x]. *)
Definition py_int (x : PyFloat.t) : res Z :=
  match x with
  | PyFloat.Finite neg m e => Ok (PyFloat.trunc neg m e)
  | PyFloat.Inf _ => Raise OverflowError
  | PyFloat.NaN => Raise ValueError
  end.

(** [float(s)] for a string [s]. *)
Definition py_float (s : string) : res PyFloat.t :=
  match PyFloat.of_string s with
  | Some x => Ok x
  | None => Raise ValueError
  end.

(** ** Python values, rows and documents *)

Inductive pyval : Type :=
| VNone
| VBool (b : bool)
| VInt (z : Z)
| VStr (s : string).

Global Instance pyval_eq_dec : EqDecision pyval.
Proof. solve_decision. Defined.

(** Truth value of [v] in a condition. *)
Definition truthy (v : pyval) : bool :=
  match v with
  | VNone => false
  | VBool b => b
  | VInt z => negb (z =? 0)%Z
  | VStr s => negb (bool_decide (s = ""))
  end.

(** One parsed line of a source file: the dictionary the reader yields.
    The value of a column is the text of its cell, or [None] when the line
    has too few cells to reach the column. *)
Abbreviation Row := (gmap string (option string)).

(** A keyword-argument dictionary, and the document that the constructor
    of [RawResult] builds from one: a document with these attributes. *)
Abbreviation Kwargs := (gmap string pyval).
Abbreviation RawResult := (gmap string pyval).

(** [row[k]] *)
Definition getitem (row : Row) (k : string) : res (option string) :=
  match row !! k with
  | Some v => Ok v
  | None => Raise (KeyError k)
  end.

(** The value [v] of a cell where the code needs a string; on [None] the
    operation raises [e]: [AttributeError] for a method call
    ([None.strip()], [None.upper()]), [TypeError] for an operator
    ([o in None], [None + ' '], [float(None)]). *)
Definition text_of (e : exn) (v : option string) : res string :=
  match v with
  | Some s => Ok s
  | None => Raise e
  end.

(** [row[k]], used as a string by an operation that raises [e] on [None]. *)
Definition field (e : exn) (row : Row) (k : string) : res string :=
  v ← getitem row k; text_of e v.

(** The value of a cell as an attribute of a document. *)
Definition val_of (v : option string) : pyval :=
  match v with
  | Some s => VStr s
  | None => VNone
  end.

(** [str(v)] for the value of a cell: the text encoded as ASCII, which
    fails on any other character; [str(None)] is ['None']. *)
Definition py_str (v : option string) : res string :=
  match v with
  | Some s => if PyStr.is_ascii s then Ok s else Raise UnicodeEncodeError
  | None => Ok "None"
  end.

(** [[x for x in l if cond(x)]]: the condition is evaluated for each
    element in turn, and not at all when [l] is empty. *)
Fixpoint comprehension {A : Type} (cond : A -> res bool) (l : list A)
    : res (list A) :=
  match l with
  | [] => Ok []
  | x :: l' =>
      b ← cond x;
      rest ← comprehension cond l';
      Ok (if (b : bool) then x :: rest else rest)
  end.

(** [d.update(new)] *)
Definition update (d new : Kwargs) : Kwargs := new ∪ d.

(** [r.k] for a field the document class declares: [None] when not set. *)
Definition attr (r : RawResult) (k : string) : pyval := default VNone (r !! k).

(** [sep.join(bits)] raises unless every bit is a string. *)
Definition as_str (v : pyval) : res string :=
  match v with
  | VStr s => Ok s
  | _ => Raise TypeError
  end.

Fixpoint strs_of (bits : list pyval) : res (list string) :=
  match bits with
  | [] => Ok []
  | v :: bits' => s ← as_str v; ss ← strs_of bits'; Ok (s :: ss)
  end.

Definition join_vals (sep : string) (bits : list pyval) : res string :=
  ss ← strs_of bits; Ok (PyStr.join sep ss).

(** An entry of the jurisdiction table of [Datasource._jurisdictions()]. *)
Record jurisdiction : Type := Jurisdiction { county : string; ocd_id : string }.

(** ** The world outside the loader: the store and the log *)

Record world : Type := World {
  store : list (list RawResult);   (* the batches given to [insert], in order *)
  log : list string                (* the lines given to [logging.info] *)
}.

(** [RawResult.objects.insert(results)] *)
Definition insert (results : list RawResult) (w : world) : world :=
  World (store w ++ [results]) (log w).

(** [logging.info(msg)] *)
Definition logging_info (msg : string) (w : world) : world :=
  World (store w) (log w ++ [msg]).

(** ** What [load.py] imports from the rest of the repository *)

Class Env : Type := {
(** [openelex.lib.text.slugify(text, substitute=...)]; [None] when the
    call leaves [substitute] at its default. *)
slugify : string -> option string -> string;
(** [openelex.lib.text.ocd_type_id] *)
ocd_type_id : string -> string;
(** The [contest_slug] and [candidate_slug] properties of [RawResult]. *)
contest_slug : RawResult -> string;
candidate_slug : RawResult -> string;
(** [self.mapping['ocd_id']] *)
mapping_ocd_id : string;
(** The value of [self._build_common_election_kwargs()] ([BaseLoader]). *)
_build_common_election_kwargs : Kwargs;
(** The value of [self.datasource._jurisdictions()]. *)
_jurisdictions : list jurisdiction
}.

(** ** [FlLoader]: county-summary files *)
Module FlLoader.

(** The class attributes [target_offices] and [district_offices]: sets of
    strings, used for membership tests and, in the precinct loader, for an
    [any] over their members. *)
Definition target_offices : list string := [
  "U.S. President by Congressional District";
  "President of the United States";
  "United States Senator";
  "United States Representative";
  "State Representative";
  "State Senate";
  "State Senator";
  "Governor";
  "Governor and Lieutenant Governor";
  "Attorney General";
  "Chief Financial Officer";
  "Commissioner of Agriculture"
].

Definition district_offices : list string := [
  "United States Representative";
  "State Representative";
  "State Senate";
  "State Senator"
].

Definition _skip_row (row : Row) : res bool :=
  office ← field AttributeError row "OfficeDesc";
  Ok (negb (bool_decide (PyStr.strip office ∈ target_offices))).

Definition _build_contest_kwargs (row : Row) : res Kwargs :=
  office ← field AttributeError row "OfficeDesc";
  let kwargs : Kwargs := {[ "office" := VStr (PyStr.strip office) ]} in
  if bool_decide (PyStr.strip office ∈ district_offices) then
    num ← field AttributeError row "Juris1num";
    Ok (<[ "district" := VStr (PyStr.strip num) ]> kwargs)
  else Ok kwargs.

Definition _build_candidate_kwargs (row : Row) : res Kwargs :=
  last ← field AttributeError row "CanNameLast";
  first ← field AttributeError row "CanNameFirst";
  middle ← field AttributeError row "CanNameMiddle";
  Ok (<[ "family_name" := VStr (PyStr.strip last) ]>
      (<[ "given_name" := VStr (PyStr.strip first) ]>
       {[ "additional_name" := VStr (PyStr.strip middle) ]})).

(** [_votes(val)] for a text [val]. The [type(val) is str] test makes a
    blank byte string 0 at once; a blank [unicode] text, which is what a
    cell holds, goes on to [float], whose [ValueError] the handler turns
    into 0 as well (lemmas [of_string_blank] and [votes_cases]), so the
    blank case is written once. *)
Definition _votes (val : string) : res Z :=
  if bool_decide (PyStr.strip val = "") then Ok 0%Z
  else catch (x ← py_float val; py_int x) ValueError (Ok 0%Z).

(** [_votes(val)] for the value of a cell: [float(None)] raises a
    [TypeError], which [_votes] does not catch. *)
Definition _votes_val (val : option string) : res Z :=
  match val with
  | Some s => _votes s
  | None => Raise TypeError
  end.

Section WithEnv.
Context `{Env}.

Definition _build_result_kwargs (row : Row) : res Kwargs :=
  name ← field AttributeError row "CountyName";
  let jurisdiction := PyStr.strip name in
  party ← field AttributeError row "PartyName";
  votes ← field AttributeError row "CanVotes";
  let kwargs : Kwargs :=
    <[ "party" := VStr (PyStr.strip party) ]>
    (<[ "jurisdiction" := VStr jurisdiction ]>
     (<[ "ocd_id" :=
           VStr (mapping_ocd_id +:+ "/county:" +:+ ocd_type_id jurisdiction) ]>
      {[ "votes" := VStr (PyStr.strip votes) ]})) in
  office ← field AttributeError row "OfficeDesc";
  if bool_decide (PyStr.strip office = "U.S. President by Congressional District")
  then
    num ← field AttributeError row "Juris1num";
    Ok (<[ "reporting_district" := VStr (PyStr.strip num) ]>
        (<[ "reporting_level" := VStr "congressional_district_by_county" ]>
         kwargs))
  else Ok (<[ "reporting_level" := VStr "county" ]> kwargs).

(** [_prep_result], with [common] the value of [self._common_kwargs]. *)
Definition _prep_result (common : Kwargs) (row : Row) : res RawResult :=
  let result_kwargs := common in
  contest ← _build_contest_kwargs row;
  let result_kwargs := update result_kwargs contest in
  candidate ← _build_candidate_kwargs row;
  let result_kwargs := update result_kwargs candidate in
  result ← _build_result_kwargs row;
  let result_kwargs := update result_kwargs result in
  Ok result_kwargs.

(** [_key]: [district] is a declared field of the document, read with
    a truth test; [reporting_district] is not, and reading it when it
    was never set raises the [AttributeError] that [_key] catches. *)
Definition _key (rawresult : RawResult) : res string :=
  name ← as_str (attr rawresult "jurisdiction");
  let bits := [VStr (contest_slug rawresult);
               VStr (candidate_slug rawresult);
               VStr (slugify name None)] in
  let bits :=
    if truthy (attr rawresult "district")
    then bits ++ [attr rawresult "district"] else bits in
  let bits :=
    match rawresult !! "reporting_district" with
    | Some v => bits ++ [v]
    | None => bits
    end in
  join_vals "-" bits.

(** The body of the [for row in reader] loop of [load], from the state
    [(results, seen)] the loop keeps. *)
Fixpoint load_rows (common : Kwargs) (rows : list Row)
    (results : list RawResult) (seen : gset string) (w : world)
    : res (list RawResult) * world :=
  match rows with
  | [] => (Ok results, w)
  | row :: rows' =>
      match _skip_row row with
      | inl e => (inl e, w)
      | inr true =>
          match field AttributeError row "OfficeDesc" with
          | inl e => (inl e, w)
          | inr office =>
              let office_name := PyStr.strip office in
              let w' :=
                if (PyStr.len office_name <? 100)%nat
                then logging_info
                       ("Skipping result for office '" +:+ office_name +:+ "'") w
                else w in
              load_rows common rows' results seen w'
          end
      | inr false =>
          match result ← _prep_result common row;
                key ← _key result;
                Ok (result, key) with
          | inl e => (inl e, w)
          | inr (result, key) =>
              if bool_decide (key ∈ seen)
              then load_rows common rows' results seen w
              else load_rows common rows' (results ++ [result])
                     ({[ key ]} ∪ seen) w
          end
      end
  end.

(** [load], on the rows the reader yields from the file. *)
Definition load (rows : list Row) (w : world) : res unit * world :=
  let common := _build_common_election_kwargs in
  match load_rows common rows [] ∅ w with
  | (inl e, w') => (inl e, w')
  | (inr results, w') => (Ok tt, insert results w')
  end.

End WithEnv.
End FlLoader.

(** ** [PrecinctLoader]: precinct-detail files

    The subclass overrides [load], [_skip_row], [_build_contest_kwargs] and
    [_build_candidate_kwargs]; [_votes] and [_key] are the ones it
    inherits. *)
Module PrecinctLoader.


Definition _skip_row (row : Row) : res bool :=
  name ← field TypeError row "contest_name";
  if existsb (fun o => PyStr.contains o name) FlLoader.target_offices
  then Ok false else Ok true.

Definition _build_contest_kwargs (row : Row) : res Kwargs :=
  name ← getitem row "contest_name";
  district ← field AttributeError row "district";
  Ok (<[ "office" := val_of name ]> {[ "district" := VStr (PyStr.strip district) ]}).

Section WithEnv.
Context `{Env}.

(** [_build_candidate_kwargs] assigns to [row['candidate']]: it returns
    the row as it leaves it, next to the dictionary. *)
Definition _build_candidate_kwargs (row : Row) : res (Kwargs * Row) :=
  c ← field AttributeError row "candidate";
  let row : Row :=
    if bool_decide (PyStr.strip c = "UnderVotes")
    then <[ "candidate" := Some "Under Votes" ]> row
    else if bool_decide (PyStr.strip c = "OverVotes")
    then <[ "candidate" := Some "Over Votes" ]> row
    else if bool_decide (PyStr.strip c = "WriteinVotes")
    then <[ "candidate" := Some "Write-ins" ]> row
    else row in
  c ← field AttributeError row "candidate";
  let full_name := PyStr.strip c in
  let slug := slugify full_name (Some "-") in
  Ok (<[ "full_name" := VStr full_name ]> {[ "name_slug" := VStr slug ]}, row).

(** The condition of the list comprehension of [_prep_precinct_result],
    for the entry [c] of the table:
    [c['county'].upper() == row['county_name'].upper() + ' COUNTY']. *)
Definition is_county_of (row : Row) (c : jurisdiction) : res bool :=
  county_name ← field AttributeError row "county_name";
  Ok (bool_decide
        (PyStr.upper (county c) = PyStr.upper county_name +:+ " COUNTY")).

(** The entries of the table that the condition selects for a row whose
    county name is the string [county_name]. *)
Definition matching (county_name : string) : list jurisdiction :=
  filter (fun c => PyStr.upper (county c) = PyStr.upper county_name +:+ " COUNTY")
         _jurisdictions.

Definition _prep_precinct_result (common : Kwargs) (row : Row) : res RawResult :=
  let kwargs := common in
  contest ← _build_contest_kwargs row;
  let kwargs := update kwargs contest in
  '(candidate, row) ← _build_candidate_kwargs row;
  let kwargs := update kwargs candidate in
  precinct_id ← field TypeError row "precinct_id";
  polling_location ← field TypeError row "polling_location";
  precinct ← py_str (Some (precinct_id +:+ " " +:+ polling_location));
  let precinct := PyStr.strip_bytes precinct in
  found ← comprehension (is_county_of row) _jurisdictions;
  county_ocd_id ←
    match found with
    | c :: _ => Ok (ocd_id c)
    | [] => Raise IndexError
    end;
  county_name ← getitem row "county_name";
  precinct_id ← getitem row "precinct_id";
  id_text ← py_str precinct_id;
  party ← field AttributeError row "party";
  raw_votes ← getitem row "votes";
  votes ← FlLoader._votes_val raw_votes;
  Ok (update kwargs
        (<[ "reporting_level" := VStr "precinct" ]>
         (<[ "jurisdiction" := VStr precinct ]>
          (<[ "parent_jurisdiction" := val_of county_name ]>
           (<[ "ocd_id" :=
                 VStr (county_ocd_id +:+ "/precinct:" +:+ ocd_type_id id_text) ]>
            (<[ "party" := VStr (PyStr.strip party) ]>
             {[ "votes" := VInt votes ]})))))).

(** The [for row in reader] loop of [load]. *)
Fixpoint load_rows (common : Kwargs) (rows : list Row)
    (results : list RawResult) : res (list RawResult) :=
  match rows with
  | [] => Ok results
  | row :: rows' =>
      skip ← _skip_row row;
      if (skip : bool) then load_rows common rows' results
      else
        result ← _prep_precinct_result common row;
        load_rows common rows' (results ++ [result])
  end.

Definition load (rows : list Row) (w : world) : res unit * world :=
  let common := _build_common_election_kwargs in
  let common := <[ "reporting_level" := VStr "precinct" ]> common in
  match load_rows common rows [] with
  | inl e => (inl e, w)
  | inr results => (Ok tt, insert results w)
  end.

End WithEnv.
End PrecinctLoader.

(** ** [LoadResults]: the entry point *)
Module LoadResults.

(** [run(mapping)]: the loader is chosen from
    [mapping['generated_filename']], and its [run] loads the file. *)
Definition run `{Env} (generated_filename : string) (rows : list Row)
    (w : world) : res unit * world :=
  if PyStr.contains "precinct" generated_filename
  then PrecinctLoader.load rows w
  else FlLoader.load rows w.

End LoadResults.

(** ** A concrete environment

    The theorems below hold for every environment. To run the loaders on
    concrete files one is fixed here. *)
Module Sample.

Definition is_alnum (c : ascii) : bool :=
  let n := PyStr.code (PyStr.lower_char c) in
  ((48 <=? n) && (n <=? 57) || (97 <=? n) && (n <=? 122))%N.

Fixpoint slug_chars (sub : string) (in_run : bool) (s : string) : string :=
  match s with
  | EmptyString => EmptyString
  | String c s' =>
      if is_alnum c then String (PyStr.lower_char c) (slug_chars sub false s')
      else if in_run then slug_chars sub true s'
      else sub +:+ slug_chars sub true s'
  end.

(** Modelled from the spec: [slugify] of [openelex.lib.text], which is not
    under [src/]. The design document describes the slug of a name as
    lowercase, with non-alphanumeric runs collapsed to a single hyphen. *)
Definition slugify (text : string) (substitute : option string) : string :=
  slug_chars (default "-" substitute) false text.

(** Modelled from the spec: [ocd_type_id] of [openelex.lib.text], which is
    not under [src/]. The design document fixes it by one example only (the
    county [Leon] gives a code ending in [county:leon]); the lowercase map
    agrees with it. *)
Definition ocd_type_id (text : string) : string := PyStr.lower text.

Definition str_attr (r : RawResult) (k : string) : string :=
  match r !! k with
  | Some (VStr s) => s
  | _ => ""
  end.

(** Modelled from the spec: the [contest_slug] and [candidate_slug]
    properties of [RawResult] ([openelex.models], not under [src/]), slugs
    derived from the names of the contest and of the candidate by the rule
    of [slugify]. *)
Definition contest_slug (r : RawResult) : string :=
  slugify (str_attr r "office") None.

Definition candidate_slug (r : RawResult) : string :=
  if truthy (attr r "full_name") then slugify (str_attr r "full_name") None
  else slugify (str_attr r "family_name" +:+ " " +:+ str_attr r "given_name"
                +:+ " " +:+ str_attr r "additional_name") None.

Definition common : Kwargs :=
  <[ "election_id" := VStr "fl-2012-11-06-general" ]>
  (<[ "state" := VStr "FL" ]>
   (<[ "start_date" := VStr "2012-11-06" ]>
    {[ "result_type" := VStr "certified" ]})).

Definition table : list jurisdiction := [
  Jurisdiction "Alachua County" "ocd-division/country:us/state:fl/county:alachua";
  Jurisdiction "Leon County" "ocd-division/country:us/state:fl/county:leon"
].

(** The environment with the jurisdiction table [t]. *)
Definition env_with (t : list jurisdiction) : Env :=
  Build_Env slugify ocd_type_id contest_slug candidate_slug
    "ocd-division/country:us/state:fl" common t.

Definition env : Env := env_with table.

(** Rows of a county-summary file and of a precinct-detail file. *)
Definition county_row (office num county last first votes : string) : Row :=
  <[ "OfficeDesc" := Some office ]>
  (<[ "Juris1num" := Some num ]>
   (<[ "CountyName" := Some county ]>
    (<[ "CanNameLast" := Some last ]>
     (<[ "CanNameFirst" := Some first ]>
      (<[ "CanNameMiddle" := Some "" ]>
       (<[ "PartyName" := Some "Democrat" ]>
        {[ "CanVotes" := Some votes ]})))))).

Definition precinct_row (county contest district candidate votes : string) : Row :=
  <[ "county_name" := Some county ]>
  (<[ "precinct_id" := Some "12" ]>
   (<[ "polling_location" := Some "Town Hall" ]>
    (<[ "contest_name" := Some contest ]>
     (<[ "district" := Some district ]>
      (<[ "candidate" := Some candidate ]>
       (<[ "party" := Some "NPA" ]>
        {[ "votes" := Some votes ]})))))).

(** A document, from the list of its attributes. *)
Definition doc (attributes : list (string * pyval)) : RawResult :=
  list_to_map attributes.

(** A precinct row of the presidential contest by congressional district,
    and the result the precinct loader builds from it. *)
Definition president_row : Row :=
  precinct_row "Leon" "U.S. President by Congressional District" "2"
    "Obama / Biden" "311".

Definition president_result : RawResult :=
  doc [("election_id", VStr "fl-2012-11-06-general");
       ("state", VStr "FL");
       ("start_date", VStr "2012-11-06");
       ("result_type", VStr "certified");
       ("office", VStr "U.S. President by Congressional District");
       ("district", VStr "2");
       ("full_name", VStr "Obama / Biden");
       ("name_slug", VStr "obama-biden");
       ("reporting_level", VStr "precinct");
       ("jurisdiction", VStr "12 Town Hall");
       ("parent_jurisdiction", VStr "Leon");
       ("ocd_id",
        VStr "ocd-division/country:us/state:fl/county:leon/precinct:12");
       ("party", VStr "NPA");
       ("votes", VInt 311)].

(** A precinct row that counts write-in votes, and its result. *)
Definition writein_row : Row :=
  precinct_row "Leon" "Governor" "" " WriteinVotes" "7".

Definition writein_result : RawResult :=
  doc [("election_id", VStr "fl-2012-11-06-general");
       ("state", VStr "FL");
       ("start_date", VStr "2012-11-06");
       ("result_type", VStr "certified");
       ("office", VStr "Governor");
       ("district", VStr "");
       ("full_name", VStr "Write-ins");
       ("name_slug", VStr "write-ins");
       ("reporting_level", VStr "precinct");
       ("jurisdiction", VStr "12 Town Hall");
       ("parent_jurisdiction", VStr "Leon");
       ("ocd_id",
        VStr "ocd-division/country:us/state:fl/county:leon/precinct:12");
       ("party", VStr "NPA");
       ("votes", VInt 7)].

(** The result of a precinct row of the contest for governor in Leon county,
    with the given vote count. *)
Definition governor_result (votes : Z) : RawResult :=
  doc [("election_id", VStr "fl-2012-11-06-general");
       ("state", VStr "FL");
       ("start_date", VStr "2012-11-06");
       ("result_type", VStr "certified");
       ("office", VStr "Governor");
       ("district", VStr "5");
       ("full_name", VStr "Scott / Carroll");
       ("name_slug", VStr "scott-carroll");
       ("reporting_level", VStr "precinct");
       ("jurisdiction", VStr "12 Town Hall");
       ("parent_jurisdiction", VStr "Leon");
       ("ocd_id",
        VStr "ocd-division/country:us/state:fl/county:leon/precinct:12");
       ("party", VStr "NPA");
       ("votes", VInt votes)].

Definition governor_row (votes : string) : Row :=
  precinct_row "Leon" "Governor" "5" "Scott / Carroll" votes.

(** The result of a county row of Leon county, from its office, the names of
    the candidate, the text of the vote count, the reporting level, and the
    attributes that only some offices have. *)
Definition county_result (office last first votes level : string)
    (more : list (string * pyval)) : RawResult :=
  doc (more ++
       [("election_id", VStr "fl-2012-11-06-general");
        ("state", VStr "FL");
        ("start_date", VStr "2012-11-06");
        ("result_type", VStr "certified");
        ("office", VStr office);
        ("family_name", VStr last);
        ("given_name", VStr first);
        ("additional_name", VStr "");
        ("party", VStr "Democrat");
        ("jurisdiction", VStr "Leon");
        ("ocd_id", VStr "ocd-division/country:us/state:fl/county:leon");
        ("votes", VStr votes);
        ("reporting_level", VStr level)]).

(** A county file: a row for governor, the same row again with another
    vote count, a row of an office that is not tracked, a row of the
    presidential contest by congressional district and a row of a state
    senate district. *)
Definition county_file : list Row := [
  county_row "Governor" "" "Leon " "Scott" "Rick" "100";
  county_row "Governor" "" "Leon " "Scott" "Rick" "999";
  county_row "City Council" "" "Leon" "Doe" "Jane" "5";
  county_row " U.S. President by Congressional District" " 2 " "Leon" "Obama"
    "Barack" "n/a";
  county_row "State Senator" "3" "Leon" "Montford" "Bill" "70"
].

Definition county_batch : list RawResult := [
  county_result "Governor" "Scott" "Rick" "100" "county" [];
  county_result "U.S. President by Congressional District" "Obama" "Barack"
    "n/a" "congressional_district_by_county"
    [("reporting_district", VStr "2")];
  county_result "State Senator" "Montford" "Bill" "70" "county"
    [("district", VStr "3")]
].

Definition county_world : world :=
  World [county_batch] ["Skipping result for office 'City Council'"].

(** A precinct row of a county that the table does not list. *)
Definition unlisted_row : Row :=
  precinct_row "Atlantis" "Governor" "" "Scott / Carroll" "40".

(** A table that lists Leon county twice, under two codes. *)
Definition table_twice : list jurisdiction := [
  Jurisdiction "Leon County" "ocd-division/country:us/state:fl/county:leon";
  Jurisdiction "LEON COUNTY" "ocd-division/country:us/state:fl/county:leon_2"
].


(** The row of the state senate district of the county file, and its
    result. *)
Definition senate_row : Row :=
  county_row "State Senator" "3" "Leon" "Montford" "Bill" "70".

Definition senate_result : RawResult :=
  county_result "State Senator" "Montford" "Bill" "70" "county"
    [("district", VStr "3")].

(** A precinct row for governor that writes the county in capitals, and its
    result. *)
Definition capitals_row : Row :=
  precinct_row "LEON" "Governor" "5" "Scott / Carroll" "10".

Definition capitals_result : RawResult :=
  <[ "parent_jurisdiction" := VStr "LEON" ]> (governor_result 10).


(** A precinct row of a line that ends after the candidate: the reader
    leaves the party and the vote count at [None]. *)
Definition truncated_row : Row :=
  <[ "party" := None ]> (<[ "votes" := None ]> (governor_row "10")).

(** A precinct row whose polling location is not an ASCII text: it ends in
    the latin-1 letter of code 233. *)
Definition accented_row : Row :=
  <[ "polling_location" := Some ("Caf" +:+ String "233"%char "") ]>
  (governor_row "10").

(** A precinct row whose polling location ends in the control character of
    code 31, which [unicode.strip()] removes and [str.strip()] keeps. *)
Definition separator_row : Row :=
  <[ "polling_location" := Some ("Hall" +:+ String "031"%char "") ]>
  (governor_row "10").



(** The world before any file is loaded. *)
Definition w0 : world := World [] [].

End Sample.

(** ** Notions the properties are stated with *)

(** Some target office occurs in [name]. *)
Definition names_target_office (name : string) : Prop :=
  exists o pre post, o ∈ FlLoader.target_offices /\ name = pre +:+ o +:+ post.

(** The name [_build_candidate_kwargs] gives a candidate whose trimmed raw
    name is [t]. *)
Definition substituted (t : string) : string :=
  if bool_decide (t = "UnderVotes") then "Under Votes"
  else if bool_decide (t = "OverVotes") then "Over Votes"
  else if bool_decide (t = "WriteinVotes") then "Write-ins"
  else t.

(** The candidates of a batch, each a result with its key, that are the
    first with their key, given the keys [seen] before them. *)
Fixpoint first_seen (seen : gset string) (cands : list (RawResult * string))
    : list (RawResult * string) :=
  match cands with
  | [] => []
  | c :: cands' =>
      if bool_decide (c.2 ∈ seen) then first_seen seen cands'
      else c :: first_seen ({[ c.2 ]} ∪ seen) cands'
  end.

(** The office name [load] logs for a skipped row of a county file. *)
Definition office_name (row : Row) : string :=
  PyStr.strip (default "" (mjoin (row !! "OfficeDesc"))).

(** A row of a county file that is skipped with a line in the log: the
    office name has fewer than 100 characters. *)
Definition logged (row : Row) : Prop :=
  FlLoader._skip_row row = Ok true /\ (PyStr.len (office_name row) < 100)%nat.

Global Instance logged_dec (row : Row) : Decision (logged row).
Proof. unfold logged. apply _. Defined.

(** The line of the log for a skipped row. *)
Definition log_line (row : Row) : string :=
  "Skipping result for office '" +:+ office_name row +:+ "'".



(** The attributes the county loader sets from a row, and those the precinct
    loader sets. *)
Definition county_attributes : list string :=
  ["office"; "district"; "family_name"; "given_name"; "additional_name";
   "party"; "jurisdiction"; "ocd_id"; "votes"; "reporting_level";
   "reporting_district"].

Definition precinct_attributes : list string :=
  ["office"; "district"; "full_name"; "name_slug"; "reporting_level";
   "jurisdiction"; "parent_jurisdiction"; "ocd_id"; "party"; "votes"].


(** A string of decimal digits, with at least one digit. *)
Definition numeral (s : string) : Prop :=
  s <> "" /\ Forall (fun c => PyFloat.is_digit c = true) (list_ascii_of_string s).

Section Notions.
Context `{Env}.

(** The value of [self._common_kwargs] during a precinct load. *)
Definition precinct_common : Kwargs :=
  <[ "reporting_level" := VStr "precinct" ]> _build_common_election_kwargs.

(** The rows of a precinct file that are not skipped. *)
Definition precinct_kept (rows : list Row) : list Row :=
  filter (fun row => PrecinctLoader._skip_row row = Ok false) rows.

(** The rows of a county file that are not skipped. *)
Definition county_kept (rows : list Row) : list Row :=
  filter (fun row => FlLoader._skip_row row = Ok false) rows.

(** [c] is the result of [row], with its key. *)
Definition county_candidate (common : Kwargs) (row : Row)
    (c : RawResult * string) : Prop :=
  FlLoader._prep_result common row = Ok c.1 /\ FlLoader._key c.1 = Ok c.2.

(** A row of a county file that the loop of [load] gets past: it is
    skipped, or it is not and its result and the key of the result are
    built. *)
Definition county_row_passes (common : Kwargs) (row : Row) : Prop :=
  FlLoader._skip_row row = Ok true
  \/ (FlLoader._skip_row row = Ok false
      /\ exists c, county_candidate common row c).

(** A row of a precinct file that the loop of [load] gets past: it is
    skipped, or it is not and its result is built. *)
Definition precinct_row_passes (common : Kwargs) (row : Row) : Prop :=
  PrecinctLoader._skip_row row = Ok true
  \/ (PrecinctLoader._skip_row row = Ok false
      /\ exists r, PrecinctLoader._prep_precinct_result common row = Ok r).




End Notions.

(** * Properties

    ** Reasoning principles *)

Lemma bind_Ok {A B : Type} (m : res A) (f : A -> res B) (y : B) :
  (m ≫= f) = inr y <-> exists x, m = inr x /\ f x = inr y.
Proof.
  destruct m as [e|x]; unfold mbind, res_bind; split.
  - discriminate.
  - intros (x & Hx & _). discriminate.
  - eauto.
  - intros (x' & Hx & Hf). congruence.
Qed.


Lemma bind_Ok_l {A B : Type} (x : A) (f : A -> res B) : (Ok x ≫= f) = f x.
Proof. reflexivity. Qed.

Lemma getitem_Ok (row : Row) (k : string) (v : option string) :
  getitem row k = inr v <-> row !! k = Some v.
Proof. unfold getitem. destruct (row !! k); split; intros; simplify_eq; done. Qed.

Lemma field_Ok (e : exn) (row : Row) (k v : string) :
  field e row k = inr v <-> row !! k = Some (Some v).
Proof.
  unfold field, getitem. destruct (row !! k) as [[s|]|]; cbn;
    split; intros; simplify_eq; done.
Qed.

Lemma field_at (e : exn) (row : Row) (k v : string) :
  row !! k = Some (Some v) -> field e row k = Ok v.
Proof. apply field_Ok. Qed.

(** Inversion of a computation that returned. *)
Ltac res_inv :=
  repeat match goal with
  | H : (_ ≫= _) = inr _ |- _ =>
      apply bind_Ok in H; destruct H as (? & ? & H)
  | H : field _ _ _ = inr _ |- _ => apply field_Ok in H
  | H : getitem _ _ = inr _ |- _ => apply field_Ok in H
  | H : inr _ = inr _ |- _ => injection H as H; try discriminate H
  | H : inl _ = inr _ |- _ => discriminate H
  | H : (if ?b then _ else _) = inr _ |- _ => destruct b eqn:?
  | H : (let '(_, _) := ?p in _) = inr _ |- _ => destruct p eqn:?
  end; subst.

Lemma app_cons (c : ascii) (s t : string) : String c s +:+ t = String c (s +:+ t).
Proof. reflexivity. Qed.

Lemma prefix_spec (o s : string) :
  String.prefix o s = true <-> exists post, s = o +:+ post.
Proof.
  revert o. induction s as [|c' s IH]; intros [|c o]; simpl.
  - split; [intros _; by exists "" | done].
  - split; [discriminate | intros (post & Hp); rewrite app_cons in Hp; discriminate].
  - split; [intros _; by exists (String c' s) | done].
  - destruct (ascii_dec c c') as [->|Hne].
    + rewrite IH. split; intros (post & Hp); exists post;
        rewrite app_cons in *; congruence.
    + split; [discriminate | intros (post & Hp); rewrite app_cons in Hp; congruence].
Qed.

(** [contains] is the substring test. *)
Lemma contains_spec (o s : string) :
  PyStr.contains o s = true <-> exists pre post, s = pre +:+ o +:+ post.
Proof.
  induction s as [|c s IH].
  - cbn [PyStr.contains]. rewrite orb_false_r, prefix_spec. split.
    + intros (post & Hp). by exists "", post.
    + intros (pre & post & Hp). destruct pre; [by exists post | discriminate].
  - cbn [PyStr.contains]. rewrite orb_true_iff, prefix_spec, IH. split.
    + intros [(post & Hp)|(pre & post & Hp)].
      * by exists "", post.
      * exists (String c pre), post. rewrite app_cons. by rewrite Hp.
    + intros (pre & post & Hp). destruct pre as [|c' pre].
      * left. by exists post.
      * right. exists pre, post. rewrite app_cons in Hp. congruence.
Qed.

(** ** Which rows are skipped *)

Lemma county_skip_true (row : Row) :
  FlLoader._skip_row row = Ok true <->
  exists office, row !! "OfficeDesc" = Some (Some office)
                 /\ PyStr.strip office ∉ FlLoader.target_offices.
Proof.
  unfold FlLoader._skip_row. split.
  - intros Hs. res_inv. eexists; split; [eassumption|].
    by apply negb_true_iff, bool_decide_eq_false in Hs.
  - intros (office & Ho & Hn). rewrite (field_at _ _ _ _ Ho), bind_Ok_l.
    by rewrite bool_decide_eq_false_2.
Qed.

Lemma county_skip_false (row : Row) :
  FlLoader._skip_row row = Ok false <->
  exists office, row !! "OfficeDesc" = Some (Some office)
                 /\ PyStr.strip office ∈ FlLoader.target_offices.
Proof.
  unfold FlLoader._skip_row. split.
  - intros Hs. res_inv. eexists; split; [eassumption|].
    by apply negb_false_iff, bool_decide_eq_true in Hs.
  - intros (office & Ho & Hn). rewrite (field_at _ _ _ _ Ho), bind_Ok_l.
    by rewrite bool_decide_eq_true_2.
Qed.

Lemma existsb_contains (name : string) :
  existsb (fun o => PyStr.contains o name) FlLoader.target_offices = true
  <-> names_target_office name.
Proof.
  rewrite existsb_exists. unfold names_target_office. split.
  - intros (o & Hin & Hc). apply contains_spec in Hc as (pre & post & ->).
    exists o, pre, post. by rewrite list_elem_of_In.
  - intros (o & pre & post & Hin & ->). exists o. rewrite <- list_elem_of_In.
    split; [done|]. apply contains_spec. eauto.
Qed.

Lemma precinct_skip_true (row : Row) :
  PrecinctLoader._skip_row row = Ok true <->
  exists name, row !! "contest_name" = Some (Some name) /\ ~ names_target_office name.
Proof.
  unfold PrecinctLoader._skip_row. split.
  - intros Hs. res_inv. eexists; split; [eassumption|].
    rewrite <- existsb_contains. congruence.
  - intros (name & Hn & Hno). rewrite (field_at _ _ _ _ Hn), bind_Ok_l.
    rewrite <- existsb_contains in Hno.
    by destruct (existsb _ _).
Qed.

Lemma precinct_skip_false (row : Row) :
  PrecinctLoader._skip_row row = Ok false <->
  exists name, row !! "contest_name" = Some (Some name) /\ names_target_office name.
Proof.
  unfold PrecinctLoader._skip_row. split.
  - intros Hs. res_inv. eexists; split; [eassumption|].
    by apply existsb_contains.
  - intros (name & Hn & Hyes). rewrite (field_at _ _ _ _ Hn), bind_Ok_l.
    apply existsb_contains in Hyes. by rewrite Hyes.
Qed.

Section Skipping.
Context `{Env}.

Lemma county_skipped_row_adds_nothing (common : Kwargs) (row : Row)
    (rows : list Row) (results : list RawResult) (seen : gset string) (w : world) :
  FlLoader._skip_row row = Ok true ->
  exists w', store w' = store w /\
    FlLoader.load_rows common (row :: rows) results seen w
    = FlLoader.load_rows common rows results seen w'.
Proof.
  intros Hs. cbn [FlLoader.load_rows]. rewrite Hs.
  apply county_skip_true in Hs as (office & Ho & _).
  rewrite (field_at _ _ _ _ Ho).
  destruct (PyStr.len (PyStr.strip office) <? 100)%nat;
    eexists; (split; [|reflexivity]); reflexivity.
Qed.

Lemma county_kept_row_adds_result (common : Kwargs) (row : Row)
    (rows : list Row) (results : list RawResult) (seen : gset string) (w : world)
    (r : RawResult) (k : string) :
  FlLoader._skip_row row = Ok false ->
  FlLoader._prep_result common row = Ok r ->
  FlLoader._key r = Ok k ->
  FlLoader.load_rows common (row :: rows) results seen w
  = if bool_decide (k ∈ seen)
    then FlLoader.load_rows common rows results seen w
    else FlLoader.load_rows common rows (results ++ [r]) ({[ k ]} ∪ seen) w.
Proof.
  intros Hs Hr Hk. cbn [FlLoader.load_rows].
  by rewrite Hs, Hr, bind_Ok_l, Hk, bind_Ok_l.
Qed.

Lemma precinct_skipped_row_adds_nothing (common : Kwargs) (row : Row)
    (rows : list Row) (results : list RawResult) :
  PrecinctLoader._skip_row row = Ok true ->
  PrecinctLoader.load_rows common (row :: rows) results
  = PrecinctLoader.load_rows common rows results.
Proof. intros Hs. cbn [PrecinctLoader.load_rows]. by rewrite Hs, bind_Ok_l. Qed.

Lemma precinct_kept_row_adds_result (common : Kwargs) (row : Row)
    (rows : list Row) (results : list RawResult) (r : RawResult) :
  PrecinctLoader._skip_row row = Ok false ->
  PrecinctLoader._prep_precinct_result common row = Ok r ->
  PrecinctLoader.load_rows common (row :: rows) results
  = PrecinctLoader.load_rows common rows (results ++ [r]).
Proof.
  intros Hs Hr. cbn [PrecinctLoader.load_rows].
  by rewrite Hs, bind_Ok_l, Hr, bind_Ok_l.
Qed.

(** C4. A county-summary row is skipped exactly when its trimmed office is
    not one of the target offices, and a precinct-detail row exactly when no
    target office occurs in its contest name. A skipped row leaves the
    results of the loop as they were; a row that is not skipped and whose
    result is built adds that result (for a county file, unless its key was
    seen before). *)
Theorem skip_row_iff_not_target (row : Row) :
  (FlLoader._skip_row row = Ok true <->
     exists office, row !! "OfficeDesc" = Some (Some office)
                    /\ PyStr.strip office ∉ FlLoader.target_offices)
  /\ (PrecinctLoader._skip_row row = Ok true <->
        exists name, row !! "contest_name" = Some (Some name)
                     /\ ~ exists o pre post,
                          o ∈ FlLoader.target_offices /\ name = pre +:+ o +:+ post)
  /\ (forall common rows results seen w,
        FlLoader._skip_row row = Ok true ->
        exists w', store w' = store w /\
          FlLoader.load_rows common (row :: rows) results seen w
          = FlLoader.load_rows common rows results seen w')
  /\ (forall common rows results,
        PrecinctLoader._skip_row row = Ok true ->
        PrecinctLoader.load_rows common (row :: rows) results
        = PrecinctLoader.load_rows common rows results)
  /\ (forall common rows results seen w r k,
        FlLoader._skip_row row = Ok false ->
        FlLoader._prep_result common row = Ok r ->
        FlLoader._key r = Ok k ->
        k ∉ seen ->
        FlLoader.load_rows common (row :: rows) results seen w
        = FlLoader.load_rows common rows (results ++ [r]) ({[ k ]} ∪ seen) w)
  /\ (forall common rows results r,
        PrecinctLoader._skip_row row = Ok false ->
        PrecinctLoader._prep_precinct_result common row = Ok r ->
        PrecinctLoader.load_rows common (row :: rows) results
        = PrecinctLoader.load_rows common rows (results ++ [r])).
Proof.
  split; [apply county_skip_true|].
  split; [apply precinct_skip_true|].
  split; [intros; by apply county_skipped_row_adds_nothing|].
  split; [intros; by apply precinct_skipped_row_adds_nothing|].
  split; [|intros; by apply precinct_kept_row_adds_result].
  intros common rows results seen w r k Hs Hr Hk Hn.
  rewrite (county_kept_row_adds_result _ _ _ _ _ _ r k) by done.
  by rewrite bool_decide_eq_false_2.
Qed.

End Skipping.

(** ** Attributes of the documents *)

Lemma lookup_update (d new : Kwargs) (k : string) :
  update d new !! k = match new !! k with Some v => Some v | None => d !! k end.
Proof.
  unfold update. rewrite lookup_union.
  by destruct (new !! k), (d !! k).
Qed.

(** Read an attribute, given by a literal name, off a dictionary built by
    [update], insertions and singletons. *)
Ltac lookup_kwargs :=
  repeat first
    [ rewrite lookup_update
    | rewrite lookup_insert_eq
    | rewrite lookup_insert_ne by discriminate
    | rewrite lookup_singleton_eq
    | rewrite lookup_singleton_ne by discriminate
    | rewrite lookup_empty ].

Lemma getitem_at (row : Row) (k : string) (v : option string) :
  row !! k = Some v -> getitem row k = Ok v.
Proof. apply getitem_Ok. Qed.

(** ** [str] of a text *)

Lemma is_ascii_app (s t : string) :
  PyStr.is_ascii (s +:+ t) = PyStr.is_ascii s && PyStr.is_ascii t.
Proof.
  induction s as [|c s IH]; [done|].
  rewrite app_cons. cbn [PyStr.is_ascii]. by rewrite IH, andb_assoc.
Qed.

Lemma py_str_Ok (s t : string) :
  py_str (Some s) = Ok t <-> PyStr.is_ascii s = true /\ t = s.
Proof.
  cbn [py_str]. destruct (PyStr.is_ascii s); split.
  - by intros [= ->].
  - by intros [_ ->].
  - discriminate.
  - by intros [? _].
Qed.


(** ** The list comprehension that looks a county up *)

Lemma county_condition (row : Row) (cname : string) (c : jurisdiction) :
  row !! "county_name" = Some (Some cname) ->
  PrecinctLoader.is_county_of row c
  = Ok (bool_decide (PyStr.upper (county c) = PyStr.upper cname +:+ " COUNTY")).
Proof.
  intros Hc. unfold PrecinctLoader.is_county_of.
  by rewrite (field_at _ _ _ _ Hc), bind_Ok_l.
Qed.

(** For a row whose county name is a text, the comprehension selects the
    entries of the table that match it, in the order of the table. *)
Lemma comprehension_filter (row : Row) (cname : string) (l : list jurisdiction) :
  row !! "county_name" = Some (Some cname) ->
  comprehension (PrecinctLoader.is_county_of row) l
  = Ok (filter (fun c => PyStr.upper (county c) = PyStr.upper cname +:+ " COUNTY") l).
Proof.
  intros Hc. induction l as [|c l IH]; [done|].
  cbn [comprehension].
  rewrite (county_condition _ _ _ Hc), bind_Ok_l, IH, bind_Ok_l.
  case_bool_decide; [by rewrite filter_cons_True | by rewrite filter_cons_False].
Qed.

(** A comprehension that selects something has read the county name. *)
Lemma comprehension_selected (row : Row) (l found : list jurisdiction)
    (c : jurisdiction) :
  comprehension (PrecinctLoader.is_county_of row) l = Ok (c :: found) ->
  exists cname, row !! "county_name" = Some (Some cname).
Proof.
  destruct l as [|c' l]; [discriminate|]. cbn [comprehension]. intros Hl.
  apply bind_Ok in Hl as (b & Hb & _). unfold PrecinctLoader.is_county_of in Hb.
  apply bind_Ok in Hb as (cname & Hn & _). apply field_Ok in Hn. by exists cname.
Qed.

Section Precinct.
Context `{Env}.

Lemma precinct_candidate_inv (row row' : Row) (kw : Kwargs) :
  PrecinctLoader._build_candidate_kwargs row = Ok (kw, row') ->
  exists raw,
    row !! "candidate" = Some (Some raw)
    /\ (forall k, k <> "candidate" -> row' !! k = row !! k)
    /\ kw = <[ "full_name" := VStr (substituted (PyStr.strip raw)) ]>
            {[ "name_slug" :=
                 VStr (slugify (substituted (PyStr.strip raw)) (Some "-")) ]}.
Proof.
  unfold PrecinctLoader._build_candidate_kwargs, substituted. intros Hc.
  apply bind_Ok in Hc as (raw & Hraw & Hc). apply field_Ok in Hraw.
  exists raw. split; [done|].
  repeat case_bool_decide.
  1-3: rewrite (field_at _ _ "candidate" _ (lookup_insert_eq _ _ _)), bind_Ok_l in Hc;
       injection Hc as <- <-; split; [|done];
       intros k Hk; by rewrite lookup_insert_ne.
  rewrite (field_at _ _ _ _ Hraw), bind_Ok_l in Hc.
  by injection Hc as <- <-.
Qed.

Lemma precinct_candidate_total (row : Row) (raw : string) :
  row !! "candidate" = Some (Some raw) ->
  exists row',
    PrecinctLoader._build_candidate_kwargs row
    = Ok (<[ "full_name" := VStr (substituted (PyStr.strip raw)) ]>
          {[ "name_slug" :=
               VStr (slugify (substituted (PyStr.strip raw)) (Some "-")) ]},
          row')
    /\ forall k, k <> "candidate" -> row' !! k = row !! k.
Proof.
  intros Hraw. unfold PrecinctLoader._build_candidate_kwargs, substituted.
  rewrite (field_at _ _ _ _ Hraw), bind_Ok_l.
  repeat case_bool_decide.
  1-3: rewrite (field_at _ _ "candidate" _ (lookup_insert_eq _ _ _)), bind_Ok_l;
       eexists; split; [reflexivity|];
       intros k Hk; by rewrite lookup_insert_ne.
  rewrite (field_at _ _ _ _ Hraw), bind_Ok_l. eexists. split; [reflexivity | done].
Qed.

(** What a row is read as when its result is built. The contest name may
    be any value here: it is [_skip_row] that needs it to be a text. *)
Lemma precinct_result_inv (common : Kwargs) (row : Row) (r : RawResult) :
  PrecinctLoader._prep_precinct_result common row = Ok r ->
  exists contest district raw pid loc cname c cs party raw_votes v,
    row !! "contest_name" = Some contest
    /\ row !! "district" = Some (Some district)
    /\ row !! "candidate" = Some (Some raw)
    /\ row !! "precinct_id" = Some (Some pid)
    /\ row !! "polling_location" = Some (Some loc)
    /\ PyStr.is_ascii (pid +:+ " " +:+ loc) = true
    /\ row !! "county_name" = Some (Some cname)
    /\ PrecinctLoader.matching cname = c :: cs
    /\ row !! "party" = Some (Some party)
    /\ row !! "votes" = Some (Some raw_votes)
    /\ FlLoader._votes raw_votes = Ok v
    /\ r = update
             (update
                (update common
                   (<[ "office" := val_of contest ]>
                    {[ "district" := VStr (PyStr.strip district) ]}))
                (<[ "full_name" := VStr (substituted (PyStr.strip raw)) ]>
                 {[ "name_slug" :=
                      VStr (slugify (substituted (PyStr.strip raw)) (Some "-")) ]}))
             (<[ "reporting_level" := VStr "precinct" ]>
              (<[ "jurisdiction" :=
                    VStr (PyStr.strip_bytes (pid +:+ " " +:+ loc)) ]>
               (<[ "parent_jurisdiction" := VStr cname ]>
                (<[ "ocd_id" :=
                      VStr (ocd_id c +:+ "/precinct:" +:+ ocd_type_id pid) ]>
                 (<[ "party" := VStr (PyStr.strip party) ]>
                  {[ "votes" := VInt v ]}))))).
Proof.
  unfold PrecinctLoader._prep_precinct_result. intros Hr.
  apply bind_Ok in Hr as (contest_kw & Hcontest & Hr).
  apply bind_Ok in Hr as ([kw row'] & Hcand & Hr).
  apply bind_Ok in Hr as (pid & Hpid & Hr). apply field_Ok in Hpid.
  apply bind_Ok in Hr as (loc & Hloc & Hr). apply field_Ok in Hloc.
  apply bind_Ok in Hr as (enc & Henc & Hr). apply py_str_Ok in Henc as [Hascii ->].
  apply bind_Ok in Hr as (found & Hfound & Hr).
  apply bind_Ok in Hr as (code & Hcode & Hr).
  destruct found as [|c cs]; [discriminate|]. injection Hcode as <-.
  destruct (comprehension_selected _ _ _ _ Hfound) as (cname & Hcname).
  rewrite (comprehension_filter _ _ _ Hcname) in Hfound. injection Hfound as Hm.
  apply bind_Ok in Hr as (cn & Hcn & Hr). apply getitem_Ok in Hcn.
  apply bind_Ok in Hr as (pid2 & Hpid2 & Hr). apply getitem_Ok in Hpid2.
  apply bind_Ok in Hr as (idt & Hidt & Hr).
  apply bind_Ok in Hr as (party & Hparty & Hr). apply field_Ok in Hparty.
  apply bind_Ok in Hr as (rv & Hrv & Hr). apply getitem_Ok in Hrv.
  apply bind_Ok in Hr as (v & Hv & Hr).
  injection Hr as <-.
  rewrite Hcname in Hcn. injection Hcn as <-.
  rewrite Hpid in Hpid2. injection Hpid2 as <-.
  apply py_str_Ok in Hidt as [_ ->].
  destruct rv as [raw_votes|]; [|discriminate]. cbn [FlLoader._votes_val] in Hv.
  apply precinct_candidate_inv in Hcand as (raw & Hraw & Hsame & ->).
  rewrite Hsame in Hpid, Hloc, Hcname, Hparty, Hrv by discriminate.
  unfold PrecinctLoader._build_contest_kwargs in Hcontest.
  apply bind_Ok in Hcontest as (contest & Hname & Hcontest).
  apply getitem_Ok in Hname.
  apply bind_Ok in Hcontest as (district & Hd & Hcontest). apply field_Ok in Hd.
  injection Hcontest as <-.
  exists contest, district, raw, pid, loc, cname, c, cs, party, raw_votes, v.
  cbn [val_of]. by repeat split.
Qed.

(** A row whose cells are texts, with an ASCII precinct, a county of the
    table and a vote count that can be coerced, gives a result. *)
Lemma precinct_result_built (common : Kwargs) (row : Row)
    (contest : option string) (district raw pid loc cname party raw_votes : string)
    (c : jurisdiction) (cs : list jurisdiction) (v : Z) :
  row !! "contest_name" = Some contest ->
  row !! "district" = Some (Some district) ->
  row !! "candidate" = Some (Some raw) ->
  row !! "precinct_id" = Some (Some pid) ->
  row !! "polling_location" = Some (Some loc) ->
  PyStr.is_ascii (pid +:+ " " +:+ loc) = true ->
  row !! "county_name" = Some (Some cname) ->
  PrecinctLoader.matching cname = c :: cs ->
  row !! "party" = Some (Some party) ->
  row !! "votes" = Some (Some raw_votes) ->
  FlLoader._votes raw_votes = Ok v ->
  PrecinctLoader._prep_precinct_result common row
  = Ok (update
          (update
             (update common
                (<[ "office" := val_of contest ]>
                 {[ "district" := VStr (PyStr.strip district) ]}))
             (<[ "full_name" := VStr (substituted (PyStr.strip raw)) ]>
              {[ "name_slug" :=
                   VStr (slugify (substituted (PyStr.strip raw)) (Some "-")) ]}))
          (<[ "reporting_level" := VStr "precinct" ]>
           (<[ "jurisdiction" :=
                 VStr (PyStr.strip_bytes (pid +:+ " " +:+ loc)) ]>
            (<[ "parent_jurisdiction" := VStr cname ]>
             (<[ "ocd_id" :=
                   VStr (ocd_id c +:+ "/precinct:" +:+ ocd_type_id pid) ]>
              (<[ "party" := VStr (PyStr.strip party) ]>
               {[ "votes" := VInt v ]})))))).
Proof.
  intros Hname Hd Hraw Hpid Hloc Hascii Hcname Hm Hparty Hrv Hv.
  unfold PrecinctLoader._prep_precinct_result, PrecinctLoader._build_contest_kwargs.
  rewrite (getitem_at _ _ _ Hname), bind_Ok_l, (field_at _ _ _ _ Hd), !bind_Ok_l.
  destruct (precinct_candidate_total row raw Hraw) as (row' & -> & Hsame).
  rewrite bind_Ok_l. cbn beta iota.
  rewrite <- Hsame in Hpid, Hloc, Hcname, Hparty, Hrv by discriminate.
  rewrite (field_at _ _ _ _ Hpid), bind_Ok_l, (field_at _ _ _ _ Hloc), bind_Ok_l.
  rewrite (proj2 (py_str_Ok _ _) (conj Hascii eq_refl)), bind_Ok_l.
  rewrite (comprehension_filter _ _ _ Hcname), bind_Ok_l.
  fold (PrecinctLoader.matching cname). rewrite Hm, bind_Ok_l.
  rewrite (getitem_at _ _ _ Hcname), bind_Ok_l, (getitem_at _ _ _ Hpid), bind_Ok_l.
  assert (Hp : PyStr.is_ascii pid = true).
  { rewrite is_ascii_app in Hascii. by apply andb_true_iff in Hascii as [? _]. }
  rewrite (proj2 (py_str_Ok _ _) (conj Hp eq_refl)), bind_Ok_l.
  rewrite (field_at _ _ _ _ Hparty), bind_Ok_l, (getitem_at _ _ _ Hrv), bind_Ok_l.
  cbn [FlLoader._votes_val]. by rewrite Hv, bind_Ok_l.
Qed.

Lemma precinct_result_level (common : Kwargs) (row : Row) (r : RawResult) :
  PrecinctLoader._prep_precinct_result common row = Ok r ->
  r !! "reporting_level" = Some (VStr "precinct").
Proof.
  intros Hr. apply precinct_result_inv in Hr.
  destruct Hr as (? & ? & ? & ? & ? & ? & ? & ? & ? & ? & ? & Hr).
  destruct Hr as (_ & _ & _ & _ & _ & _ & _ & _ & _ & _ & _ & ->).
  by lookup_kwargs.
Qed.

Lemma precinct_load_rows_spec (common : Kwargs) (rows : list Row)
    (acc batch : list RawResult) :
  PrecinctLoader.load_rows common rows acc = Ok batch ->
  exists new,
    batch = acc ++ new
    /\ Forall2 (fun row r => PrecinctLoader._prep_precinct_result common row = Ok r)
               (precinct_kept rows) new.
Proof.
  revert acc. induction rows as [|row rows IH]; intros acc Hl.
  - injection Hl as <-. exists []. split; [by rewrite app_nil_r | constructor].
  - cbn [PrecinctLoader.load_rows] in Hl.
    apply bind_Ok in Hl as (skip & Hs & Hl). destruct skip.
    + apply IH in Hl as (new & -> & Hall). exists new. split; [done|].
      unfold precinct_kept. rewrite filter_cons_False; [done | congruence].
    + apply bind_Ok in Hl as (r & Hr & Hl).
      apply IH in Hl as (new & -> & Hall). exists (r :: new).
      split; [by rewrite <- app_assoc|].
      unfold precinct_kept. rewrite filter_cons_True by done.
      by constructor.
Qed.

(** The loop over a file in two parts. *)
Lemma precinct_load_rows_app (common : Kwargs) (rows1 rows2 : list Row)
    (acc : list RawResult) :
  PrecinctLoader.load_rows common (rows1 ++ rows2) acc
  = PrecinctLoader.load_rows common rows1 acc
    ≫= PrecinctLoader.load_rows common rows2.
Proof.
  revert acc. induction rows1 as [|row rows1 IH]; intros acc; [done|].
  cbn [app PrecinctLoader.load_rows].
  destruct (PrecinctLoader._skip_row row) as [e|skip]; [done|].
  rewrite !bind_Ok_l. destruct skip; [apply IH|].
  destruct (PrecinctLoader._prep_precinct_result common row) as [e|r]; [done|].
  rewrite !bind_Ok_l. apply IH.
Qed.

Lemma precinct_load_cases (rows : list Row) (w : world) :
  (exists batch,
      PrecinctLoader.load_rows precinct_common rows [] = Ok batch
      /\ PrecinctLoader.load rows w = (Ok tt, insert batch w))
  \/ (exists e,
        PrecinctLoader.load_rows precinct_common rows [] = Raise e
        /\ PrecinctLoader.load rows w = (Raise e, w)).
Proof.
  unfold PrecinctLoader.load. fold precinct_common.
  destruct (PrecinctLoader.load_rows precinct_common rows []) as [e|batch].
  - right. by exists e.
  - left. by exists batch.
Qed.

Lemma precinct_load_Ok (rows : list Row) (w w' : world) :
  PrecinctLoader.load rows w = (Ok tt, w') ->
  exists batch,
    w' = insert batch w
    /\ Forall2 (fun row r =>
                  PrecinctLoader._prep_precinct_result precinct_common row = Ok r)
               (precinct_kept rows) batch.
Proof.
  intros Hl.
  destruct (precinct_load_cases rows w) as [(batch & Hb & Hl')|(e & _ & Hl')];
    rewrite Hl' in Hl; [|discriminate].
  injection Hl as <-. exists batch. split; [done|].
  by apply precinct_load_rows_spec in Hb as (new & -> & Hall).
Qed.

(** Every result of a precinct batch was built from a row of the file that
    was not skipped. *)
Lemma precinct_batch_member (rows : list Row) (batch : list RawResult)
    (r : RawResult) :
  Forall2 (fun row r =>
             PrecinctLoader._prep_precinct_result precinct_common row = Ok r)
          (precinct_kept rows) batch ->
  r ∈ batch ->
  exists row,
    row ∈ rows
    /\ PrecinctLoader._skip_row row = Ok false
    /\ PrecinctLoader._prep_precinct_result precinct_common row = Ok r.
Proof.
  intros Hall Hin.
  apply list_elem_of_lookup in Hin as (i & Hi).
  destruct (Forall2_lookup_r _ _ _ _ _ Hall Hi) as (row & Hrow & Hr).
  exists row. apply list_elem_of_lookup_2 in Hrow.
  unfold precinct_kept in Hrow. apply list_elem_of_filter in Hrow as (Hs & Hrow).
  done.
Qed.

(** A row whose county matches no entry of the table: its result cannot be
    built. *)
Lemma precinct_unresolved_raises (common : Kwargs) (row : Row) (cname : string) :
  row !! "county_name" = Some (Some cname) ->
  PrecinctLoader.matching cname = [] ->
  exists e, PrecinctLoader._prep_precinct_result common row = Raise e.
Proof.
  intros Hc Hm.
  destruct (PrecinctLoader._prep_precinct_result common row) as [e|r] eqn:Hr;
    [by exists e|].
  apply precinct_result_inv in Hr.
  destruct Hr as (? & ? & ? & ? & ? & cname' & c & cs & ? & ? & ? & Hr).
  destruct Hr as (_ & _ & _ & _ & _ & _ & Hc' & Hm' & _).
  congruence.
Qed.

Lemma precinct_unresolved_IndexError (common : Kwargs) (row : Row)
    (contest : option string) (district raw pid loc cname : string) :
  row !! "contest_name" = Some contest ->
  row !! "district" = Some (Some district) ->
  row !! "candidate" = Some (Some raw) ->
  row !! "precinct_id" = Some (Some pid) ->
  row !! "polling_location" = Some (Some loc) ->
  PyStr.is_ascii (pid +:+ " " +:+ loc) = true ->
  row !! "county_name" = Some (Some cname) ->
  PrecinctLoader.matching cname = [] ->
  PrecinctLoader._prep_precinct_result common row = Raise IndexError.
Proof.
  intros Hname Hd Hraw Hpid Hloc Hascii Hcname Hm.
  unfold PrecinctLoader._prep_precinct_result, PrecinctLoader._build_contest_kwargs.
  rewrite (getitem_at _ _ _ Hname), bind_Ok_l, (field_at _ _ _ _ Hd), !bind_Ok_l.
  destruct (precinct_candidate_total row raw Hraw) as (row' & -> & Hsame).
  rewrite bind_Ok_l. cbn beta iota.
  rewrite <- Hsame in Hpid, Hloc, Hcname by discriminate.
  rewrite (field_at _ _ _ _ Hpid), bind_Ok_l, (field_at _ _ _ _ Hloc), bind_Ok_l.
  rewrite (proj2 (py_str_Ok _ _) (conj Hascii eq_refl)), bind_Ok_l.
  rewrite (comprehension_filter _ _ _ Hcname), bind_Ok_l.
  fold (PrecinctLoader.matching cname). by rewrite Hm.
Qed.

(** With an empty table the lookup fails before the county name of the row
    is read: whatever that cell holds, or if the row has no such column. *)
Lemma precinct_empty_table_IndexError (common : Kwargs) (row : Row)
    (contest : option string) (district raw pid loc : string) :
  _jurisdictions = [] ->
  row !! "contest_name" = Some contest ->
  row !! "district" = Some (Some district) ->
  row !! "candidate" = Some (Some raw) ->
  row !! "precinct_id" = Some (Some pid) ->
  row !! "polling_location" = Some (Some loc) ->
  PyStr.is_ascii (pid +:+ " " +:+ loc) = true ->
  PrecinctLoader._prep_precinct_result common row = Raise IndexError.
Proof.
  intros Hempty Hname Hd Hraw Hpid Hloc Hascii.
  unfold PrecinctLoader._prep_precinct_result, PrecinctLoader._build_contest_kwargs.
  rewrite (getitem_at _ _ _ Hname), bind_Ok_l, (field_at _ _ _ _ Hd), !bind_Ok_l.
  destruct (precinct_candidate_total row raw Hraw) as (row' & -> & Hsame).
  rewrite bind_Ok_l. cbn beta iota.
  rewrite <- Hsame in Hpid, Hloc by discriminate.
  rewrite (field_at _ _ _ _ Hpid), bind_Ok_l, (field_at _ _ _ _ Hloc), bind_Ok_l.
  rewrite (proj2 (py_str_Ok _ _) (conj Hascii eq_refl)), bind_Ok_l.
  by rewrite Hempty.
Qed.

(** One row that is not skipped and whose result cannot be built makes the
    loop raise. *)
Lemma precinct_load_rows_raises (common : Kwargs) (rows : list Row) (row : Row)
    (acc : list RawResult) :
  row ∈ rows ->
  PrecinctLoader._skip_row row = Ok false ->
  (exists e, PrecinctLoader._prep_precinct_result common row = Raise e) ->
  exists e, PrecinctLoader.load_rows common rows acc = Raise e.
Proof.
  intros Hin Hs (e & He). revert acc.
  induction rows as [|row' rows IH]; intros acc; [by apply elem_of_nil in Hin|].
  cbn [PrecinctLoader.load_rows].
  destruct (PrecinctLoader._skip_row row') as [e'|skip] eqn:Hs'; [by exists e'|].
  rewrite bind_Ok_l.
  apply elem_of_cons in Hin as [->|Hin].
  - rewrite Hs in Hs'. injection Hs' as <-. rewrite He. by exists e.
  - destruct skip; [by apply IH|].
    destruct (PrecinctLoader._prep_precinct_result common row') as [e'|r];
      [by exists e'|].
    rewrite bind_Ok_l. by apply IH.
Qed.

End Precinct.

Section PrecinctClaims.
Context `{Env}.

(** C10. Every result the precinct loader emits has reporting level
    [precinct], whatever its contest name: the fields built for the row
    replace any reporting level the common attributes of the file carry. *)
Theorem precinct_reporting_level (common : Kwargs) (row : Row) (r : RawResult)
    (rows : list Row) (w w' : world) :
  (PrecinctLoader._prep_precinct_result common row = Ok r ->
   r !! "reporting_level" = Some (VStr "precinct"))
  /\ (PrecinctLoader.load rows w = (Ok tt, w') ->
      exists batch,
        store w' = store w ++ [batch]
        /\ forall r', r' ∈ batch -> r' !! "reporting_level" = Some (VStr "precinct")).
Proof.
  split; [apply precinct_result_level|].
  intros Hl. apply precinct_load_Ok in Hl as (batch & -> & Hall).
  exists batch. split; [done|]. intros r' Hin.
  destruct (precinct_batch_member _ _ _ Hall Hin) as (row' & _ & _ & Hr).
  by apply precinct_result_level in Hr.
Qed.

End PrecinctClaims.


Lemma precinct_reporting_level_witness :
  PrecinctLoader._prep_precinct_result (H := Sample.env)
    (<[ "reporting_level" := VStr "county" ]> Sample.common) Sample.president_row
  = Ok Sample.president_result
  /\ PrecinctLoader.load (H := Sample.env) [Sample.president_row] Sample.w0
     = (Ok tt, World [[Sample.president_result]] [])
  /\ Sample.president_result !! "reporting_level" = Some (VStr "precinct")
  /\ exists batch,
       store (World [[Sample.president_result]] []) = store Sample.w0 ++ [batch]
       /\ forall r', r' ∈ batch -> r' !! "reporting_level" = Some (VStr "precinct").
Proof.
  assert (Hr : PrecinctLoader._prep_precinct_result (H := Sample.env)
                 (<[ "reporting_level" := VStr "county" ]> Sample.common)
                 Sample.president_row
               = Ok Sample.president_result) by compute_done.
  assert (Hl : PrecinctLoader.load (H := Sample.env) [Sample.president_row] Sample.w0
               = (Ok tt, World [[Sample.president_result]] [])) by compute_done.
  split; [exact Hr|]. split; [exact Hl|]. split.
  - exact (proj1 (precinct_reporting_level (H := Sample.env)
                    (<[ "reporting_level" := VStr "county" ]> Sample.common)
                    Sample.president_row Sample.president_result
                    [Sample.president_row] Sample.w0
                    (World [[Sample.president_result]] [])) Hr).
  - exact (proj2 (precinct_reporting_level (H := Sample.env)
                    (<[ "reporting_level" := VStr "county" ]> Sample.common)
                    Sample.president_row Sample.president_result
                    [Sample.president_row] Sample.w0
                    (World [[Sample.president_result]] [])) Hl).
Defined.

Section PrecinctFields.
Context `{Env}.

(** C8. The full name of the candidate of a precinct result is the trimmed
    raw name, with [UnderVotes], [OverVotes] and [WriteinVotes] replaced by
    [Under Votes], [Over Votes] and [Write-ins]; the name slug is [slugify]
    of that full name, with a hyphen as substitute. *)
Theorem precinct_candidate_name (common : Kwargs) (row : Row) (r : RawResult) :
  PrecinctLoader._prep_precinct_result common row = Ok r ->
  exists raw full,
    row !! "candidate" = Some (Some raw)
    /\ r !! "full_name" = Some (VStr full)
    /\ r !! "name_slug" = Some (VStr (slugify full (Some "-")))
    /\ (PyStr.strip raw = "UnderVotes" -> full = "Under Votes")
    /\ (PyStr.strip raw = "OverVotes" -> full = "Over Votes")
    /\ (PyStr.strip raw = "WriteinVotes" -> full = "Write-ins")
    /\ (PyStr.strip raw ∉ ["UnderVotes"; "OverVotes"; "WriteinVotes"] ->
        full = PyStr.strip raw).
Proof.
  intros Hr. apply precinct_result_inv in Hr.
  destruct Hr as (? & ? & raw & ? & ? & ? & ? & ? & ? & ? & ? & Hr).
  destruct Hr as (_ & _ & Hraw & _ & _ & _ & _ & _ & _ & _ & _ & ->).
  exists raw, (substituted (PyStr.strip raw)).
  split; [done|]. split; [by lookup_kwargs|]. split; [by lookup_kwargs|].
  unfold substituted.
  repeat split; intros Ht; repeat case_bool_decide; try congruence.
  all: exfalso; apply Ht; set_solver.
Qed.

(** C3, as the code has it. A row that is not skipped and whose county
    name, a text, matches no entry of the jurisdiction table aborts the load
    of its file: [load] raises and the world is left as it was, nothing
    stored. When the row has a contest name column, its district and
    candidate are texts and its precinct id and polling location are texts
    that make an ASCII precinct, so that nothing raises before the lookup,
    the exception is the [IndexError] of the lookup. A row whose county
    matches one or several entries is resolved to the first of them: a
    result that is built has the code of the first match and, the other
    way round, when the cells of the row are texts, the precinct is ASCII
    and the vote count can be coerced, the result is built, with that
    code, and a file that loads still loads with such a row added at its
    end, the result of the row added to the batch. *)
Theorem precinct_county_resolution (common : Kwargs) (rows : list Row)
    (row : Row) (district raw pid loc cname party raw_votes : string)
    (c : jurisdiction) (cs : list jurisdiction) (v : Z)
    (r : RawResult) (batch : list RawResult) (w : world) :
  (row ∈ rows ->
   PrecinctLoader._skip_row row = Ok false ->
   row !! "county_name" = Some (Some cname) ->
   PrecinctLoader.matching cname = [] ->
   exists e, PrecinctLoader.load rows w = (Raise e, w))
  /\ (is_Some (row !! "contest_name") ->
      row !! "district" = Some (Some district) ->
      row !! "candidate" = Some (Some raw) ->
      row !! "precinct_id" = Some (Some pid) ->
      row !! "polling_location" = Some (Some loc) ->
      PyStr.is_ascii (pid +:+ " " +:+ loc) = true ->
      row !! "county_name" = Some (Some cname) ->
      PrecinctLoader.matching cname = [] ->
      PrecinctLoader._prep_precinct_result common row = Raise IndexError)
  /\ (PrecinctLoader._prep_precinct_result common row = Ok r ->
      row !! "county_name" = Some (Some cname) ->
      exists c cs pid,
        PrecinctLoader.matching cname = c :: cs
        /\ row !! "precinct_id" = Some (Some pid)
        /\ r !! "ocd_id"
           = Some (VStr (ocd_id c +:+ "/precinct:" +:+ ocd_type_id pid)))
  /\ (is_Some (row !! "contest_name") ->
      row !! "district" = Some (Some district) ->
      row !! "candidate" = Some (Some raw) ->
      row !! "precinct_id" = Some (Some pid) ->
      row !! "polling_location" = Some (Some loc) ->
      PyStr.is_ascii (pid +:+ " " +:+ loc) = true ->
      row !! "county_name" = Some (Some cname) ->
      PrecinctLoader.matching cname = c :: cs ->
      row !! "party" = Some (Some party) ->
      row !! "votes" = Some (Some raw_votes) ->
      FlLoader._votes raw_votes = Ok v ->
      (exists r',
         PrecinctLoader._prep_precinct_result common row = Ok r'
         /\ r' !! "ocd_id"
            = Some (VStr (ocd_id c +:+ "/precinct:" +:+ ocd_type_id pid)))
      /\ (PrecinctLoader._skip_row row = Ok false ->
          PrecinctLoader.load rows w = (Ok tt, insert batch w) ->
          exists r',
            PrecinctLoader.load (rows ++ [row]) w
            = (Ok tt, insert (batch ++ [r']) w)
            /\ r' !! "ocd_id"
               = Some (VStr (ocd_id c +:+ "/precinct:" +:+ ocd_type_id pid)))).
Proof.
  split; [|split; [|split]].
  - intros Hin Hs Hc Hm.
    destruct (precinct_load_rows_raises precinct_common rows row [] Hin Hs)
      as (e & He); [by eapply precinct_unresolved_raises|].
    exists e.
    destruct (precinct_load_cases rows w) as [(b & Hb & _)|(e' & He' & Hl)];
      congruence.
  - intros [contest Hname] Hd Hraw Hpid Hloc Hascii Hcname Hm.
    by eapply precinct_unresolved_IndexError.
  - intros Hr Hc. apply precinct_result_inv in Hr.
    destruct Hr as (? & ? & ? & pid' & ? & cname' & c' & cs' & ? & ? & ? & Hr).
    destruct Hr as (_ & _ & _ & Hp & _ & _ & Hc' & Hm & _ & _ & _ & ->).
    assert (cname' = cname) as -> by congruence.
    exists c', cs', pid'. split; [done|]. split; [done|]. by lookup_kwargs.
  - intros [contest Hname] Hd Hraw Hpid Hloc Hascii Hcname Hm Hparty Hrv Hv.
    assert (Hbuilt : forall common', exists r',
               PrecinctLoader._prep_precinct_result common' row = Ok r'
               /\ r' !! "ocd_id"
                  = Some (VStr (ocd_id c +:+ "/precinct:" +:+ ocd_type_id pid))).
    { intros common'. eexists. split.
      - by eapply precinct_result_built.
      - by lookup_kwargs. }
    split; [apply Hbuilt|]. intros Hs Hl.
    destruct (Hbuilt precinct_common) as (r' & Hr' & Hid).
    exists r'. split; [|done].
    destruct (precinct_load_cases rows w) as [(b & Hb & Hl')|(e & _ & Hl')];
      rewrite Hl' in Hl; [|discriminate].
    injection Hl as Hl. apply app_inv_head in Hl. injection Hl as ->.
    unfold PrecinctLoader.load. fold precinct_common.
    rewrite precinct_load_rows_app, Hb, bind_Ok_l.
    cbn [PrecinctLoader.load_rows]. by rewrite Hs, bind_Ok_l, Hr', bind_Ok_l.
Qed.

End PrecinctFields.

Lemma precinct_candidate_name_witness :
  PrecinctLoader._prep_precinct_result (H := Sample.env)
    Sample.common Sample.writein_row
  = Ok Sample.writein_result
  /\ exists raw full,
       Sample.writein_row !! "candidate" = Some (Some raw)
       /\ Sample.writein_result !! "full_name" = Some (VStr full)
       /\ Sample.writein_result !! "name_slug"
          = Some (VStr (Sample.slugify full (Some "-")))
       /\ (PyStr.strip raw = "UnderVotes" -> full = "Under Votes")
       /\ (PyStr.strip raw = "OverVotes" -> full = "Over Votes")
       /\ (PyStr.strip raw = "WriteinVotes" -> full = "Write-ins")
       /\ (PyStr.strip raw ∉ ["UnderVotes"; "OverVotes"; "WriteinVotes"] ->
           full = PyStr.strip raw).
Proof.
  assert (Hr : PrecinctLoader._prep_precinct_result (H := Sample.env)
                 Sample.common Sample.writein_row
               = Ok Sample.writein_result) by compute_done.
  split; [exact Hr|].
  exact (precinct_candidate_name (H := Sample.env) Sample.common
           Sample.writein_row Sample.writein_result Hr).
Defined.

(** With Leon county listed twice in the table, the row of a Leon precinct
    is resolved, to the first of the two entries, and the batch is stored. *)
Lemma precinct_ambiguous_county_resolves :
  PrecinctLoader.matching (H := Sample.env_with Sample.table_twice) "Leon"
  = Sample.table_twice
  /\ PrecinctLoader.load (H := Sample.env_with Sample.table_twice)
       [Sample.writein_row] Sample.w0
     = (Ok tt, World [[Sample.writein_result]] []).
Proof. split; compute_done. Qed.

Lemma precinct_county_resolution_witness :
  (exists e,
     PrecinctLoader.load (H := Sample.env)
       [Sample.writein_row; Sample.unlisted_row] Sample.w0
     = (Raise e, Sample.w0))
  /\ PrecinctLoader._prep_precinct_result (H := Sample.env)
       Sample.common Sample.unlisted_row
     = Raise IndexError
  /\ (exists c cs pid,
        PrecinctLoader.matching (H := Sample.env_with Sample.table_twice) "Leon"
        = c :: cs
        /\ Sample.writein_row !! "precinct_id" = Some (Some pid)
        /\ Sample.writein_result !! "ocd_id"
           = Some (VStr (ocd_id c +:+ "/precinct:" +:+ Sample.ocd_type_id pid)))
  /\ (exists r',
        PrecinctLoader._prep_precinct_result
          (H := Sample.env_with Sample.table_twice)
          Sample.common Sample.writein_row
        = Ok r'
        /\ r' !! "ocd_id"
           = Some (VStr "ocd-division/country:us/state:fl/county:leon/precinct:12"))
  /\ (exists r',
        PrecinctLoader.load (H := Sample.env_with Sample.table_twice)
          ([Sample.president_row] ++ [Sample.writein_row]) Sample.w0
        = (Ok tt, insert ([Sample.president_result] ++ [r']) Sample.w0)
        /\ r' !! "ocd_id"
           = Some (VStr "ocd-division/country:us/state:fl/county:leon/precinct:12")).
Proof.
  split; [|split; [|split; [|split]]].
  - apply (proj1 (precinct_county_resolution (H := Sample.env) Sample.common
                    [Sample.writein_row; Sample.unlisted_row]
                    Sample.unlisted_row "" "" "" "" "Atlantis" "" ""
                    (Jurisdiction "" "") [] 0%Z Sample.writein_result []
                    Sample.w0)).
    + apply elem_of_cons. right. apply elem_of_cons. by left.
    + compute_done.
    + compute_done.
    + compute_done.
  - apply (proj1 (proj2 (precinct_county_resolution (H := Sample.env)
                           Sample.common [] Sample.unlisted_row
                           "" "Scott / Carroll" "12" "Town Hall" "Atlantis" "" ""
                           (Jurisdiction "" "") [] 0%Z Sample.writein_result []
                           Sample.w0)));
      compute_done.
  - apply (proj1 (proj2 (proj2 (precinct_county_resolution
                           (H := Sample.env_with Sample.table_twice)
                           Sample.common [] Sample.writein_row
                           "" "" "" "" "Leon" "" ""
                           (Jurisdiction "" "") [] 0%Z Sample.writein_result []
                           Sample.w0))));
      compute_done.
  - apply (proj1 (proj2 (proj2 (proj2 (precinct_county_resolution
                           (H := Sample.env_with Sample.table_twice)
                           Sample.common [] Sample.writein_row
                           "" " WriteinVotes" "12" "Town Hall" "Leon" "NPA" "7"
                           (Jurisdiction "Leon County"
                              "ocd-division/country:us/state:fl/county:leon")
                           [Jurisdiction "LEON COUNTY"
                              "ocd-division/country:us/state:fl/county:leon_2"]
                           7%Z Sample.writein_result [] Sample.w0)))
                  ltac:(compute_done) ltac:(compute_done)
                  ltac:(compute_done) ltac:(compute_done) ltac:(compute_done)
                  ltac:(compute_done) ltac:(compute_done) ltac:(compute_done)
                  ltac:(compute_done) ltac:(compute_done) ltac:(compute_done))).
  - apply (proj2 (proj2 (proj2 (proj2 (precinct_county_resolution
                           (H := Sample.env_with Sample.table_twice)
                           Sample.common [Sample.president_row] Sample.writein_row
                           "" " WriteinVotes" "12" "Town Hall" "Leon" "NPA" "7"
                           (Jurisdiction "Leon County"
                              "ocd-division/country:us/state:fl/county:leon")
                           [Jurisdiction "LEON COUNTY"
                              "ocd-division/country:us/state:fl/county:leon_2"]
                           7%Z Sample.writein_result [Sample.president_result]
                           Sample.w0)))
                  ltac:(compute_done) ltac:(compute_done)
                  ltac:(compute_done) ltac:(compute_done) ltac:(compute_done)
                  ltac:(compute_done) ltac:(compute_done) ltac:(compute_done)
                  ltac:(compute_done) ltac:(compute_done) ltac:(compute_done)));
      compute_done.
Defined.

(** ** Vote counts *)

Section Votes.
Local Open Scope Z_scope.

Lemma digits_val_nonneg (ds : list ascii) : 0 <= PyFloat.digits_val ds.
Proof.
  unfold PyFloat.digits_val.
  assert (Hacc : forall acc, 0 <= acc ->
            0 <= fold_left (fun acc c => 10 * acc + PyFloat.digit_val c) ds acc).
  { induction ds as [|c ds IH]; intros acc Hacc; [done|].
    cbn [fold_left]. apply IH. unfold PyFloat.digit_val. lia. }
  by apply Hacc.
Qed.

Lemma round_b64_nonneg (neg neg' : bool) (n d m e : Z) :
  0 <= n -> 0 < d ->
  PyFloat.round_b64 neg n d = PyFloat.Finite neg' m e ->
  neg' = neg /\ 0 <= m.
Proof.
  intros Hn Hd. unfold PyFloat.round_b64.
  destruct (n =? 0); [intros [= <- <- <-]; by split|].
  cbv zeta.
  set (qe := Z.max _ (-1022) - 52).
  set (num := if 0 <=? qe then n else n * 2 ^ (- qe)).
  set (den := if 0 <=? qe then d * 2 ^ qe else d).
  assert (0 <= num).
  { unfold num. destruct (0 <=? qe); [done|].
    apply Z.mul_nonneg_nonneg; [done|]. apply Z.pow_nonneg. lia. }
  assert (0 < den).
  { unfold den. destruct (0 <=? qe) eqn:Hq; [|done].
    apply Z.mul_pos_pos; [done|]. apply Z.pow_pos_nonneg; lia. }
  assert (0 <= num / den) by (apply Z.div_pos; lia).
  destruct (_ || _); [discriminate|].
  destruct (_ || _); intros [= <- <- <-]; split; (done || lia).
Qed.

Lemma parse_sign_neg (l body : list ascii) :
  PyFloat.parse_sign l = (true, body) -> l = "-"%char :: body.
Proof.
  unfold PyFloat.parse_sign. destruct l as [|c l]; [discriminate|].
  destruct (decide (c = "-"%char)) as [->|Hm]; [by intros [= <-]|].
  destruct (decide (c = "+"%char)) as [->|Hp]; [discriminate|].
  destruct c as [[] [] [] [] [] [] [] []]; try discriminate; congruence.
Qed.

Lemma parse_decimal_nonneg (l : list ascii) (m ex : Z) :
  PyFloat.parse_decimal l = Some (m, ex) -> 0 <= m.
Proof.
  unfold PyFloat.parse_decimal.
  destruct (PyFloat.span_digits l) as [ip r1].
  destruct (match r1 with
            | [] => ([], r1)
            | a :: r => _
            end) as [fp r2].
  destruct (ip ++ fp) as [|c ds]; [discriminate|].
  destruct (PyFloat.parse_exponent r2); [|discriminate].
  intros [= <- <-]. apply digits_val_nonneg.
Qed.

(** What [float] makes of a literal that is a finite number: the sign is
    that of the literal, and the mantissa is not negative. *)
Lemma of_string_finite (s : string) (neg : bool) (m e : Z) :
  PyFloat.of_string s = Some (PyFloat.Finite neg m e) ->
  0 <= m
  /\ (neg = true -> exists rest, PyStr.strip s = String "-"%char rest).
Proof.
  unfold PyFloat.of_string.
  destruct (PyFloat.parse_sign _) as [neg0 body] eqn:Hsign.
  destruct (bool_decide _); [discriminate|].
  destruct (bool_decide _); [discriminate|].
  destruct (PyFloat.parse_decimal body) as [[m0 ex]|] eqn:Hd; [|discriminate].
  apply parse_decimal_nonneg in Hd.
  intros [= Hround].
  assert (neg = neg0 /\ 0 <= m) as [-> Hm].
  { destruct (0 <=? ex) eqn:Hex.
    - apply round_b64_nonneg in Hround; [done| |done].
      apply Z.mul_nonneg_nonneg; [done|]. apply Z.pow_nonneg. lia.
    - apply Z.leb_gt in Hex.
      apply round_b64_nonneg in Hround; [done|done|].
      apply Z.pow_pos_nonneg; lia. }
  split; [done|]. intros ->.
  apply parse_sign_neg in Hsign.
  exists (string_of_list_ascii body).
  rewrite <- (string_of_list_ascii_of_string (PyStr.strip s)), Hsign.
  reflexivity.
Qed.

Lemma of_string_blank (s : string) :
  PyStr.strip s = "" -> PyFloat.of_string s = None.
Proof. intros Hs. unfold PyFloat.of_string. by rewrite Hs. Qed.

(** [trunc] is the integer part towards zero of [(-1)^neg * m * 2^e]. *)
Lemma trunc_spec (neg : bool) (m e : Z) :
  0 <= m ->
  (0 <= e -> Z.abs (PyFloat.trunc neg m e) = m * 2 ^ e)
  /\ (e < 0 ->
      Z.abs (PyFloat.trunc neg m e) * 2 ^ (- e) <= m
      < (Z.abs (PyFloat.trunc neg m e) + 1) * 2 ^ (- e))
  /\ (neg = false -> 0 <= PyFloat.trunc neg m e)
  /\ (neg = true -> PyFloat.trunc neg m e <= 0).
Proof.
  intros Hm. unfold PyFloat.trunc.
  destruct (0 <=? e) eqn:He.
  - apply Z.leb_le in He.
    assert (0 <= m * 2 ^ e) by (apply Z.mul_nonneg_nonneg; [done|]; apply Z.pow_nonneg; lia).
    destruct neg; repeat split; try lia; try discriminate.
  - apply Z.leb_gt in He.
    assert (Hp : 0 < 2 ^ (- e)) by (apply Z.pow_pos_nonneg; lia).
    assert (0 <= m / 2 ^ (- e)) by (apply Z.div_pos; lia).
    pose proof (Z.mul_div_le m _ Hp).
    pose proof (Z.mul_succ_div_gt m _ Hp).
    destruct neg; repeat split; try lia; try discriminate.
    all: rewrite ?Z.abs_opp, Z.abs_eq by lia; lia.
Qed.

(** The outcomes of [_votes], by what [float] makes of the value. *)
Lemma votes_cases (val : string) :
  match PyFloat.of_string val with
  | None | Some PyFloat.NaN => FlLoader._votes val = Ok 0
  | Some (PyFloat.Inf _) => FlLoader._votes val = Raise OverflowError
  | Some (PyFloat.Finite neg m e) => FlLoader._votes val = Ok (PyFloat.trunc neg m e)
  end.
Proof.
  unfold FlLoader._votes. case_bool_decide as Hs.
  - by rewrite (of_string_blank _ Hs).
  - unfold py_float. by destruct (PyFloat.of_string val) as [[| |]|].
Qed.

Lemma votes_blank (val : string) :
  PyStr.strip val = "" -> FlLoader._votes val = Ok 0.
Proof. intros Hs. unfold FlLoader._votes. by rewrite bool_decide_eq_true_2. Qed.

End Votes.

Lemma votes_raises (val : string) (e : exn) :
  FlLoader._votes val = Raise e <->
  e = OverflowError /\ exists neg, PyFloat.of_string val = Some (PyFloat.Inf neg).
Proof.
  pose proof (votes_cases val) as Hc.
  destruct (PyFloat.of_string val) as [[neg m ex|neg|]|]; rewrite Hc; split.
  all: try discriminate.
  all: try (intros (_ & ? & ?); discriminate).
  - intros [= <-]. split; [done|]. by exists neg.
  - by intros (-> & _).
Qed.

Section PrecinctVotes.
Context `{Env}.
Local Open Scope Z_scope.

(** The votes of the results of a precinct file. *)
Lemma precinct_votes_spec (rows : list Row) (w w' : world) :
  PrecinctLoader.load rows w = (Ok tt, w') ->
  exists batch,
    store w' = store w ++ [batch]
    /\ forall r, r ∈ batch ->
       exists row raw v,
         row ∈ rows
         /\ row !! "votes" = Some (Some raw)
         /\ r !! "votes" = Some (VInt v)
         /\ (PyStr.strip raw = "" -> v = 0)
         /\ (PyFloat.of_string raw = None -> v = 0)
         /\ (PyFloat.of_string raw = Some PyFloat.NaN -> v = 0)
         /\ (forall neg m e,
               PyFloat.of_string raw = Some (PyFloat.Finite neg m e) ->
               v = PyFloat.trunc neg m e
               /\ (0 <= e -> Z.abs v = m * 2 ^ e)
               /\ (e < 0 -> Z.abs v * 2 ^ (- e) <= m < (Z.abs v + 1) * 2 ^ (- e))
               /\ (neg = false -> 0 <= v)
               /\ (neg = true -> v <= 0))
         /\ ((forall rest, PyStr.strip raw <> String "-"%char rest) -> 0 <= v).
Proof.
  intros Hl. apply precinct_load_Ok in Hl as (batch & -> & Hall).
  exists batch. split; [done|]. intros r Hin.
  destruct (precinct_batch_member _ _ _ Hall Hin) as (row & Hrow & _ & Hr).
  apply precinct_result_inv in Hr.
  destruct Hr as (? & ? & ? & ? & ? & ? & ? & ? & ? & raw & v & Hr).
  destruct Hr as (_ & _ & _ & _ & _ & _ & _ & _ & _ & Hraw & Hv & ->).
  exists row, raw, v. split; [done|]. split; [done|].
  split; [by lookup_kwargs|].
  pose proof (votes_cases raw) as Hc. rewrite Hv in Hc.
  split; [intros Hb; rewrite (votes_blank _ Hb) in Hv; congruence|].
  split; [intros Hn; rewrite Hn in Hc; congruence|].
  split; [intros Hn; rewrite Hn in Hc; congruence|].
  split.
  - intros neg m e Hf. rewrite Hf in Hc. injection Hc as ->.
    split; [done|]. apply trunc_spec. by apply of_string_finite in Hf as [? _].
  - intros Hsign.
    destruct (PyFloat.of_string raw) as [[neg m e|neg|]|] eqn:Hf;
      try discriminate; try (injection Hc as ->; lia).
    injection Hc as ->.
    apply of_string_finite in Hf as [Hm Hneg].
    destruct neg; [destruct (Hneg eq_refl) as (rest & Hrest); by destruct (Hsign rest)|].
    by apply trunc_spec.
Qed.

End PrecinctVotes.

(** The values of [_votes] on some raw counts. *)
Lemma votes_examples :
  FlLoader._votes "123.9" = Ok 123%Z
  /\ FlLoader._votes "-5.5" = Ok (-5)%Z
  /\ FlLoader._votes "  " = Ok 0%Z
  /\ FlLoader._votes "" = Ok 0%Z
  /\ FlLoader._votes "n/a" = Ok 0%Z
  /\ FlLoader._votes "nan" = Ok 0%Z
  /\ FlLoader._votes " 1e3 " = Ok 1000%Z
  /\ FlLoader._votes "9007199254740993" = Ok 9007199254740992%Z.
Proof. repeat split; compute_done. Qed.

(** C9 fails on the code: [_votes] raises on a numeric literal too large for
    a double, and on an infinity. [int] of an infinite float raises
    [OverflowError], which the [except ValueError] clause does not catch; a
    precinct file with such a count aborts. *)
Theorem votes_overflow_raises :
  FlLoader._votes "1e999" = Raise OverflowError
  /\ FlLoader._votes "inf" = Raise OverflowError
  /\ FlLoader._votes "-Infinity" = Raise OverflowError
  /\ PrecinctLoader.load (H := Sample.env) [Sample.governor_row "1e999"] Sample.w0
     = (Raise OverflowError, Sample.w0).
Proof. repeat split; compute_done. Qed.

(** ** Results of a county-summary file *)

Lemma first_seen_fresh (seen : gset string) (cands : list (RawResult * string))
    (c : RawResult * string) :
  c ∈ first_seen seen cands -> c.2 ∉ seen.
Proof.
  revert seen. induction cands as [|c' cands IH]; intros seen Hin.
  - by apply elem_of_nil in Hin.
  - cbn [first_seen] in Hin. case_bool_decide as Hs; [by apply IH|].
    apply elem_of_cons in Hin as [->|Hin]; [done|].
    apply IH in Hin. set_solver.
Qed.

Lemma first_seen_NoDup (seen : gset string) (cands : list (RawResult * string)) :
  NoDup (first_seen seen cands).*2.
Proof.
  revert seen. induction cands as [|c cands IH]; intros seen.
  - constructor.
  - cbn [first_seen]. case_bool_decide as Hs; [apply IH|].
    rewrite fmap_cons. constructor; [|apply IH].
    intros Hin. apply list_elem_of_fmap in Hin as (c' & Hk & Hin).
    apply first_seen_fresh in Hin. set_solver.
Qed.

Lemma first_seen_first (seen : gset string) (cands : list (RawResult * string))
    (c : RawResult * string) :
  c ∈ first_seen seen cands ->
  exists pre post, cands = pre ++ c :: post /\ c.2 ∉ pre.*2.
Proof.
  revert seen. induction cands as [|c' cands IH]; intros seen Hin.
  - by apply elem_of_nil in Hin.
  - cbn [first_seen] in Hin. case_bool_decide as Hs.
    + pose proof (first_seen_fresh _ _ _ Hin) as Hfresh.
      apply IH in Hin as (pre & post & -> & Hpre).
      exists (c' :: pre), post. split; [done|].
      rewrite fmap_cons, not_elem_of_cons. split; [congruence | done].
    + apply elem_of_cons in Hin as [->|Hin].
      * exists [], cands. split; [done|]. apply not_elem_of_nil.
      * pose proof (first_seen_fresh _ _ _ Hin) as Hfresh.
        apply IH in Hin as (pre & post & -> & Hpre).
        exists (c' :: pre), post. split; [done|].
        rewrite fmap_cons, not_elem_of_cons. split; [set_solver | done].
Qed.

Lemma first_seen_complete (seen : gset string) (cands : list (RawResult * string))
    (c : RawResult * string) :
  c ∈ cands -> c.2 ∈ seen \/ c.2 ∈ (first_seen seen cands).*2.
Proof.
  revert seen. induction cands as [|c' cands IH]; intros seen Hin.
  - by apply elem_of_nil in Hin.
  - cbn [first_seen]. apply elem_of_cons in Hin as [->|Hin].
    + case_bool_decide; [by left|]. right. rewrite fmap_cons. by left.
    + case_bool_decide as Hs; [by apply IH|].
      destruct (IH ({[ c'.2 ]} ∪ seen) Hin) as [Hk|Hk].
      * apply elem_of_union in Hk as [Hk|Hk]; [|by left].
        apply elem_of_singleton in Hk. right. rewrite fmap_cons, Hk. by left.
      * right. rewrite fmap_cons. by right.
Qed.

Section County.
Context `{Env}.

Lemma county_load_rows_store (common : Kwargs) (rows : list Row)
    (results : list RawResult) (seen : gset string) (w : world) :
  store (FlLoader.load_rows common rows results seen w).2 = store w.
Proof.
  revert results seen w. induction rows as [|row rows IH]; intros results seen w.
  - done.
  - cbn [FlLoader.load_rows].
    destruct (FlLoader._skip_row row) as [e|[|]]; [done| |].
    + destruct (field AttributeError row "OfficeDesc") as [e|office]; [done|].
      rewrite IH. by destruct (_ <? _)%nat.
    + destruct (_ ≫= _) as [e|[result key]]; [done|].
      case_bool_decide; apply IH.
Qed.

Lemma county_load_rows_spec (common : Kwargs) (rows : list Row)
    (results batch : list RawResult) (seen : gset string) (w w' : world) :
  FlLoader.load_rows common rows results seen w = (Ok batch, w') ->
  exists cands,
    Forall2 (county_candidate common) (county_kept rows) cands
    /\ batch = results ++ (first_seen seen cands).*1.
Proof.
  revert results seen w. induction rows as [|row rows IH]; intros results seen w Hl.
  - injection Hl as <- <-. exists []. split; [constructor | by rewrite app_nil_r].
  - cbn [FlLoader.load_rows] in Hl.
    destruct (FlLoader._skip_row row) as [e|[|]] eqn:Hs; [done| |].
    + destruct (field AttributeError row "OfficeDesc") as [e|office]; [done|].
      apply IH in Hl as (cands & Hall & ->). exists cands. split; [|done].
      unfold county_kept. rewrite filter_cons_False; [done | congruence].
    + destruct (_ ≫= _) as [e|[result key]] eqn:Hc; [done|].
      apply bind_Ok in Hc as (r & Hr & Hc).
      apply bind_Ok in Hc as (k & Hk & Hc). injection Hc as <- <-.
      assert (Hcand : county_candidate common row (r, k)) by done.
      case_bool_decide as Hseen;
        apply IH in Hl as (cands & Hall & ->); exists ((r, k) :: cands).
      * split.
        -- unfold county_kept. rewrite filter_cons_True by done. by constructor.
        -- cbn [first_seen]. by rewrite bool_decide_eq_true_2.
      * split.
        -- unfold county_kept. rewrite filter_cons_True by done. by constructor.
        -- cbn [first_seen]. rewrite bool_decide_eq_false_2 by done.
           by rewrite fmap_cons, <- app_assoc.
Qed.

Lemma county_load_cases (rows : list Row) (w : world) :
  (exists batch w1,
      FlLoader.load_rows _build_common_election_kwargs rows [] ∅ w = (Ok batch, w1)
      /\ store w1 = store w
      /\ FlLoader.load rows w = (Ok tt, insert batch w1))
  \/ (exists e w1,
        FlLoader.load_rows _build_common_election_kwargs rows [] ∅ w = (Raise e, w1)
        /\ store w1 = store w
        /\ FlLoader.load rows w = (Raise e, w1)).
Proof.
  unfold FlLoader.load.
  pose proof (county_load_rows_store _build_common_election_kwargs rows [] ∅ w) as Hs.
  destruct (FlLoader.load_rows _ rows [] ∅ w) as [[e|batch] w1].
  - right. by exists e, w1.
  - left. by exists batch, w1.
Qed.

Lemma county_load_Ok (rows : list Row) (w w' : world) :
  FlLoader.load rows w = (Ok tt, w') ->
  exists cands,
    store w' = store w ++ [(first_seen ∅ cands).*1]
    /\ Forall2 (county_candidate _build_common_election_kwargs)
               (county_kept rows) cands.
Proof.
  intros Hl.
  destruct (county_load_cases rows w)
    as [(batch & w1 & Hb & Hs & Hl')|(e & w1 & _ & _ & Hl')];
    rewrite Hl' in Hl; [|discriminate].
  injection Hl as <-.
  apply county_load_rows_spec in Hb as (cands & Hall & ->).
  exists cands. split; [|done]. cbn. by rewrite Hs.
Qed.

(** Every result of a county batch was built from a row of the file that
    was not skipped. *)
Lemma county_batch_member (common : Kwargs) (rows : list Row)
    (cands : list (RawResult * string)) (seen : gset string) (r : RawResult) :
  Forall2 (county_candidate common) (county_kept rows) cands ->
  r ∈ (first_seen seen cands).*1 ->
  exists row,
    row ∈ rows
    /\ FlLoader._skip_row row = Ok false
    /\ FlLoader._prep_result common row = Ok r.
Proof.
  intros Hall Hin.
  apply list_elem_of_fmap in Hin as (c & -> & Hin).
  apply first_seen_first in Hin as (pre & post & -> & _).
  apply Forall2_app_inv_r in Hall as (rows1 & rows2 & _ & Hall & Hrows).
  apply Forall2_cons_inv_r in Hall as (row & rows3 & [Hr _] & _ & ->).
  assert (Hrow : row ∈ county_kept rows).
  { rewrite Hrows. apply elem_of_app. right. by left. }
  unfold county_kept in Hrow. apply list_elem_of_filter in Hrow as (Hs & Hrow).
  by exists row.
Qed.

Lemma county_contest_inv (row : Row) (contest : Kwargs) :
  FlLoader._build_contest_kwargs row = Ok contest ->
  exists office,
    row !! "OfficeDesc" = Some (Some office)
    /\ ((PyStr.strip office ∈ FlLoader.district_offices
         /\ exists num,
              row !! "Juris1num" = Some (Some num)
              /\ contest = <[ "district" := VStr (PyStr.strip num) ]>
                             {[ "office" := VStr (PyStr.strip office) ]})
        \/ ((PyStr.strip office ∉ FlLoader.district_offices)
            /\ contest = {[ "office" := VStr (PyStr.strip office) ]})).
Proof.
  unfold FlLoader._build_contest_kwargs. intros Hc.
  apply bind_Ok in Hc as (office & Ho & Hc). apply field_Ok in Ho.
  exists office. split; [done|].
  case_bool_decide as Hd.
  - left. split; [done|]. res_inv. by eexists.
  - right. split; [done|]. by injection Hc as <-.
Qed.

Lemma county_candidate_inv (row : Row) (candidate : Kwargs) :
  FlLoader._build_candidate_kwargs row = Ok candidate ->
  exists last first middle,
    candidate = <[ "family_name" := VStr (PyStr.strip last) ]>
                (<[ "given_name" := VStr (PyStr.strip first) ]>
                 {[ "additional_name" := VStr (PyStr.strip middle) ]}).
Proof.
  unfold FlLoader._build_candidate_kwargs. intros Hc. res_inv. by eexists _, _, _.
Qed.

Lemma county_result_kwargs_inv (row : Row) (result : Kwargs) :
  FlLoader._build_result_kwargs row = Ok result ->
  exists office name party votes,
    row !! "OfficeDesc" = Some (Some office)
    /\ row !! "CountyName" = Some (Some name)
    /\ row !! "PartyName" = Some (Some party)
    /\ row !! "CanVotes" = Some (Some votes)
    /\ let kwargs : Kwargs :=
         <[ "party" := VStr (PyStr.strip party) ]>
         (<[ "jurisdiction" := VStr (PyStr.strip name) ]>
          (<[ "ocd_id" :=
                VStr (mapping_ocd_id +:+ "/county:"
                      +:+ ocd_type_id (PyStr.strip name)) ]>
           {[ "votes" := VStr (PyStr.strip votes) ]})) in
       (PyStr.strip office = "U.S. President by Congressional District"
        /\ exists num,
             row !! "Juris1num" = Some (Some num)
             /\ result
                = <[ "reporting_district" := VStr (PyStr.strip num) ]>
                  (<[ "reporting_level" := VStr "congressional_district_by_county" ]>
                   kwargs))
       \/ (PyStr.strip office <> "U.S. President by Congressional District"
           /\ result = <[ "reporting_level" := VStr "county" ]> kwargs).
Proof.
  unfold FlLoader._build_result_kwargs. intros Hr.
  apply bind_Ok in Hr as (name & Hn & Hr). apply field_Ok in Hn.
  apply bind_Ok in Hr as (party & Hp & Hr). apply field_Ok in Hp.
  apply bind_Ok in Hr as (votes & Hv & Hr). apply field_Ok in Hv.
  apply bind_Ok in Hr as (office & Ho & Hr). apply field_Ok in Ho.
  exists office, name, party, votes. repeat (split; [done|]).
  cbv zeta. case_bool_decide as Hd.
  - left. split; [done|]. res_inv. by eexists.
  - right. split; [done|]. by injection Hr as <-.
Qed.

Lemma county_result_inv (common : Kwargs) (row : Row) (r : RawResult) :
  FlLoader._prep_result common row = Ok r ->
  exists contest candidate result,
    FlLoader._build_contest_kwargs row = Ok contest
    /\ FlLoader._build_candidate_kwargs row = Ok candidate
    /\ FlLoader._build_result_kwargs row = Ok result
    /\ r = update (update (update common contest) candidate) result.
Proof.
  unfold FlLoader._prep_result. intros Hr.
  apply bind_Ok in Hr as (contest & Hc & Hr).
  apply bind_Ok in Hr as (candidate & Hk & Hr).
  apply bind_Ok in Hr as (result & Hres & Hr).
  injection Hr as <-. by exists contest, candidate, result.
Qed.

(** The office, the reporting level and the reporting district of a county
    result. *)
Lemma county_result_level (common : Kwargs) (row : Row) (r : RawResult) :
  FlLoader._prep_result common row = Ok r ->
  exists office,
    row !! "OfficeDesc" = Some (Some office)
    /\ r !! "office" = Some (VStr (PyStr.strip office))
    /\ ((PyStr.strip office = "U.S. President by Congressional District"
         /\ r !! "reporting_level" = Some (VStr "congressional_district_by_county")
         /\ exists num,
              row !! "Juris1num" = Some (Some num)
              /\ r !! "reporting_district" = Some (VStr (PyStr.strip num)))
        \/ (PyStr.strip office <> "U.S. President by Congressional District"
            /\ r !! "reporting_level" = Some (VStr "county")
            /\ r !! "reporting_district" = common !! "reporting_district")).
Proof.
  intros Hr. apply county_result_inv in Hr as (C & K & R & HC & HK & HR & ->).
  apply county_contest_inv in HC as (office & Ho & HC).
  apply county_candidate_inv in HK as (last & first & middle & ->).
  apply county_result_kwargs_inv in HR
    as (office' & name & party & votes & Ho' & _ & _ & _ & HR).
  assert (office' = office) as -> by congruence.
  exists office. split; [done|]. cbv zeta in HR.
  destruct HC as [(_ & num & _ & ->)|(_ & ->)];
    destruct HR as [(Hs & num' & Hnum & ->)|(Hs & ->)];
    (split; [by lookup_kwargs|]).
  1,3: left; split; [done|]; split; [by lookup_kwargs|];
       exists num'; split; [done|]; by lookup_kwargs.
  all: right; split; [done|]; split; by lookup_kwargs.
Qed.

(** The district of a county result. *)
Lemma county_result_district (common : Kwargs) (row : Row) (r : RawResult) :
  FlLoader._prep_result common row = Ok r ->
  exists office,
    row !! "OfficeDesc" = Some (Some office)
    /\ r !! "office" = Some (VStr (PyStr.strip office))
    /\ ((PyStr.strip office ∈ FlLoader.district_offices
         /\ exists num,
              row !! "Juris1num" = Some (Some num)
              /\ r !! "district" = Some (VStr (PyStr.strip num)))
        \/ ((PyStr.strip office ∉ FlLoader.district_offices)
            /\ r !! "district" = common !! "district")).
Proof.
  intros Hr. apply county_result_inv in Hr as (C & K & R & HC & HK & HR & ->).
  apply county_contest_inv in HC as (office & Ho & HC).
  apply county_candidate_inv in HK as (last & first & middle & ->).
  apply county_result_kwargs_inv in HR
    as (office' & name & party & votes & Ho' & _ & _ & _ & HR).
  exists office. split; [done|]. cbv zeta in HR.
  destruct HC as [(Hd & num & Hnum & ->)|(Hd & ->)];
    destruct HR as [(Hs & num' & Hnum' & ->)|(Hs & ->)];
    (split; [by lookup_kwargs|]).
  1,2: left; split; [done|]; exists num; split; [done|]; by lookup_kwargs.
  all: right; split; [done|]; by lookup_kwargs.
Qed.

(** The votes of a county result: the trimmed text of the column. *)
Lemma county_result_votes (common : Kwargs) (row : Row) (r : RawResult) :
  FlLoader._prep_result common row = Ok r ->
  exists votes,
    row !! "CanVotes" = Some (Some votes) /\ r !! "votes" = Some (VStr (PyStr.strip votes)).
Proof.
  intros Hr. apply county_result_inv in Hr as (C & K & R & HC & HK & HR & ->).
  apply county_result_kwargs_inv in HR
    as (office' & name & party & votes & Ho' & _ & _ & Hv & HR).
  exists votes. split; [done|]. cbv zeta in HR.
  destruct HR as [(Hs & num' & Hnum' & ->)|(Hs & ->)]; by lookup_kwargs.
Qed.

End County.

(** ** When a load succeeds *)

Section Passing.
Context `{Env}.

Lemma county_load_rows_passes (common : Kwargs) (rows : list Row)
    (results batch : list RawResult) (seen : gset string) (w w' : world) :
  FlLoader.load_rows common rows results seen w = (Ok batch, w') ->
  Forall (county_row_passes common) rows.
Proof.
  revert results seen w.
  induction rows as [|row rows IH]; intros results seen w Hl; [constructor|].
  cbn [FlLoader.load_rows] in Hl.
  destruct (FlLoader._skip_row row) as [e|[|]] eqn:Hs; [done| |].
  - destruct (field AttributeError row "OfficeDesc") as [e|office]; [done|].
    constructor; [by left | by eapply IH].
  - destruct (_ ≫= _) as [e|[result key]] eqn:Hc; [done|].
    apply bind_Ok in Hc as (r & Hr & Hc).
    apply bind_Ok in Hc as (k & Hk & Hc). injection Hc as <- <-.
    constructor.
    + right. split; [done|]. by exists (r, k).
    + revert Hl. case_bool_decide; intros Hl; by eapply IH.
Qed.

Lemma county_load_rows_total (common : Kwargs) (rows : list Row)
    (results : list RawResult) (seen : gset string) (w : world) :
  Forall (county_row_passes common) rows ->
  exists batch w',
    FlLoader.load_rows common rows results seen w = (Ok batch, w').
Proof.
  intros Hall. revert results seen w.
  induction Hall as [|row rows Hrow Hall IH]; intros results seen w.
  - by eexists _, _.
  - cbn [FlLoader.load_rows].
    destruct Hrow as [Hs|(Hs & [r k] & Hr & Hk)]; rewrite Hs.
    + apply county_skip_true in Hs as (office & Ho & _).
      rewrite (field_at _ _ _ _ Ho). apply IH.
    + cbn [fst snd] in Hr, Hk. rewrite Hr, bind_Ok_l, Hk, bind_Ok_l.
      case_bool_decide; apply IH.
Qed.

(** The county loader gets through a file exactly when it gets past every
    row of it. *)
Lemma county_load_succeeds (rows : list Row) (w : world) :
  (exists w', FlLoader.load rows w = (Ok tt, w'))
  <-> Forall (county_row_passes _build_common_election_kwargs) rows.
Proof.
  split.
  - intros (w' & Hl).
    destruct (county_load_cases rows w)
      as [(batch & w1 & Hb & _ & _)|(e & w1 & _ & _ & Hl')].
    + by eapply county_load_rows_passes.
    + rewrite Hl' in Hl. discriminate.
  - intros Hall.
    destruct (county_load_rows_total _ _ [] ∅ w Hall) as (batch & w1 & Hb).
    exists (insert batch w1). unfold FlLoader.load. by rewrite Hb.
Qed.

Lemma county_load_fails (rows : list Row) (w : world) :
  ~ Forall (county_row_passes _build_common_election_kwargs) rows ->
  exists e w', FlLoader.load rows w = (Raise e, w') /\ store w' = store w.
Proof.
  intros Hno.
  destruct (county_load_cases rows w)
    as [(batch & w1 & Hb & _ & _)|(e & w1 & _ & Hs & Hl)].
  - destruct Hno. by eapply county_load_rows_passes.
  - by exists e, w1.
Qed.

Lemma precinct_load_rows_passes (common : Kwargs) (rows : list Row)
    (acc batch : list RawResult) :
  PrecinctLoader.load_rows common rows acc = Ok batch ->
  Forall (precinct_row_passes common) rows.
Proof.
  revert acc. induction rows as [|row rows IH]; intros acc Hl; [constructor|].
  cbn [PrecinctLoader.load_rows] in Hl.
  apply bind_Ok in Hl as (skip & Hs & Hl). destruct skip.
  - constructor; [by left | by eapply IH].
  - apply bind_Ok in Hl as (r & Hr & Hl).
    constructor; [|by eapply IH]. right. split; [done|]. by exists r.
Qed.

Lemma precinct_load_rows_total (common : Kwargs) (rows : list Row)
    (acc : list RawResult) :
  Forall (precinct_row_passes common) rows ->
  exists batch, PrecinctLoader.load_rows common rows acc = Ok batch.
Proof.
  intros Hall. revert acc.
  induction Hall as [|row rows Hrow Hall IH]; intros acc; [by eexists|].
  cbn [PrecinctLoader.load_rows].
  destruct Hrow as [Hs|(Hs & r & Hr)]; rewrite Hs, bind_Ok_l; [apply IH|].
  rewrite Hr, bind_Ok_l. apply IH.
Qed.

(** The precinct loader gets through a file exactly when it gets past
    every row of it. *)
Lemma precinct_load_succeeds (rows : list Row) (w : world) :
  (exists w', PrecinctLoader.load rows w = (Ok tt, w'))
  <-> Forall (precinct_row_passes precinct_common) rows.
Proof.
  split.
  - intros (w' & Hl).
    destruct (precinct_load_cases rows w) as [(batch & Hb & _)|(e & _ & Hl')].
    + by eapply precinct_load_rows_passes.
    + rewrite Hl' in Hl. discriminate.
  - intros Hall.
    destruct (precinct_load_rows_total _ _ [] Hall) as (batch & Hb).
    exists (insert batch w). unfold PrecinctLoader.load. fold precinct_common.
    by rewrite Hb.
Qed.

Lemma precinct_load_fails (rows : list Row) (w : world) :
  ~ Forall (precinct_row_passes precinct_common) rows ->
  exists e, PrecinctLoader.load rows w = (Raise e, w).
Proof.
  intros Hno.
  destruct (precinct_load_cases rows w) as [(batch & Hb & _)|(e & _ & Hl)].
  - destruct Hno. by eapply precinct_load_rows_passes.
  - by exists e.
Qed.

(** A precinct row that is not skipped and whose county the table does not
    list aborts the load and leaves the world as it was. *)
Lemma precinct_unresolved_aborts (rows : list Row) (row : Row) (cname : string)
    (w : world) :
  row ∈ rows ->
  PrecinctLoader._skip_row row = Ok false ->
  row !! "county_name" = Some (Some cname) ->
  PrecinctLoader.matching cname = [] ->
  exists e, PrecinctLoader.load rows w = (Raise e, w).
Proof.
  intros Hin Hs Hc Hm.
  destruct (precinct_load_rows_raises precinct_common rows row [] Hin Hs)
    as (e & He); [by eapply precinct_unresolved_raises|].
  exists e.
  destruct (precinct_load_cases rows w) as [(b & Hb & _)|(e' & He' & Hl)];
    congruence.
Qed.

End Passing.

Section LoaderClaims.
Context `{Env}.

(** C1, as the code has it. The batch the county loader stores has no two
    results with the same key, and the result kept for a key is that of the
    first row of the file, among those not skipped, with that key: [cands]
    are the results of the rows that are not skipped, each with its key, in
    the order of the file, and [kept] the ones stored. The precinct loader
    keeps no set of keys: its batch has one result for every row that is not
    skipped. *)
Theorem county_batch_keys_unique (rows : list Row) (w w' : world) :
  (FlLoader.load rows w = (Ok tt, w') ->
   exists cands kept : list (RawResult * string),
     store w' = store w ++ [kept.*1]
     /\ Forall2 (county_candidate _build_common_election_kwargs)
                (county_kept rows) cands
     /\ (forall c, c ∈ kept -> FlLoader._key c.1 = Ok c.2)
     /\ NoDup kept.*2
     /\ (forall c, c ∈ kept ->
         exists pre post, cands = pre ++ c :: post /\ c.2 ∉ pre.*2)
     /\ (forall c, c ∈ cands -> c.2 ∈ kept.*2))
  /\ (PrecinctLoader.load rows w = (Ok tt, w') ->
      exists batch,
        store w' = store w ++ [batch]
        /\ Forall2 (fun row r =>
                      PrecinctLoader._prep_precinct_result precinct_common row = Ok r)
                   (precinct_kept rows) batch).
Proof.
  split.
  - intros Hl. apply county_load_Ok in Hl as (cands & Hst & Hall).
    exists cands, (first_seen ∅ cands).
    split; [done|]. split; [done|]. split; [|split; [|split]].
    + intros c Hc. apply first_seen_first in Hc as (pre & post & -> & _).
      apply Forall2_app_inv_r in Hall as (? & ? & _ & Hall & _).
      by apply Forall2_cons_inv_r in Hall as (? & ? & [_ Hk] & _ & _).
    + apply first_seen_NoDup.
    + intros c Hc. by apply first_seen_first in Hc.
    + intros c Hc. destruct (first_seen_complete ∅ cands c Hc); [set_solver | done].
  - intros Hl. apply precinct_load_Ok in Hl as (batch & -> & Hall).
    by exists batch.
Qed.

(** C5, as the code has it. When the common attributes of the file carry no
    reporting district, every result the county loader emits is of a target
    office; its reporting level is [congressional_district_by_county]
    exactly when that office is the presidential contest by congressional
    district, and its reporting district is then the trimmed [Juris1num];
    for every other office the level is [county] and the result has no
    reporting district. Every result the precinct loader emits has the
    level [precinct], whatever its office, the presidential contest by
    congressional district included, and no reporting district but the one
    the common attributes of the file carry: none when they carry none. *)
Theorem county_reporting_level (rows : list Row) (w w' : world) :
  (_build_common_election_kwargs !! "reporting_district" = None ->
   FlLoader.load rows w = (Ok tt, w') ->
   exists batch,
     store w' = store w ++ [batch]
     /\ forall r, r ∈ batch ->
        exists row office,
          row ∈ rows
          /\ row !! "OfficeDesc" = Some (Some office)
          /\ PyStr.strip office ∈ FlLoader.target_offices
          /\ r !! "office" = Some (VStr (PyStr.strip office))
          /\ (r !! "reporting_level" = Some (VStr "congressional_district_by_county")
              <-> PyStr.strip office = "U.S. President by Congressional District")
          /\ (PyStr.strip office = "U.S. President by Congressional District" ->
              exists num,
                row !! "Juris1num" = Some (Some num)
                /\ r !! "reporting_district" = Some (VStr (PyStr.strip num)))
          /\ (PyStr.strip office <> "U.S. President by Congressional District" ->
              r !! "reporting_level" = Some (VStr "county")
              /\ r !! "reporting_district" = None))
  /\ (PrecinctLoader.load rows w = (Ok tt, w') ->
      exists batch,
        store w' = store w ++ [batch]
        /\ forall r, r ∈ batch ->
           exists row name,
             row ∈ rows
             /\ row !! "contest_name" = Some (Some name)
             /\ names_target_office name
             /\ r !! "office" = Some (VStr name)
             /\ r !! "reporting_level" = Some (VStr "precinct")
             /\ r !! "reporting_district"
                = _build_common_election_kwargs !! "reporting_district"
             /\ (_build_common_election_kwargs !! "reporting_district" = None ->
                 r !! "reporting_district" = None)).
Proof.
  split.
  - intros Hcommon Hl. apply county_load_Ok in Hl as (cands & Hst & Hall).
    eexists. split; [exact Hst|]. intros r Hin.
    destruct (county_batch_member _ _ _ _ _ Hall Hin) as (row & Hrow & Hs & Hr).
    apply county_skip_false in Hs as (office & Ho & Ht).
    apply county_result_level in Hr as (office' & Ho' & Hoff & Hlev).
    assert (office' = office) as -> by congruence.
    exists row, office. repeat (split; [done|]).
    destruct Hlev as [(Hsp & Hl & num & Hnum & Hrd)|(Hsp & Hl & Hrd)].
    + split; [done|]. split; [by exists num | done].
    + split; [split; [congruence | done]|]. split; [done|].
      intros _. split; [done | congruence].
  - intros Hl. apply precinct_load_Ok in Hl as (batch & -> & Hall).
    exists batch. split; [done|]. intros r Hin.
    destruct (precinct_batch_member _ _ _ Hall Hin) as (row & Hrow & Hs & Hr).
    apply precinct_skip_false in Hs as (name & Hn & Ht).
    apply precinct_result_inv in Hr.
    destruct Hr as (contest & ? & ? & ? & ? & ? & ? & ? & ? & ? & ? & Hr).
    destruct Hr as (Hn' & _ & _ & _ & _ & _ & _ & _ & _ & _ & _ & ->).
    assert (contest = Some name) as -> by congruence.
    exists row, name. repeat (split; [done|]).
    split; [by lookup_kwargs|]. split; [by lookup_kwargs|].
    split; [unfold precinct_common; by lookup_kwargs|].
    intros Hnone. unfold precinct_common. by lookup_kwargs.
Qed.

(** C6, as the code has it. When the common attributes of the file carry no
    district, a result the county loader emits has a district exactly when
    its office is a district office, and the district is then the trimmed
    [Juris1num]. Every result the precinct loader emits has a district,
    the trimmed [district] column, whatever its office. *)
Theorem district_presence (rows : list Row) (w w' : world) :
  (_build_common_election_kwargs !! "district" = None ->
   FlLoader.load rows w = (Ok tt, w') ->
   exists batch,
     store w' = store w ++ [batch]
     /\ forall r, r ∈ batch ->
        exists row office,
          row ∈ rows
          /\ row !! "OfficeDesc" = Some (Some office)
          /\ r !! "office" = Some (VStr (PyStr.strip office))
          /\ (is_Some (r !! "district")
              <-> PyStr.strip office ∈ FlLoader.district_offices)
          /\ (PyStr.strip office ∈ FlLoader.district_offices ->
              exists num,
                row !! "Juris1num" = Some (Some num)
                /\ r !! "district" = Some (VStr (PyStr.strip num))))
  /\ (PrecinctLoader.load rows w = (Ok tt, w') ->
      exists batch,
        store w' = store w ++ [batch]
        /\ forall r, r ∈ batch ->
           exists row name district,
             row ∈ rows
             /\ row !! "contest_name" = Some (Some name)
             /\ row !! "district" = Some (Some district)
             /\ r !! "office" = Some (VStr name)
             /\ r !! "district" = Some (VStr (PyStr.strip district))).
Proof.
  split.
  - intros Hcommon Hl. apply county_load_Ok in Hl as (cands & Hst & Hall).
    eexists. split; [exact Hst|]. intros r Hin.
    destruct (county_batch_member _ _ _ _ _ Hall Hin) as (row & Hrow & Hs & Hr).
    apply county_result_district in Hr as (office & Ho & Hoff & Hd).
    exists row, office. repeat (split; [done|]).
    destruct Hd as [(Hin' & num & Hnum & Hd)|(Hnin & Hd)].
    + split; [by rewrite Hd | by exists num].
    + rewrite Hd, Hcommon. split; [|done].
      split; [by intros [? ?] | done].
  - intros Hl. apply precinct_load_Ok in Hl as (batch & -> & Hall).
    exists batch. split; [done|]. intros r Hin.
    destruct (precinct_batch_member _ _ _ Hall Hin) as (row & Hrow & Hs & Hr).
    apply precinct_skip_false in Hs as (name & Hn & _).
    apply precinct_result_inv in Hr.
    destruct Hr as (contest & district & ? & ? & ? & ? & ? & ? & ? & ? & ? & Hr).
    destruct Hr as (Hn' & Hd & _ & _ & _ & _ & _ & _ & _ & _ & _ & ->).
    assert (contest = Some name) as -> by congruence.
    exists row, name, district. repeat (split; [done|]).
    split; by lookup_kwargs.
Qed.

(** C7. The entry point hands the file to the precinct loader when the
    name of the file contains [precinct], and to the county loader
    otherwise. Each loader gets through a file exactly when it gets past
    every row of it: the row is skipped, or its result is built (with its
    key, in a county file). It then calls [insert] once, at the end, with
    the whole batch: in a county file the results of the rows that are not
    skipped, without those whose key an earlier one has; in a precinct file
    the results of all the rows that are not skipped. Otherwise [load]
    raises and does not call [insert]: the store is as it was. A precinct
    row that is not skipped and whose county the table does not list is
    such a failure. *)
Theorem load_inserts_once_or_never (generated_filename : string)
    (rows : list Row) (w : world) :
  ((exists pre post, generated_filename = pre +:+ "precinct" +:+ post) ->
   LoadResults.run generated_filename rows w = PrecinctLoader.load rows w)
  /\ ((~ exists pre post, generated_filename = pre +:+ "precinct" +:+ post) ->
      LoadResults.run generated_filename rows w = FlLoader.load rows w)
  /\ ((exists w', FlLoader.load rows w = (Ok tt, w'))
      <-> Forall (county_row_passes _build_common_election_kwargs) rows)
  /\ (forall w',
        FlLoader.load rows w = (Ok tt, w') ->
        exists cands,
          store w' = store w ++ [(first_seen ∅ cands).*1]
          /\ Forall2 (county_candidate _build_common_election_kwargs)
                     (county_kept rows) cands)
  /\ ((~ Forall (county_row_passes _build_common_election_kwargs) rows) ->
      exists e w', FlLoader.load rows w = (Raise e, w') /\ store w' = store w)
  /\ ((exists w', PrecinctLoader.load rows w = (Ok tt, w'))
      <-> Forall (precinct_row_passes precinct_common) rows)
  /\ (forall w',
        PrecinctLoader.load rows w = (Ok tt, w') ->
        exists batch,
          w' = insert batch w
          /\ store w' = store w ++ [batch]
          /\ Forall2 (fun row r =>
                        PrecinctLoader._prep_precinct_result precinct_common row
                        = Ok r)
                     (precinct_kept rows) batch)
  /\ ((~ Forall (precinct_row_passes precinct_common) rows) ->
      exists e, PrecinctLoader.load rows w = (Raise e, w))
  /\ (forall row cname,
        row ∈ rows ->
        PrecinctLoader._skip_row row = Ok false ->
        row !! "county_name" = Some (Some cname) ->
        PrecinctLoader.matching cname = [] ->
        exists e, PrecinctLoader.load rows w = (Raise e, w)).
Proof.
  split; [|split].
  - intros Hp. apply contains_spec in Hp. unfold LoadResults.run. by rewrite Hp.
  - intros Hp. rewrite <- contains_spec in Hp. unfold LoadResults.run.
    by destruct (PyStr.contains _ _).
  - split; [apply county_load_succeeds|].
    split; [intros w'; apply county_load_Ok|].
    split; [apply county_load_fails|].
    split; [apply precinct_load_succeeds|].
    split; [|split; [apply precinct_load_fails|]].
    + intros w' Hl. apply precinct_load_Ok in Hl as (batch & -> & Hall).
      by exists batch.
    + intros row cname. apply precinct_unresolved_aborts.
Qed.

End LoaderClaims.

Section VotesClaim.
Context `{Env}.
Local Open Scope Z_scope.

(** C2, as the code has it. The votes of a result the county loader emits
    are the trimmed text of the [CanVotes] column: that loader does not call
    [_votes]. The votes of a result the precinct loader emits are the
    integer [_votes] makes of the raw value: 0 when the value is blank or is
    not a floating-point literal (or is a NaN), and otherwise the number the
    literal denotes as a double, truncated towards zero. The count is
    negative only for a literal that starts with a minus sign. *)
Theorem emitted_votes (rows : list Row) (w w' : world) :
  (FlLoader.load rows w = (Ok tt, w') ->
   exists batch,
     store w' = store w ++ [batch]
     /\ forall r, r ∈ batch ->
        exists row raw,
          row ∈ rows
          /\ row !! "CanVotes" = Some (Some raw)
          /\ r !! "votes" = Some (VStr (PyStr.strip raw)))
  /\ (PrecinctLoader.load rows w = (Ok tt, w') ->
      exists batch,
        store w' = store w ++ [batch]
        /\ forall r, r ∈ batch ->
           exists row raw v,
             row ∈ rows
             /\ row !! "votes" = Some (Some raw)
             /\ r !! "votes" = Some (VInt v)
             /\ (PyStr.strip raw = "" -> v = 0)
             /\ (PyFloat.of_string raw = None -> v = 0)
             /\ (PyFloat.of_string raw = Some PyFloat.NaN -> v = 0)
             /\ (forall neg m e,
                   PyFloat.of_string raw = Some (PyFloat.Finite neg m e) ->
                   v = PyFloat.trunc neg m e
                   /\ (0 <= e -> Z.abs v = m * 2 ^ e)
                   /\ (e < 0 ->
                       Z.abs v * 2 ^ (- e) <= m < (Z.abs v + 1) * 2 ^ (- e))
                   /\ (neg = false -> 0 <= v)
                   /\ (neg = true -> v <= 0))
             /\ ((forall rest, PyStr.strip raw <> String "-"%char rest) -> 0 <= v)).
Proof.
  split; [|apply precinct_votes_spec].
  intros Hl. apply county_load_Ok in Hl as (cands & Hst & Hall).
  eexists. split; [exact Hst|]. intros r Hin.
  destruct (county_batch_member _ _ _ _ _ Hall Hin) as (row & Hrow & _ & Hr).
  apply county_result_votes in Hr as (raw & Hraw & Hv).
  by exists row, raw.
Qed.

End VotesClaim.

(** ** The claims on the files of [Sample] *)

Section Samples.
#[local] Existing Instance Sample.env.

Lemma sample_county_load :
  FlLoader.load Sample.county_file Sample.w0 = (Ok tt, Sample.county_world).
Proof. compute_done. Qed.

Lemma sample_precinct_load :
  PrecinctLoader.load [Sample.governor_row "10"; Sample.governor_row "10"] Sample.w0
  = (Ok tt, World [[Sample.governor_result 10; Sample.governor_result 10]] []).
Proof. compute_done. Qed.

Lemma county_batch_keys_unique_witness :
  FlLoader.load Sample.county_file Sample.w0 = (Ok tt, Sample.county_world)
  /\ (exists cands kept : list (RawResult * string),
        store Sample.county_world = store Sample.w0 ++ [kept.*1]
        /\ Forall2 (county_candidate _build_common_election_kwargs)
                   (county_kept Sample.county_file) cands
        /\ (forall c, c ∈ kept -> FlLoader._key c.1 = Ok c.2)
        /\ NoDup kept.*2
        /\ (forall c, c ∈ kept ->
            exists pre post, cands = pre ++ c :: post /\ c.2 ∉ pre.*2)
        /\ (forall c, c ∈ cands -> c.2 ∈ kept.*2))
  /\ exists batch,
       store (World [[Sample.governor_result 10; Sample.governor_result 10]] [])
       = store Sample.w0 ++ [batch]
       /\ Forall2 (fun row r =>
                     PrecinctLoader._prep_precinct_result precinct_common row = Ok r)
                  (precinct_kept [Sample.governor_row "10"; Sample.governor_row "10"])
                  batch.
Proof.
  split; [exact sample_county_load|]. split.
  - exact (proj1 (county_batch_keys_unique Sample.county_file Sample.w0
                    Sample.county_world) sample_county_load).
  - exact (proj2 (county_batch_keys_unique
                    [Sample.governor_row "10"; Sample.governor_row "10"] Sample.w0
                    (World [[Sample.governor_result 10; Sample.governor_result 10]] []))
                 sample_precinct_load).
Defined.

(** A precinct file with the same row twice: the batch holds the result
    twice, two results with one key. *)
Lemma precinct_batch_repeats_key :
  PrecinctLoader.load [Sample.governor_row "10"; Sample.governor_row "10"] Sample.w0
  = (Ok tt, World [[Sample.governor_result 10; Sample.governor_result 10]] [])
  /\ FlLoader._key <$> [Sample.governor_result 10; Sample.governor_result 10]
     = [Ok "governor-scott-carroll-12-town-hall-5";
        Ok "governor-scott-carroll-12-town-hall-5"].
Proof. split; compute_done. Qed.

Lemma county_reporting_level_witness :
  _build_common_election_kwargs !! "reporting_district" = None
  /\ FlLoader.load Sample.county_file Sample.w0 = (Ok tt, Sample.county_world)
  /\ (exists batch,
        store Sample.county_world = store Sample.w0 ++ [batch]
        /\ forall r, r ∈ batch ->
           exists row office,
             row ∈ Sample.county_file
             /\ row !! "OfficeDesc" = Some (Some office)
             /\ PyStr.strip office ∈ FlLoader.target_offices
             /\ r !! "office" = Some (VStr (PyStr.strip office))
             /\ (r !! "reporting_level"
                 = Some (VStr "congressional_district_by_county")
                 <-> PyStr.strip office = "U.S. President by Congressional District")
             /\ (PyStr.strip office = "U.S. President by Congressional District" ->
                 exists num,
                   row !! "Juris1num" = Some (Some num)
                   /\ r !! "reporting_district" = Some (VStr (PyStr.strip num)))
             /\ (PyStr.strip office <> "U.S. President by Congressional District" ->
                 r !! "reporting_level" = Some (VStr "county")
                 /\ r !! "reporting_district" = None))
  /\ PrecinctLoader.load [Sample.president_row] Sample.w0
     = (Ok tt, World [[Sample.president_result]] [])
  /\ exists batch,
       store (World [[Sample.president_result]] []) = store Sample.w0 ++ [batch]
       /\ forall r, r ∈ batch ->
          exists row name,
            row ∈ [Sample.president_row]
            /\ row !! "contest_name" = Some (Some name)
            /\ names_target_office name
            /\ r !! "office" = Some (VStr name)
            /\ r !! "reporting_level" = Some (VStr "precinct")
            /\ r !! "reporting_district"
               = _build_common_election_kwargs !! "reporting_district"
            /\ (_build_common_election_kwargs !! "reporting_district" = None ->
                r !! "reporting_district" = None).
Proof.
  assert (Hc : _build_common_election_kwargs !! "reporting_district" = None)
    by compute_done.
  assert (Hp : PrecinctLoader.load [Sample.president_row] Sample.w0
               = (Ok tt, World [[Sample.president_result]] [])) by compute_done.
  split; [exact Hc|]. split; [exact sample_county_load|]. split.
  - exact (proj1 (county_reporting_level Sample.county_file Sample.w0
                    Sample.county_world) Hc sample_county_load).
  - split; [exact Hp|].
    exact (proj2 (county_reporting_level [Sample.president_row] Sample.w0
                    (World [[Sample.president_result]] [])) Hp).
Defined.

(** A precinct row of the presidential contest by congressional district:
    the level of its result is [precinct], and it has no reporting
    district. *)
Lemma precinct_president_level :
  PrecinctLoader.load [Sample.president_row] Sample.w0
  = (Ok tt, World [[Sample.president_result]] [])
  /\ Sample.president_result !! "office"
     = Some (VStr "U.S. President by Congressional District")
  /\ Sample.president_result !! "reporting_level" = Some (VStr "precinct")
  /\ Sample.president_result !! "reporting_district" = None.
Proof. repeat split; compute_done. Qed.

Lemma district_presence_witness :
  _build_common_election_kwargs !! "district" = None
  /\ FlLoader.load Sample.county_file Sample.w0 = (Ok tt, Sample.county_world)
  /\ (exists batch,
        store Sample.county_world = store Sample.w0 ++ [batch]
        /\ forall r, r ∈ batch ->
           exists row office,
             row ∈ Sample.county_file
             /\ row !! "OfficeDesc" = Some (Some office)
             /\ r !! "office" = Some (VStr (PyStr.strip office))
             /\ (is_Some (r !! "district")
                 <-> PyStr.strip office ∈ FlLoader.district_offices)
             /\ (PyStr.strip office ∈ FlLoader.district_offices ->
                 exists num,
                   row !! "Juris1num" = Some (Some num)
                   /\ r !! "district" = Some (VStr (PyStr.strip num))))
  /\ exists batch,
       store (World [[Sample.governor_result 10; Sample.governor_result 10]] [])
       = store Sample.w0 ++ [batch]
       /\ forall r, r ∈ batch ->
          exists row name district,
            row ∈ [Sample.governor_row "10"; Sample.governor_row "10"]
            /\ row !! "contest_name" = Some (Some name)
            /\ row !! "district" = Some (Some district)
            /\ r !! "office" = Some (VStr name)
            /\ r !! "district" = Some (VStr (PyStr.strip district)).
Proof.
  assert (Hc : _build_common_election_kwargs !! "district" = None) by compute_done.
  split; [exact Hc|]. split; [exact sample_county_load|]. split.
  - exact (proj1 (district_presence Sample.county_file Sample.w0
                    Sample.county_world) Hc sample_county_load).
  - exact (proj2 (district_presence
                    [Sample.governor_row "10"; Sample.governor_row "10"] Sample.w0
                    (World [[Sample.governor_result 10; Sample.governor_result 10]] []))
                 sample_precinct_load).
Defined.

(** A precinct row of the contest for governor with a district column: its
    result has a district, and its office is not a district office. *)
Lemma precinct_district_of_governor :
  PrecinctLoader.load [Sample.governor_row "10"] Sample.w0
  = (Ok tt, World [[Sample.governor_result 10]] [])
  /\ Sample.governor_result 10 !! "office" = Some (VStr "Governor")
  /\ ("Governor" ∉ FlLoader.district_offices)
  /\ Sample.governor_result 10 !! "district" = Some (VStr "5").
Proof. repeat split; compute_done. Qed.

(** The county file is loaded by the county loader, in one batch; the
    precinct file with a row of a county that the table does not list is
    handed to the precinct loader, which raises and stores nothing. *)
Lemma load_inserts_once_or_never_witness :
  LoadResults.run "20121106__fl__general.tsv" Sample.county_file Sample.w0
  = FlLoader.load Sample.county_file Sample.w0
  /\ (exists cands,
        store Sample.county_world
        = store Sample.w0 ++ [(first_seen ∅ cands).*1]
        /\ Forall2 (county_candidate _build_common_election_kwargs)
                   (county_kept Sample.county_file) cands)
  /\ Forall (county_row_passes _build_common_election_kwargs) Sample.county_file
  /\ LoadResults.run "20121106__fl__general__precinct.tsv"
       [Sample.writein_row; Sample.unlisted_row] Sample.w0
     = PrecinctLoader.load [Sample.writein_row; Sample.unlisted_row] Sample.w0
  /\ (exists e,
        PrecinctLoader.load [Sample.writein_row; Sample.unlisted_row] Sample.w0
        = (Raise e, Sample.w0)).
Proof.
  split; [|split; [|split; [|split]]].
  - apply (proj1 (proj2 (load_inserts_once_or_never "20121106__fl__general.tsv"
                           Sample.county_file Sample.w0))).
    rewrite <- contains_spec. by compute_done.
  - exact (proj1 (proj2 (proj2 (proj2 (load_inserts_once_or_never
                     "20121106__fl__general.tsv" Sample.county_file Sample.w0))))
                 Sample.county_world sample_county_load).
  - apply (proj1 (proj2 (proj2 (load_inserts_once_or_never
                     "20121106__fl__general.tsv" Sample.county_file Sample.w0)))).
    exists Sample.county_world. exact sample_county_load.
  - apply (proj1 (load_inserts_once_or_never "20121106__fl__general__precinct.tsv"
                    [Sample.writein_row; Sample.unlisted_row] Sample.w0)).
    by exists "20121106__fl__general__", ".tsv".
  - apply (proj2 (proj2 (proj2 (proj2 (proj2 (proj2 (proj2 (proj2
             (load_inserts_once_or_never "20121106__fl__general__precinct.tsv"
                [Sample.writein_row; Sample.unlisted_row] Sample.w0))))))))
             Sample.unlisted_row "Atlantis").
    + apply elem_of_cons. right. apply elem_of_cons. by left.
    + compute_done.
    + compute_done.
    + compute_done.
Defined.

(** The county loader does not call [_votes]: the votes of its results are
    the trimmed text of the column. *)
Lemma county_votes_are_text :
  FlLoader.load Sample.county_file Sample.w0 = (Ok tt, Sample.county_world)
  /\ (fun r : RawResult => r !! "votes") <$> Sample.county_batch
     = [Some (VStr "100"); Some (VStr "n/a"); Some (VStr "70")].
Proof. split; compute_done. Qed.

End Samples.

Section VotesOfSamples.
#[local] Existing Instance Sample.env.
Local Open Scope Z_scope.

Lemma sample_fraction_load :
  PrecinctLoader.load [Sample.governor_row "123.9"] Sample.w0
  = (Ok tt, World [[Sample.governor_result 123]] []).
Proof. compute_done. Qed.

Lemma emitted_votes_witness :
  FlLoader.load Sample.county_file Sample.w0 = (Ok tt, Sample.county_world)
  /\ PrecinctLoader.load [Sample.governor_row "123.9"] Sample.w0
     = (Ok tt, World [[Sample.governor_result 123]] [])
  /\ (exists batch,
     store Sample.county_world = store Sample.w0 ++ [batch]
     /\ forall r, r ∈ batch ->
        exists row raw,
          row ∈ Sample.county_file
          /\ row !! "CanVotes" = Some (Some raw)
          /\ r !! "votes" = Some (VStr (PyStr.strip raw)))
  /\ (exists batch,
        store (World [[Sample.governor_result 123]] []) = store Sample.w0 ++ [batch]
        /\ forall r, r ∈ batch ->
           exists row raw v,
             row ∈ [Sample.governor_row "123.9"]
             /\ row !! "votes" = Some (Some raw)
             /\ r !! "votes" = Some (VInt v)
             /\ (PyStr.strip raw = "" -> v = 0)
             /\ (PyFloat.of_string raw = None -> v = 0)
             /\ (PyFloat.of_string raw = Some PyFloat.NaN -> v = 0)
             /\ (forall neg m e,
                   PyFloat.of_string raw = Some (PyFloat.Finite neg m e) ->
                   v = PyFloat.trunc neg m e
                   /\ (0 <= e -> Z.abs v = m * 2 ^ e)
                   /\ (e < 0 ->
                       Z.abs v * 2 ^ (- e) <= m < (Z.abs v + 1) * 2 ^ (- e))
                   /\ (neg = false -> 0 <= v)
                   /\ (neg = true -> v <= 0))
             /\ ((forall rest, PyStr.strip raw <> String "-"%char rest) -> 0 <= v)).
Proof.
  split; [exact sample_county_load|]. split; [exact sample_fraction_load|]. split.
  - exact (proj1 (emitted_votes Sample.county_file Sample.w0 Sample.county_world)
                 sample_county_load).
  - exact (proj2 (emitted_votes [Sample.governor_row "123.9"] Sample.w0
                    (World [[Sample.governor_result 123]] []))
                 sample_fraction_load).
Defined.

(** A precinct row whose raw vote count is [-5] gives a result with -5
    votes. *)
Lemma precinct_votes_negative :
  PrecinctLoader.load [Sample.governor_row "-5"] Sample.w0
  = (Ok tt, World [[Sample.governor_result (-5)]] [])
  /\ Sample.governor_result (-5) !! "votes" = Some (VInt (-5))
  /\ -5 < 0.
Proof. repeat split; compute_done. Qed.

End VotesOfSamples.

Section SkippingOfSamples.
#[local] Existing Instance Sample.env.

(** The row of the city council of the county file is skipped, and the row
    of a precinct contest that names no target office is. *)
Lemma skip_row_iff_not_target_witness :
  FlLoader._skip_row (Sample.county_row "City Council" "" "Leon" "Doe" "Jane" "5")
  = Ok true
  /\ PrecinctLoader._skip_row
       (Sample.precinct_row "Leon" "County Judge, Group 2" "" "Doe" "3")
     = Ok true.
Proof.
  split.
  - apply (proj1 (skip_row_iff_not_target
                    (Sample.county_row "City Council" "" "Leon" "Doe" "Jane" "5"))).
    exists "City Council". split; compute_done.
  - apply (proj1 (proj2 (skip_row_iff_not_target
                           (Sample.precinct_row "Leon" "County Judge, Group 2" ""
                              "Doe" "3")))).
    exists "County Judge, Group 2". split; [compute_done|].
    intros (o & pre & post & Ho & Hname).
    assert (Hc : PyStr.contains o "County Judge, Group 2" = true)
      by (apply contains_spec; eauto).
    repeat (apply elem_of_cons in Ho as [->|Ho]; [discriminate Hc|]).
    by apply elem_of_nil in Ho.
Defined.

End SkippingOfSamples.

(** * Further properties of the loaders *)

Section CountyLog.
Context `{Env}.

(** What the loop of the county loader adds to the log. *)
Lemma county_load_rows_log (common : Kwargs) (rows : list Row)
    (results batch : list RawResult) (seen : gset string) (w w' : world) :
  FlLoader.load_rows common rows results seen w = (Ok batch, w') ->
  log w' = log w ++ (log_line <$> filter logged rows).
Proof.
  revert results seen w. induction rows as [|row rows IH]; intros results seen w Hl.
  - injection Hl as <- <-. by rewrite app_nil_r.
  - cbn [FlLoader.load_rows] in Hl.
    destruct (FlLoader._skip_row row) as [e|[|]] eqn:Hs; [done| |].
    + destruct (field AttributeError row "OfficeDesc") as [e|office] eqn:Ho; [done|].
      apply field_Ok in Ho.
      assert (Hname : office_name row = PyStr.strip office)
        by (unfold office_name; by rewrite Ho).
      apply IH in Hl. rewrite Hl.
      destruct (PyStr.len (PyStr.strip office) <? 100)%nat eqn:Hlen.
      * apply Nat.ltb_lt in Hlen.
        rewrite filter_cons_True by (split; [done | by rewrite Hname]).
        rewrite fmap_cons. unfold log_line at 2. rewrite Hname. cbn.
        by rewrite <- app_assoc.
      * apply Nat.ltb_ge in Hlen.
        rewrite filter_cons_False; [done|].
        intros [_ Hlt]. rewrite Hname in Hlt. lia.
    + rewrite filter_cons_False by (intros [Hs' _]; congruence).
      destruct (_ ≫= _) as [e|[result key]]; [done|].
      case_bool_decide; by apply IH in Hl.
Qed.

(** X1. A county load that succeeds adds to the log one line for every
    skipped row whose trimmed office name has fewer than 100 characters, in
    the order of the file, and nothing else. *)
Theorem county_load_log (rows : list Row) (w w' : world) :
  FlLoader.load rows w = (Ok tt, w') ->
  log w' = log w ++ (log_line <$> filter logged rows).
Proof.
  intros Hl.
  destruct (county_load_cases rows w)
    as [(batch & w1 & Hb & _ & Hl')|(e & w1 & _ & _ & Hl')];
    rewrite Hl' in Hl; [|discriminate].
  injection Hl as <-. by apply county_load_rows_log in Hb.
Qed.

End CountyLog.

Lemma first_seen_sublist (seen : gset string) (cands : list (RawResult * string)) :
  first_seen seen cands `sublist_of` cands.
Proof.
  revert seen. induction cands as [|c cands IH]; intros seen; [done|].
  cbn [first_seen]. case_bool_decide.
  - by apply sublist_cons.
  - by apply sublist_skip.
Qed.

Lemma sublist_fmap_fst {A B : Type} (l1 l2 : list (A * B)) :
  l1 `sublist_of` l2 -> l1.*1 `sublist_of` l2.*1.
Proof.
  induction 1 as [|c l1 l2 _ IH|c l1 l2 _ IH]; [constructor| |].
  - rewrite !fmap_cons. by apply sublist_skip.
  - rewrite fmap_cons. by apply sublist_cons.
Qed.

Lemma NoDup_fst_of_snd {A B : Type} (l : list (A * B)) :
  (forall c c', c ∈ l -> c' ∈ l -> c.1 = c'.1 -> c.2 = c'.2) ->
  NoDup l.*2 -> NoDup l.*1.
Proof.
  induction l as [|c l IH]; intros Hfun Hnd; [constructor|].
  rewrite fmap_cons in *. apply NoDup_cons in Hnd as [Hc Hnd].
  apply NoDup_cons. split.
  - intros Hin. apply list_elem_of_fmap in Hin as (c' & Heq & Hin).
    apply Hc. apply list_elem_of_fmap. exists c'. split; [|done].
    apply Hfun; [by left | by right | done].
  - apply IH; [|done]. intros c1 c2 H1 H2. apply Hfun; by right.
Qed.

Section CountyOrder.
Context `{Env}.

(** X2. The batch a county load stores follows the order of the file: it is
    a subsequence of the results of the rows that are not skipped. No result
    occurs twice in it, and it has at most as many results as there are such
    rows. *)
Theorem county_batch_in_file_order (rows : list Row) (w w' : world) :
  FlLoader.load rows w = (Ok tt, w') ->
  exists (cands : list (RawResult * string)) (batch : list RawResult),
    store w' = store w ++ [batch]
    /\ Forall2 (county_candidate _build_common_election_kwargs)
               (county_kept rows) cands
    /\ batch `sublist_of` cands.*1
    /\ NoDup batch
    /\ length batch <= length (county_kept rows).
Proof.
  intros Hl. apply county_load_Ok in Hl as (cands & Hst & Hall).
  exists cands, (first_seen ∅ cands).*1.
  split; [done|]. split; [done|].
  assert (Hsub : (first_seen ∅ cands).*1 `sublist_of` cands.*1)
    by apply sublist_fmap_fst, first_seen_sublist.
  split; [done|]. split.
  - apply NoDup_fst_of_snd; [|apply first_seen_NoDup].
    intros c c' Hc Hc' Heq.
    assert (Hkey : forall d, d ∈ first_seen ∅ cands -> FlLoader._key d.1 = Ok d.2).
    { intros d Hd. apply first_seen_first in Hd as (pre & post & -> & _).
      apply Forall2_app_inv_r in Hall as (? & ? & _ & Hall & _).
      by apply Forall2_cons_inv_r in Hall as (? & ? & [_ Hk] & _ & _). }
    apply Hkey in Hc, Hc'. rewrite Heq in Hc. congruence.
  - apply sublist_length in Hsub. rewrite !length_fmap in Hsub.
    apply Forall2_length in Hall. rewrite length_fmap. lia.
Qed.

End CountyOrder.

Section Frame.
Context `{Env}.

Ltac other_key Hk :=
  let E := fresh in intros E; apply Hk; rewrite <- E; compute_done.

Lemma county_result_frame (common : Kwargs) (row : Row) (r : RawResult) (k : string) :
  FlLoader._prep_result common row = Ok r ->
  k ∉ county_attributes ->
  r !! k = common !! k.
Proof.
  intros Hr Hk. apply county_result_inv in Hr as (C & K & R & HC & HK & HR & ->).
  apply county_contest_inv in HC as (office & Ho & HC).
  apply county_candidate_inv in HK as (last & first & middle & ->).
  apply county_result_kwargs_inv in HR
    as (office' & name & party & votes & _ & _ & _ & _ & HR).
  cbv zeta in HR.
  destruct HC as [(_ & num & _ & ->)|(_ & ->)];
    destruct HR as [(_ & num' & _ & ->)|(_ & ->)];
    rewrite !lookup_update;
    repeat (rewrite lookup_insert_ne by other_key Hk);
    by repeat (rewrite lookup_singleton_ne by other_key Hk).
Qed.

Lemma precinct_result_frame (common : Kwargs) (row : Row) (r : RawResult) (k : string) :
  PrecinctLoader._prep_precinct_result common row = Ok r ->
  k ∉ precinct_attributes ->
  r !! k = common !! k.
Proof.
  intros Hr Hk. apply precinct_result_inv in Hr.
  destruct Hr as (? & ? & ? & ? & ? & ? & ? & ? & ? & ? & ? & Hr).
  destruct Hr as (_ & _ & _ & _ & _ & _ & _ & _ & _ & _ & _ & ->).
  rewrite !lookup_update;
    repeat (rewrite lookup_insert_ne by other_key Hk);
    by repeat (rewrite lookup_singleton_ne by other_key Hk).
Qed.

(** X3. The common election attributes of the file reach every result
    unchanged: an attribute that the loader does not set from the row has,
    in every result of the batch, the value it has in the common attributes
    (or is absent as it is there). *)
Theorem common_attributes_kept (rows : list Row) (w w' : world) :
  (FlLoader.load rows w = (Ok tt, w') ->
   exists batch,
     store w' = store w ++ [batch]
     /\ forall r k, r ∈ batch -> k ∉ county_attributes ->
        r !! k = _build_common_election_kwargs !! k)
  /\ (PrecinctLoader.load rows w = (Ok tt, w') ->
      exists batch,
        store w' = store w ++ [batch]
        /\ forall r k, r ∈ batch -> k ∉ precinct_attributes ->
           r !! k = _build_common_election_kwargs !! k).
Proof.
  split.
  - intros Hl. apply county_load_Ok in Hl as (cands & Hst & Hall).
    eexists. split; [exact Hst|]. intros r k Hin Hk.
    destruct (county_batch_member _ _ _ _ _ Hall Hin) as (row & _ & _ & Hr).
    by eapply county_result_frame.
  - intros Hl. apply precinct_load_Ok in Hl as (batch & -> & Hall).
    exists batch. split; [done|]. intros r k Hin Hk.
    destruct (precinct_batch_member _ _ _ Hall Hin) as (row & _ & _ & Hr).
    rewrite (precinct_result_frame _ _ _ _ Hr Hk).
    unfold precinct_common. rewrite lookup_insert_ne; [done|].
    intros <-. apply Hk. compute_done.
Qed.

End Frame.





Section CountyFields.
Context `{Env}.

Lemma county_result_fields (common : Kwargs) (row : Row) (r : RawResult) :
  FlLoader._prep_result common row = Ok r ->
  exists last first middle name party,
    row !! "CanNameLast" = Some (Some last)
    /\ row !! "CanNameFirst" = Some (Some first)
    /\ row !! "CanNameMiddle" = Some (Some middle)
    /\ row !! "CountyName" = Some (Some name)
    /\ row !! "PartyName" = Some (Some party)
    /\ r !! "family_name" = Some (VStr (PyStr.strip last))
    /\ r !! "given_name" = Some (VStr (PyStr.strip first))
    /\ r !! "additional_name" = Some (VStr (PyStr.strip middle))
    /\ r !! "jurisdiction" = Some (VStr (PyStr.strip name))
    /\ r !! "ocd_id"
       = Some (VStr (mapping_ocd_id +:+ "/county:" +:+ ocd_type_id (PyStr.strip name)))
    /\ r !! "party" = Some (VStr (PyStr.strip party)).
Proof.
  intros Hr. apply county_result_inv in Hr as (C & K & R & HC & HK & HR & ->).
  unfold FlLoader._build_candidate_kwargs in HK.
  apply bind_Ok in HK as (last & Hl & HK). apply field_Ok in Hl.
  apply bind_Ok in HK as (first & Hf & HK). apply field_Ok in Hf.
  apply bind_Ok in HK as (middle & Hm & HK). apply field_Ok in Hm.
  injection HK as <-.
  apply county_result_kwargs_inv in HR
    as (office & name & party & votes & _ & Hn & Hp & _ & HR).
  exists last, first, middle, name, party. repeat (split; [done|]).
  cbv zeta in HR.
  destruct HR as [(_ & num' & _ & ->)|(_ & ->)]; repeat split; by lookup_kwargs.
Qed.

(** X4. Every result of a county batch carries the candidate's names, the
    party and the county as the row has them, trimmed and otherwise
    verbatim, and the code of the county under the code of the file. *)
Theorem county_result_attributes (rows : list Row) (w w' : world) :
  FlLoader.load rows w = (Ok tt, w') ->
  exists batch,
    store w' = store w ++ [batch]
    /\ forall r, r ∈ batch ->
       exists row last first middle name party,
         row ∈ rows
         /\ row !! "CanNameLast" = Some (Some last)
         /\ row !! "CanNameFirst" = Some (Some first)
         /\ row !! "CanNameMiddle" = Some (Some middle)
         /\ row !! "CountyName" = Some (Some name)
         /\ row !! "PartyName" = Some (Some party)
         /\ r !! "family_name" = Some (VStr (PyStr.strip last))
         /\ r !! "given_name" = Some (VStr (PyStr.strip first))
         /\ r !! "additional_name" = Some (VStr (PyStr.strip middle))
         /\ r !! "jurisdiction" = Some (VStr (PyStr.strip name))
         /\ r !! "ocd_id"
            = Some (VStr (mapping_ocd_id +:+ "/county:"
                          +:+ ocd_type_id (PyStr.strip name)))
         /\ r !! "party" = Some (VStr (PyStr.strip party)).
Proof.
  intros Hl. apply county_load_Ok in Hl as (cands & Hst & Hall).
  eexists. split; [exact Hst|]. intros r Hin.
  destruct (county_batch_member _ _ _ _ _ Hall Hin) as (row & Hrow & _ & Hr).
  apply county_result_fields in Hr
    as (last & first & middle & name & party & Hr).
  by exists row, last, first, middle, name, party.
Qed.

(** [_key], from the three attributes it reads. *)
Lemma key_eval (r : RawResult) (name : string) (dv rdv : option pyval) :
  r !! "jurisdiction" = Some (VStr name) ->
  r !! "district" = dv ->
  r !! "reporting_district" = rdv ->
  FlLoader._key r
  = join_vals "-"
      (([VStr (contest_slug r); VStr (candidate_slug r); VStr (slugify name None)]
        ++ (if truthy (default VNone dv) then [default VNone dv] else []))
       ++ match rdv with Some v => [v] | None => [] end).
Proof.
  intros Hj Hd Hr. unfold FlLoader._key, attr. rewrite Hj, Hd, Hr.
  cbn [default from_option id as_str]. rewrite bind_Ok_l.
  destruct (truthy _), rdv; by rewrite ?app_nil_r.
Qed.

(** The key of a county result. *)
Lemma county_result_key (common : Kwargs) (row : Row) (r : RawResult) :
  common !! "district" = None ->
  common !! "reporting_district" = None ->
  FlLoader._prep_result common row = Ok r ->
  exists office name,
    row !! "OfficeDesc" = Some (Some office)
    /\ row !! "CountyName" = Some (Some name)
    /\ let base := [contest_slug r; candidate_slug r;
                    slugify (PyStr.strip name) None] in
       (PyStr.strip office ∈ FlLoader.district_offices ->
        exists num,
          row !! "Juris1num" = Some (Some num)
          /\ FlLoader._key r
             = Ok (PyStr.join "-"
                     (base ++ if bool_decide (PyStr.strip num = "")
                              then [] else [PyStr.strip num])))
       /\ (PyStr.strip office = "U.S. President by Congressional District" ->
           exists num,
             row !! "Juris1num" = Some (Some num)
             /\ FlLoader._key r = Ok (PyStr.join "-" (base ++ [PyStr.strip num])))
       /\ ((PyStr.strip office ∉ FlLoader.district_offices) ->
           PyStr.strip office <> "U.S. President by Congressional District" ->
           FlLoader._key r = Ok (PyStr.join "-" base)).
Proof.
  intros Hd Hrd Hr.
  pose proof (county_result_fields _ _ _ Hr)
    as (? & ? & ? & name & ? & _ & _ & _ & Hn & _ & _ & _ & _ & Hj & _).
  pose proof (county_result_level _ _ _ Hr) as (office & Ho & _ & Hlev).
  pose proof (county_result_district _ _ _ Hr) as (office' & Ho' & _ & Hdis).
  assert (office' = office) as -> by congruence.
  exists office, name. split; [done|]. split; [done|]. cbv zeta.
  assert (Hsp : "U.S. President by Congressional District" ∉ FlLoader.district_offices)
    by compute_done.
  destruct Hdis as [(Hin & num & Hnum & Hdv)|(Hnin & Hdv)];
    destruct Hlev as [(Hs & _ & num' & Hnum' & Hrv)|(Hs & _ & Hrv)].
  - rewrite Hs in Hin. done.
  - rewrite Hrd in Hrv. rewrite (key_eval r _ _ _ Hj Hdv Hrv).
    split; [|split; [done|done]].
    intros _. exists num. split; [done|].
    cbn [default from_option id truthy]. by case_bool_decide.
  - rewrite Hd in Hdv. rewrite (key_eval r _ _ _ Hj Hdv Hrv).
    split; [done|]. split; [|done].
    intros _. by exists num'.
  - rewrite Hd in Hdv. rewrite Hrd in Hrv. rewrite (key_eval r _ _ _ Hj Hdv Hrv).
    by repeat split.
Qed.

(** X5. The key of a result the county loader built: the slugs of the
    contest and of the candidate and the slug of the county, joined by
    hyphens, followed for a district office by the district when it is not
    empty, and for the presidential contest by congressional district by the
    reporting district, empty or not. In particular [_key] does not raise on
    such a result. *)
Theorem county_key_of_result (common : Kwargs) (row : Row) (r : RawResult) :
  common !! "district" = None ->
  common !! "reporting_district" = None ->
  FlLoader._prep_result common row = Ok r ->
  exists office name,
    row !! "OfficeDesc" = Some (Some office)
    /\ row !! "CountyName" = Some (Some name)
    /\ (PyStr.strip office ∈ FlLoader.district_offices ->
        exists num,
          row !! "Juris1num" = Some (Some num)
          /\ FlLoader._key r
             = Ok (PyStr.join "-"
                     ([contest_slug r; candidate_slug r;
                       slugify (PyStr.strip name) None]
                      ++ if bool_decide (PyStr.strip num = "")
                         then [] else [PyStr.strip num])))
    /\ (PyStr.strip office = "U.S. President by Congressional District" ->
        exists num,
          row !! "Juris1num" = Some (Some num)
          /\ FlLoader._key r
             = Ok (PyStr.join "-"
                     [contest_slug r; candidate_slug r;
                      slugify (PyStr.strip name) None; PyStr.strip num]))
    /\ ((PyStr.strip office ∉ FlLoader.district_offices) ->
        PyStr.strip office <> "U.S. President by Congressional District" ->
        FlLoader._key r
        = Ok (PyStr.join "-"
                [contest_slug r; candidate_slug r;
                 slugify (PyStr.strip name) None])).
Proof.
  intros Hd Hrd Hr.
  destruct (county_result_key _ _ _ Hd Hrd Hr) as (office & name & Ho & Hn & Hk).
  exists office, name. split; [done|]. split; [done|]. exact Hk.
Qed.

End CountyFields.

Section CountyErrors.
Context `{Env}.





End CountyErrors.

Section PrecinctErrors.
Context `{Env}.











End PrecinctErrors.

Section Idempotence.
Context `{Env}.

(** The results of the loop do not depend on the world it starts in. *)
Lemma county_load_rows_any_world (common : Kwargs) (rows : list Row)
    (results : list RawResult) (seen : gset string) (w w0 : world) :
  (FlLoader.load_rows common rows results seen w).1
  = (FlLoader.load_rows common rows results seen w0).1.
Proof.
  revert results seen w w0.
  induction rows as [|row rows IH]; intros results seen w w0; [done|].
  cbn [FlLoader.load_rows].
  destruct (FlLoader._skip_row row) as [e|[|]]; [done| |].
  - destruct (field AttributeError row "OfficeDesc") as [e|office]; [done|]. apply IH.
  - destruct (_ ≫= _) as [e|[result key]]; [done|].
    case_bool_decide; apply IH.
Qed.

(** A skipped row, anywhere in the file, does not change the results. *)
Lemma county_skipped_row_absorbed (common : Kwargs) (mid post : list Row)
    (row : Row) (results : list RawResult) (seen : gset string) (w : world) :
  FlLoader._skip_row row = Ok true ->
  (FlLoader.load_rows common (mid ++ row :: post) results seen w).1
  = (FlLoader.load_rows common (mid ++ post) results seen w).1.
Proof.
  intros Hs. revert results seen w.
  induction mid as [|row' mid IH]; intros results seen w.
  - rewrite !app_nil_l.
    destruct (county_skipped_row_adds_nothing common row post results seen w Hs)
      as (w1 & _ & ->).
    apply county_load_rows_any_world.
  - rewrite <- !app_comm_cons. cbn [FlLoader.load_rows].
    destruct (FlLoader._skip_row row') as [e|[|]]; [done| |].
    + destruct (field AttributeError row' "OfficeDesc") as [e|office]; [done|]. apply IH.
    + destruct (_ ≫= _) as [e|[result key]]; [done|].
      case_bool_decide; apply IH.
Qed.

(** A row whose key was seen, anywhere in the file, does not change the
    results. *)
Lemma county_seen_row_absorbed (common : Kwargs) (mid post : list Row)
    (row : Row) (r : RawResult) (k : string)
    (results : list RawResult) (seen : gset string) (w : world) :
  FlLoader._skip_row row = Ok false ->
  FlLoader._prep_result common row = Ok r ->
  FlLoader._key r = Ok k ->
  k ∈ seen ->
  (FlLoader.load_rows common (mid ++ row :: post) results seen w).1
  = (FlLoader.load_rows common (mid ++ post) results seen w).1.
Proof.
  intros Hs Hr Hk. revert results seen w.
  induction mid as [|row' mid IH]; intros results seen w Hin.
  - rewrite !app_nil_l.
    rewrite (county_kept_row_adds_result _ _ _ _ _ _ r k Hs Hr Hk).
    by rewrite bool_decide_eq_true_2.
  - rewrite <- !app_comm_cons. cbn [FlLoader.load_rows].
    destruct (FlLoader._skip_row row') as [e|[|]]; [done| |].
    + destruct (field AttributeError row' "OfficeDesc") as [e|office]; [done|]. by apply IH.
    + destruct (_ ≫= _) as [e|[result key]]; [done|].
      case_bool_decide; apply IH; set_solver.
Qed.

Lemma county_repeated_row_absorbed (common : Kwargs) (pre mid post : list Row)
    (row : Row) (results : list RawResult) (seen : gset string) (w : world) :
  (FlLoader.load_rows common (pre ++ row :: mid ++ row :: post) results seen w).1
  = (FlLoader.load_rows common (pre ++ row :: mid ++ post) results seen w).1.
Proof.
  revert results seen w. induction pre as [|row' pre IH]; intros results seen w.
  - rewrite !app_nil_l. cbn [FlLoader.load_rows].
    destruct (FlLoader._skip_row row) as [e|[|]] eqn:Hs; [done| |].
    + destruct (field AttributeError row "OfficeDesc") as [e|office]; [done|].
      by apply county_skipped_row_absorbed.
    + destruct (FlLoader._prep_result common row) as [e|r] eqn:Hr; [done|].
      rewrite bind_Ok_l.
      destruct (FlLoader._key r) as [e|k] eqn:Hk; [done|].
      rewrite bind_Ok_l.
      case_bool_decide;
        apply (county_seen_row_absorbed _ _ _ _ r k); try done; set_solver.
  - rewrite <- !app_comm_cons. cbn [FlLoader.load_rows].
    destruct (FlLoader._skip_row row') as [e|[|]]; [done| |].
    + destruct (field AttributeError row' "OfficeDesc") as [e|office]; [done|]. apply IH.
    + destruct (_ ≫= _) as [e|[result key]]; [done|].
      case_bool_decide; apply IH.
Qed.

(** The outcome and the store of [load], from the results of its loop. *)
Lemma county_load_from_rows (rows : list Row) (w : world) :
  (FlLoader.load rows w).1
  = match (FlLoader.load_rows _build_common_election_kwargs rows [] ∅ w).1 with
    | inl e => Raise e
    | inr _ => Ok tt
    end
  /\ store (FlLoader.load rows w).2
     = match (FlLoader.load_rows _build_common_election_kwargs rows [] ∅ w).1 with
       | inl _ => store w
       | inr batch => store w ++ [batch]
       end.
Proof.
  unfold FlLoader.load.
  pose proof (county_load_rows_store _build_common_election_kwargs rows [] ∅ w) as Hs.
  destruct (FlLoader.load_rows _ rows [] ∅ w) as [[e|batch] w1]; cbn in *;
    by rewrite ?Hs.
Qed.

(** X9. Deduplication absorbs a repeated row: a county file in which a row
    occurs a second time, anywhere after the first, loads with the same
    outcome and stores the same batch as the file without the second
    occurrence. *)
Theorem county_repeated_row_changes_nothing (pre mid post : list Row) (row : Row)
    (w : world) :
  (FlLoader.load (pre ++ row :: mid ++ row :: post) w).1
  = (FlLoader.load (pre ++ row :: mid ++ post) w).1
  /\ store (FlLoader.load (pre ++ row :: mid ++ row :: post) w).2
     = store (FlLoader.load (pre ++ row :: mid ++ post) w).2.
Proof.
  destruct (county_load_from_rows (pre ++ row :: mid ++ row :: post) w) as [-> ->].
  destruct (county_load_from_rows (pre ++ row :: mid ++ post) w) as [-> ->].
  by rewrite county_repeated_row_absorbed.
Qed.

End Idempotence.

Lemma lstrip_suffix (s : string) : exists pre, s = pre +:+ PyStr.lstrip s.
Proof.
  induction s as [|c s (pre & IH)]; [by exists ""|].
  cbn [PyStr.lstrip]. destruct (PyStr.is_space c); [|by exists ""].
  exists (String c pre). rewrite app_cons. by rewrite <- IH.
Qed.

Lemma rstrip_prefix (s : string) : exists post, s = PyStr.rstrip s +:+ post.
Proof.
  induction s as [|c s (post & IH)]; [by exists ""|].
  cbn [PyStr.rstrip]. destruct (PyStr.rstrip s) as [|c' t] eqn:Ht.
  - destruct (PyStr.is_space c).
    + by exists (String c s).
    + exists s. by rewrite app_cons.
  - exists post. rewrite app_cons. by rewrite <- IH.
Qed.

(** The trimmed string occurs in the string. *)
Lemma strip_substring (s : string) :
  exists pre post, s = pre +:+ PyStr.strip s +:+ post.
Proof.
  destruct (lstrip_suffix s) as (pre & Hpre).
  destruct (rstrip_prefix (PyStr.lstrip s)) as (post & Hpost).
  exists pre, post. unfold PyStr.strip. by rewrite <- Hpost.
Qed.

(** X10. What the county loader accepts as an office the precinct loader
    accepts as a contest name: a text whose trimmed form is a target office
    names that office, so a precinct row with this contest name is not
    skipped. *)
Theorem precinct_keeps_county_offices (crow prow : Row) (name : string) :
  crow !! "OfficeDesc" = Some (Some name) ->
  prow !! "contest_name" = Some (Some name) ->
  FlLoader._skip_row crow = Ok false ->
  PrecinctLoader._skip_row prow = Ok false.
Proof.
  intros Ho Hc Hs. apply county_skip_false in Hs as (office & Ho' & Hin).
  assert (office = name) as -> by congruence.
  apply precinct_skip_false. exists name. split; [done|].
  destruct (strip_substring name) as (pre & post & Hname).
  by exists (PyStr.strip name), pre, post.
Qed.

Section Resolution.
Context `{Env}.

(** X11. The county of a precinct row is resolved without regard to case:
    two rows with the same precinct and county names that differ in case
    only get the same jurisdiction code. *)
Theorem precinct_resolution_ignores_case (common : Kwargs) (row1 row2 : Row)
    (r1 r2 : RawResult) (name1 name2 pid : string) :
  PrecinctLoader._prep_precinct_result common row1 = Ok r1 ->
  PrecinctLoader._prep_precinct_result common row2 = Ok r2 ->
  row1 !! "county_name" = Some (Some name1) ->
  row2 !! "county_name" = Some (Some name2) ->
  PyStr.upper name1 = PyStr.upper name2 ->
  row1 !! "precinct_id" = Some (Some pid) ->
  row2 !! "precinct_id" = Some (Some pid) ->
  r1 !! "ocd_id" = r2 !! "ocd_id".
Proof.
  intros H1 H2 Hn1 Hn2 Hup Hp1 Hp2.
  assert (Hm : PrecinctLoader.matching name1 = PrecinctLoader.matching name2)
    by (unfold PrecinctLoader.matching; by rewrite Hup).
  apply precinct_result_inv in H1, H2.
  destruct H1 as (? & ? & ? & pid1 & ? & n1 & c1 & cs1 & ? & ? & ? & H1).
  destruct H1 as (_ & _ & _ & Hq1 & _ & _ & Hc1 & Hm1 & _ & _ & _ & ->).
  destruct H2 as (? & ? & ? & pid2 & ? & n2 & c2 & cs2 & ? & ? & ? & H2).
  destruct H2 as (_ & _ & _ & Hq2 & _ & _ & Hc2 & Hm2 & _ & _ & _ & ->).
  assert (n1 = name1) as -> by congruence.
  assert (n2 = name2) as -> by congruence.
  assert (pid1 = pid) as -> by congruence.
  assert (pid2 = pid) as -> by congruence.
  assert (c1 = c2) as -> by congruence.
  by lookup_kwargs.
Qed.

(** X12. Every result of a precinct batch has as office the contest name of
    its row and as parent jurisdiction its county name, both as the row has
    them, untrimmed; its jurisdiction is the precinct identifier, a space and
    the polling location, an ASCII text, encoded by [str] and trimmed as a
    whole as a byte string is: of its ASCII white space only; its party is
    the trimmed party column. *)
Theorem precinct_result_attributes (rows : list Row) (w w' : world) :
  PrecinctLoader.load rows w = (Ok tt, w') ->
  exists batch,
    store w' = store w ++ [batch]
    /\ forall r, r ∈ batch ->
       exists row contest pid loc cname party,
         row ∈ rows
         /\ row !! "contest_name" = Some (Some contest)
         /\ row !! "precinct_id" = Some (Some pid)
         /\ row !! "polling_location" = Some (Some loc)
         /\ row !! "county_name" = Some (Some cname)
         /\ row !! "party" = Some (Some party)
         /\ PyStr.is_ascii (pid +:+ " " +:+ loc) = true
         /\ r !! "office" = Some (VStr contest)
         /\ r !! "jurisdiction"
            = Some (VStr (PyStr.strip_bytes (pid +:+ " " +:+ loc)))
         /\ r !! "parent_jurisdiction" = Some (VStr cname)
         /\ r !! "party" = Some (VStr (PyStr.strip party)).
Proof.
  intros Hl. apply precinct_load_Ok in Hl as (batch & -> & Hall).
  exists batch. split; [done|]. intros r Hin.
  destruct (precinct_batch_member _ _ _ Hall Hin) as (row & Hrow & Hs & Hr).
  apply precinct_skip_false in Hs as (contest & Hn & _).
  apply precinct_result_inv in Hr.
  destruct Hr as (contest' & ? & ? & pid & loc & cname & ? & ? & party & ? & ? & Hr).
  destruct Hr as (Hc & _ & _ & Hp & Hlo & Hascii & Hcn & _ & Hpa & _ & _ & ->).
  assert (contest' = Some contest) as -> by congruence.
  exists row, contest, pid, loc, cname, party.
  repeat (split; [done|]). repeat split; by lookup_kwargs.
Qed.

(** X15. With an empty jurisdiction table the lookup of a precinct row
    fails with [IndexError] before the county name of the row is read: the
    row may have no county name at all. The row needs a contest name
    column, texts for district and candidate, and a precinct id and a
    polling location that make an ASCII text, for the steps before the
    lookup. *)
Theorem precinct_empty_table_raises (common : Kwargs) (row : Row)
    (district raw pid loc : string) :
  _jurisdictions = [] ->
  is_Some (row !! "contest_name") ->
  row !! "district" = Some (Some district) ->
  row !! "candidate" = Some (Some raw) ->
  row !! "precinct_id" = Some (Some pid) ->
  row !! "polling_location" = Some (Some loc) ->
  PyStr.is_ascii (pid +:+ " " +:+ loc) = true ->
  PrecinctLoader._prep_precinct_result common row = Raise IndexError.
Proof.
  intros Hempty [contest Hname] Hd Hraw Hpid Hloc Hascii.
  by eapply precinct_empty_table_IndexError.
Qed.

End Resolution.

Section Numerals.
Local Open Scope Z_scope.

(** What a digit is not. *)
Lemma digit_facts (c : ascii) :
  PyFloat.is_digit c = true ->
  PyStr.is_space c = false
  /\ PyStr.lower_char c = c
  /\ PyFloat.parse_sign [c] = (false, [c])
  /\ c <> "i"%char /\ c <> "n"%char.
Proof.
  destruct c as [[] [] [] [] [] [] [] []]; intros Hd;
    try discriminate Hd; repeat split; done.
Qed.

Lemma parse_sign_digit (c : ascii) (l : list ascii) :
  PyFloat.is_digit c = true -> PyFloat.parse_sign (c :: l) = (false, c :: l).
Proof.
  destruct c as [[] [] [] [] [] [] [] []]; intros Hd;
    try discriminate Hd; reflexivity.
Qed.

Lemma parse_sign_digits (l : list ascii) :
  Forall (fun c => PyFloat.is_digit c = true) l -> PyFloat.parse_sign l = (false, l).
Proof.
  intros [|c l' Hc _]; [done|]. by apply parse_sign_digit.
Qed.

Lemma rstrip_digits (s : string) :
  Forall (fun c => PyFloat.is_digit c = true) (list_ascii_of_string s) ->
  PyStr.rstrip s = s.
Proof.
  induction s as [|c s IH]; [done|].
  cbn [list_ascii_of_string]. intros Hall. apply Forall_cons in Hall as [Hc Hall].
  cbn [PyStr.rstrip]. rewrite (IH Hall).
  destruct s; [|done].
  by destruct (digit_facts c Hc) as (-> & _).
Qed.

Lemma strip_numeral (s : string) : numeral s -> PyStr.strip s = s.
Proof.
  intros [Hne Hall]. unfold PyStr.strip.
  destruct s as [|c s]; [done|].
  pose proof Hall as Hall'. cbn [list_ascii_of_string] in Hall'.
  apply Forall_cons in Hall' as [Hc _].
  cbn [PyStr.lstrip]. destruct (digit_facts c Hc) as (-> & _).
  by apply rstrip_digits.
Qed.

Lemma span_digits_all (l : list ascii) :
  Forall (fun c => PyFloat.is_digit c = true) l -> PyFloat.span_digits l = (l, []).
Proof.
  induction 1 as [|c l Hc _ IH]; [done|].
  cbn [PyFloat.span_digits]. by rewrite Hc, IH.
Qed.

Lemma parse_decimal_digits (l : list ascii) :
  l <> [] ->
  Forall (fun c => PyFloat.is_digit c = true) l ->
  PyFloat.parse_decimal l = Some (PyFloat.digits_val l, 0).
Proof.
  intros Hne Hall. unfold PyFloat.parse_decimal.
  rewrite (span_digits_all l Hall). rewrite app_nil_r.
  destruct l as [|c l]; [done|]. reflexivity.
Qed.

(** Rounding an integer below [2^53] to a double loses nothing. *)
Lemma round_b64_small (n : Z) :
  0 <= n < 2 ^ 53 ->
  exists m e,
    PyFloat.round_b64 false n 1 = PyFloat.Finite false m e
    /\ PyFloat.trunc false m e = n.
Proof.
  intros [Hn Hlt]. unfold PyFloat.round_b64.
  destruct (n =? 0) eqn:Hz.
  { apply Z.eqb_eq in Hz as ->. by exists 0, 0. }
  apply Z.eqb_neq in Hz. assert (Hpos : 0 < n) by lia.
  change (Z.log2 1) with 0. rewrite Z.sub_0_r.
  pose proof (Z.log2_nonneg n) as Hl0.
  pose proof (proj1 (Z.log2_lt_pow2 n 53 Hpos) Hlt) as Hl53.
  destruct (Z.log2_spec n Hpos) as [Hlow _].
  assert (Hge : PyFloat.ge_pow2 n 1 (Z.log2 n) = true).
  { unfold PyFloat.ge_pow2. rewrite (proj2 (Z.leb_le 0 _) Hl0).
    apply Z.leb_le. lia. }
  rewrite Hge. cbv zeta.
  rewrite Z.max_l by lia.
  destruct (0 <=? Z.log2 n - 52) eqn:Hq.
  - apply Z.leb_le in Hq. assert (Hqe : Z.log2 n - 52 = 0) by lia.
    rewrite Hqe. change (2 ^ 0) with 1. rewrite Z.mul_1_r, Z.div_1_r, Z.mod_1_r.
    change (1 <? 2 * 0) with false. change (1 =? 2 * 0) with false.
    cbn [orb andb]. change (971 <? 0) with false. change (0 =? 971) with false.
    cbn [orb andb]. exists n, 0. split; [done|].
    unfold PyFloat.trunc. cbn. lia.
  - apply Z.leb_gt in Hq.
    rewrite Z.div_1_r, Z.mod_1_r.
    change (1 <? 2 * 0) with false. change (1 =? 2 * 0) with false.
    cbn [orb andb].
    assert (H971 : (971 <? Z.log2 n - 52) = false) by (apply Z.ltb_ge; lia).
    assert (H971' : (Z.log2 n - 52 =? 971) = false) by (apply Z.eqb_neq; lia).
    rewrite H971, H971'. cbn [orb andb].
    eexists _, _. split; [reflexivity|].
    unfold PyFloat.trunc. rewrite (proj2 (Z.leb_gt 0 _) Hq).
    apply Z.div_mul. apply Z.pow_nonzero; lia.
Qed.

Lemma lower_numeral_not_word (s : string) :
  numeral s ->
  ~ (PyStr.lower s = "inf" \/ PyStr.lower s = "infinity") /\ PyStr.lower s <> "nan".
Proof.
  intros [Hne Hall]. destruct s as [|c s]; [done|].
  cbn [list_ascii_of_string] in Hall. apply Forall_cons in Hall as [Hc _].
  destruct (digit_facts c Hc) as (_ & Hlow & _ & Hi & Hn).
  unfold PyStr.lower. cbn [PyStr.map_chars]. rewrite Hlow.
  split; [intros [Heq|Heq]|intros Heq]; injection Heq as Heq _; congruence.
Qed.

(** X13. A vote count written as a plain decimal numeral below [2^53] is
    read exactly: [_votes] returns the number the digits denote. *)
Theorem votes_of_numeral (s : string) :
  numeral s ->
  PyFloat.digits_val (list_ascii_of_string s) < 2 ^ 53 ->
  FlLoader._votes s = Ok (PyFloat.digits_val (list_ascii_of_string s)).
Proof.
  intros Hnum Hlt. pose proof Hnum as [Hne Hall].
  assert (Hof : exists m e,
            PyFloat.of_string s = Some (PyFloat.Finite false m e)
            /\ PyFloat.trunc false m e
               = PyFloat.digits_val (list_ascii_of_string s)).
  { unfold PyFloat.of_string. rewrite (strip_numeral s Hnum).
    rewrite (parse_sign_digits _ Hall), string_of_list_ascii_of_string.
    destruct (lower_numeral_not_word s Hnum) as [Hw1 Hw2].
    rewrite bool_decide_eq_false_2 by done.
    rewrite bool_decide_eq_false_2 by done.
    rewrite parse_decimal_digits; [|by destruct s|done].
    change (0 <=? 0) with true. cbv iota. change (10 ^ 0) with 1.
    rewrite Z.mul_1_r.
    destruct (round_b64_small (PyFloat.digits_val (list_ascii_of_string s)))
      as (m & e & Hr & Ht); [split; [apply digits_val_nonneg | done]|].
    exists m, e. by rewrite Hr. }
  destruct Hof as (m & e & Hof & Ht).
  pose proof (votes_cases s) as Hc. rewrite Hof in Hc. by rewrite Hc, Ht.
Qed.

End Numerals.

(** X14. [_votes] raises nothing but [OverflowError], and raises it exactly
    for a value that [float] reads as an infinity; for every other string it
    returns an integer. *)
Theorem votes_raises_only_overflow (val : string) (e : exn) :
  (FlLoader._votes val = Raise e <->
   e = OverflowError
   /\ exists neg, PyFloat.of_string val = Some (PyFloat.Inf neg))
  /\ ((forall neg, PyFloat.of_string val <> Some (PyFloat.Inf neg)) ->
      exists v, FlLoader._votes val = Ok v).
Proof.
  split; [apply votes_raises|]. intros Hfin.
  destruct (FlLoader._votes val) as [e'|v] eqn:Hv; [|by exists v].
  apply votes_raises in Hv as (_ & neg & Hinf). by destruct (Hfin neg).
Qed.

(** ** The further properties on the files of [Sample] *)

Section FurtherSamples.
#[local] Existing Instance Sample.env.

Lemma county_load_log_witness :
  FlLoader.load Sample.county_file Sample.w0 = (Ok tt, Sample.county_world)
  /\ log Sample.county_world
     = log Sample.w0 ++ (log_line <$> filter logged Sample.county_file).
Proof.
  split; [exact sample_county_load|].
  exact (county_load_log Sample.county_file Sample.w0 Sample.county_world
           sample_county_load).
Defined.

Lemma county_batch_in_file_order_witness :
  FlLoader.load Sample.county_file Sample.w0 = (Ok tt, Sample.county_world)
  /\ exists (cands : list (RawResult * string)) (batch : list RawResult),
       store Sample.county_world = store Sample.w0 ++ [batch]
       /\ Forall2 (county_candidate _build_common_election_kwargs)
                  (county_kept Sample.county_file) cands
       /\ batch `sublist_of` cands.*1
       /\ NoDup batch
       /\ length batch <= length (county_kept Sample.county_file).
Proof.
  split; [exact sample_county_load|].
  exact (county_batch_in_file_order Sample.county_file Sample.w0
           Sample.county_world sample_county_load).
Defined.

Lemma common_attributes_kept_witness :
  FlLoader.load Sample.county_file Sample.w0 = (Ok tt, Sample.county_world)
  /\ (exists batch,
        store Sample.county_world = store Sample.w0 ++ [batch]
        /\ forall r k, r ∈ batch -> k ∉ county_attributes ->
           r !! k = _build_common_election_kwargs !! k)
  /\ exists batch,
       store (World [[Sample.governor_result 10; Sample.governor_result 10]] [])
       = store Sample.w0 ++ [batch]
       /\ forall r k, r ∈ batch -> k ∉ precinct_attributes ->
          r !! k = _build_common_election_kwargs !! k.
Proof.
  split; [exact sample_county_load|]. split.
  - exact (proj1 (common_attributes_kept Sample.county_file Sample.w0
                    Sample.county_world) sample_county_load).
  - exact (proj2 (common_attributes_kept
                    [Sample.governor_row "10"; Sample.governor_row "10"] Sample.w0
                    (World [[Sample.governor_result 10; Sample.governor_result 10]] []))
                 sample_precinct_load).
Defined.

Lemma county_result_attributes_witness :
  FlLoader.load Sample.county_file Sample.w0 = (Ok tt, Sample.county_world)
  /\ exists batch,
       store Sample.county_world = store Sample.w0 ++ [batch]
       /\ forall r, r ∈ batch ->
          exists row last first middle name party,
            row ∈ Sample.county_file
            /\ row !! "CanNameLast" = Some (Some last)
            /\ row !! "CanNameFirst" = Some (Some first)
            /\ row !! "CanNameMiddle" = Some (Some middle)
            /\ row !! "CountyName" = Some (Some name)
            /\ row !! "PartyName" = Some (Some party)
            /\ r !! "family_name" = Some (VStr (PyStr.strip last))
            /\ r !! "given_name" = Some (VStr (PyStr.strip first))
            /\ r !! "additional_name" = Some (VStr (PyStr.strip middle))
            /\ r !! "jurisdiction" = Some (VStr (PyStr.strip name))
            /\ r !! "ocd_id"
               = Some (VStr (mapping_ocd_id +:+ "/county:"
                             +:+ ocd_type_id (PyStr.strip name)))
            /\ r !! "party" = Some (VStr (PyStr.strip party)).
Proof.
  split; [exact sample_county_load|].
  exact (county_result_attributes Sample.county_file Sample.w0
           Sample.county_world sample_county_load).
Defined.

Lemma county_key_of_result_witness :
  Sample.common !! "district" = None
  /\ Sample.common !! "reporting_district" = None
  /\ FlLoader._prep_result Sample.common Sample.senate_row = Ok Sample.senate_result
  /\ FlLoader._key Sample.senate_result = Ok "state-senator-montford-bill--leon-3"
  /\ exists office name,
       Sample.senate_row !! "OfficeDesc" = Some (Some office)
       /\ Sample.senate_row !! "CountyName" = Some (Some name)
       /\ (PyStr.strip office ∈ FlLoader.district_offices ->
           exists num,
             Sample.senate_row !! "Juris1num" = Some (Some num)
             /\ FlLoader._key Sample.senate_result
                = Ok (PyStr.join "-"
                        ([contest_slug Sample.senate_result;
                          candidate_slug Sample.senate_result;
                          slugify (PyStr.strip name) None]
                         ++ if bool_decide (PyStr.strip num = "")
                            then [] else [PyStr.strip num])))
       /\ (PyStr.strip office = "U.S. President by Congressional District" ->
           exists num,
             Sample.senate_row !! "Juris1num" = Some (Some num)
             /\ FlLoader._key Sample.senate_result
                = Ok (PyStr.join "-"
                        [contest_slug Sample.senate_result;
                         candidate_slug Sample.senate_result;
                         slugify (PyStr.strip name) None; PyStr.strip num]))
       /\ ((PyStr.strip office ∉ FlLoader.district_offices) ->
           PyStr.strip office <> "U.S. President by Congressional District" ->
           FlLoader._key Sample.senate_result
           = Ok (PyStr.join "-"
                   [contest_slug Sample.senate_result;
                    candidate_slug Sample.senate_result;
                    slugify (PyStr.strip name) None])).
Proof.
  assert (Hd : Sample.common !! "district" = None) by compute_done.
  assert (Hrd : Sample.common !! "reporting_district" = None) by compute_done.
  assert (Hr : FlLoader._prep_result Sample.common Sample.senate_row
               = Ok Sample.senate_result) by compute_done.
  split; [exact Hd|]. split; [exact Hrd|]. split; [exact Hr|].
  split; [compute_done|].
  exact (county_key_of_result Sample.common Sample.senate_row Sample.senate_result
           Hd Hrd Hr).
Defined.





Lemma sample_accented_load :
  PrecinctLoader.load [Sample.writein_row; Sample.accented_row] Sample.w0
  = (Raise UnicodeEncodeError, Sample.w0).
Proof. compute_done. Qed.

Lemma sample_truncated_load :
  PrecinctLoader.load [Sample.writein_row; Sample.truncated_row] Sample.w0
  = (Raise AttributeError, Sample.w0).
Proof. compute_done. Qed.

(** The control character at the end of the polling location stays in the
    jurisdiction of the result. *)
Lemma sample_separator_result :
  exists r,
    PrecinctLoader._prep_precinct_result Sample.common Sample.separator_row = Ok r
    /\ r !! "jurisdiction" = Some (VStr ("12 Hall" +:+ String "031"%char ""))
    /\ PyStr.strip ("12 Hall" +:+ String "031"%char "") = "12 Hall".
Proof.
  exists (<[ "jurisdiction" := VStr ("12 Hall" +:+ String "031"%char "") ]>
            (Sample.governor_result 10)).
  repeat split; compute_done.
Qed.


Lemma precinct_keeps_county_offices_witness :
  Sample.county_row " Governor " "" "Leon" "Scott" "Rick" "100" !! "OfficeDesc"
  = Some (Some " Governor ")
  /\ Sample.precinct_row "Leon" " Governor " "" "Scott / Carroll" "10"
     !! "contest_name" = Some (Some " Governor ")
  /\ FlLoader._skip_row (Sample.county_row " Governor " "" "Leon" "Scott" "Rick" "100")
     = Ok false
  /\ PrecinctLoader._skip_row
       (Sample.precinct_row "Leon" " Governor " "" "Scott / Carroll" "10")
     = Ok false.
Proof.
  assert (H1 : Sample.county_row " Governor " "" "Leon" "Scott" "Rick" "100"
               !! "OfficeDesc" = Some (Some " Governor ")) by compute_done.
  assert (H2 : Sample.precinct_row "Leon" " Governor " "" "Scott / Carroll" "10"
               !! "contest_name" = Some (Some " Governor ")) by compute_done.
  assert (H3 : FlLoader._skip_row
                 (Sample.county_row " Governor " "" "Leon" "Scott" "Rick" "100")
               = Ok false) by compute_done.
  split; [exact H1|]. split; [exact H2|]. split; [exact H3|].
  exact (precinct_keeps_county_offices _ _ " Governor " H1 H2 H3).
Defined.

Lemma precinct_resolution_ignores_case_witness :
  PrecinctLoader._prep_precinct_result Sample.common (Sample.governor_row "10")
  = Ok (Sample.governor_result 10)
  /\ PrecinctLoader._prep_precinct_result Sample.common Sample.capitals_row
     = Ok Sample.capitals_result
  /\ PyStr.upper "Leon" = PyStr.upper "LEON"
  /\ Sample.governor_result 10 !! "ocd_id" = Sample.capitals_result !! "ocd_id".
Proof.
  assert (H1 : PrecinctLoader._prep_precinct_result Sample.common
                 (Sample.governor_row "10")
               = Ok (Sample.governor_result 10)) by compute_done.
  assert (H2 : PrecinctLoader._prep_precinct_result Sample.common Sample.capitals_row
               = Ok Sample.capitals_result) by compute_done.
  assert (H3 : PyStr.upper "Leon" = PyStr.upper "LEON") by compute_done.
  split; [exact H1|]. split; [exact H2|]. split; [exact H3|].
  apply (precinct_resolution_ignores_case Sample.common (Sample.governor_row "10")
           Sample.capitals_row (Sample.governor_result 10) Sample.capitals_result
           "Leon" "LEON" "12" H1 H2); compute_done.
Defined.

Lemma precinct_result_attributes_witness :
  PrecinctLoader.load [Sample.governor_row "10"; Sample.governor_row "10"] Sample.w0
  = (Ok tt, World [[Sample.governor_result 10; Sample.governor_result 10]] [])
  /\ exists batch,
       store (World [[Sample.governor_result 10; Sample.governor_result 10]] [])
       = store Sample.w0 ++ [batch]
       /\ forall r, r ∈ batch ->
          exists row contest pid loc cname party,
            row ∈ [Sample.governor_row "10"; Sample.governor_row "10"]
            /\ row !! "contest_name" = Some (Some contest)
            /\ row !! "precinct_id" = Some (Some pid)
            /\ row !! "polling_location" = Some (Some loc)
            /\ row !! "county_name" = Some (Some cname)
            /\ row !! "party" = Some (Some party)
            /\ PyStr.is_ascii (pid +:+ " " +:+ loc) = true
            /\ r !! "office" = Some (VStr contest)
            /\ r !! "jurisdiction"
               = Some (VStr (PyStr.strip_bytes (pid +:+ " " +:+ loc)))
            /\ r !! "parent_jurisdiction" = Some (VStr cname)
            /\ r !! "party" = Some (VStr (PyStr.strip party)).
Proof.
  split; [exact sample_precinct_load|].
  exact (precinct_result_attributes
           [Sample.governor_row "10"; Sample.governor_row "10"] Sample.w0
           (World [[Sample.governor_result 10; Sample.governor_result 10]] [])
           sample_precinct_load).
Defined.

(** A row without a county name, and an empty table. *)
Lemma precinct_empty_table_raises_witness :
  Sample.governor_row "10" !! "county_name" = Some (Some "Leon")
  /\ delete "county_name" (Sample.governor_row "10") !! "county_name" = None
  /\ PrecinctLoader._prep_precinct_result (H := Sample.env_with [])
       Sample.common (delete "county_name" (Sample.governor_row "10"))
     = Raise IndexError
  /\ PrecinctLoader._prep_precinct_result (H := Sample.env_with [])
       Sample.common (<[ "county_name" := None ]> (Sample.governor_row "10"))
     = Raise IndexError.
Proof.
  split; [compute_done|]. split; [compute_done|]. split.
  - apply (precinct_empty_table_raises (H := Sample.env_with []) Sample.common
             (delete "county_name" (Sample.governor_row "10"))
             "5" "Scott / Carroll" "12" "Town Hall"); compute_done.
  - apply (precinct_empty_table_raises (H := Sample.env_with []) Sample.common
             (<[ "county_name" := None ]> (Sample.governor_row "10"))
             "5" "Scott / Carroll" "12" "Town Hall"); compute_done.
Defined.


Lemma votes_of_numeral_witness :
  numeral "311"
  /\ (PyFloat.digits_val (list_ascii_of_string "311") < 2 ^ 53)%Z
  /\ FlLoader._votes "311" = Ok (PyFloat.digits_val (list_ascii_of_string "311"))
  /\ PyFloat.digits_val (list_ascii_of_string "311") = 311%Z.
Proof.
  assert (Hn : numeral "311") by (split; [done | by repeat constructor]).
  assert (Hlt : (PyFloat.digits_val (list_ascii_of_string "311") < 2 ^ 53)%Z)
    by compute_done.
  split; [exact Hn|]. split; [exact Hlt|]. split; [|compute_done].
  exact (votes_of_numeral "311" Hn Hlt).
Defined.

End FurtherSamples.
